(** * Personal Carbon Calculator (app.py): emissions model and what-if comparator

    A shallow embedding of the numeric core of [app.py] (the CALCULATIONS
    block of the Calculator tab, the what-if block and the export block),
    together with the properties of the computation model.

    Python [float]s are IEEE 754 binary64 numbers.  They are modelled by
    their exact rational value plus the special values; every arithmetic
    operation is "the exact result, rounded to nearest, ties to even",
    which is how IEEE 754 defines it.  Python [int]s are [Z]. *)

From Stdlib Require Import ZArith QArith Qround Qpower Qabs Lia Lqa.
From Stdlib Require Import List String Bool.
From Stdlib Require Floats.SpecFloat.
Import ListNotations.

Open Scope Q_scope.

(** ** Binary64 arithmetic *)

Module B64.

(** A binary64 value: not-a-number, a signed infinity, a signed zero, or
    a non-zero finite number given by its exact value (in lowest terms). *)
Inductive float : Type :=
| NaN
| Inf (neg : bool)
| Zero (neg : bool)
| Num (q : Q).

Definition pow2 (e : Z) : Q := 2 ^ e.

(** [ilog2 q] is the integer [l] with [2^l <= q < 2^(l+1)], for [0 < q]. *)
Definition ilog2 (q : Q) : Z :=
  let k := (Z.log2 (Qnum q) - Z.log2 (Zpos (Qden q)))%Z in
  if Qle_bool (pow2 k) q then k else (k - 1)%Z.

(** Exponent of the unit in the last place of a positive real: 53 bits of
    precision, smallest exponent -1074 (subnormal numbers). *)
Definition cexp (q : Q) : Z := Z.max (ilog2 q - 52) (-1074).

(** Nearest integer, ties to the even one. *)
Definition rne (x : Q) : Z :=
  let f := Qfloor x in
  match Qcompare (x - inject_Z f) (1 # 2) with
  | Lt => f
  | Gt => (f + 1)%Z
  | Eq => if Z.even f then f else (f + 1)%Z
  end.

(** The positive real [q] rounded to 53 significant bits (exponent
    unbounded above). *)
Definition rnd (q : Q) : Q :=
  inject_Z (rne (q / pow2 (cexp q))) * pow2 (cexp q).

(** Magnitude [r] (already rounded) with sign [neg], as a float:
    overflow gives an infinity, underflow to nothing a zero. *)
Definition pack (neg : bool) (r : Q) : float :=
  if Qle_bool (pow2 1024) r then Inf neg
  else if Qle_bool r 0 then Zero neg
  else Num (Qred (if neg then - r else r)).

(** Round to nearest even: the binary64 value of the real number [q]. *)
Definition RN (q : Q) : float :=
  match Qcompare q 0 with
  | Eq => Zero false
  | Gt => pack false (rnd q)
  | Lt => pack true (rnd (- q))
  end.

Definition sign (x : float) : bool :=
  match x with
  | NaN => false
  | Inf s | Zero s => s
  | Num q => negb (Qle_bool 0 q)
  end.

(** Exact value of a finite float (0 for the others). *)
Definition F2Q (x : float) : Q :=
  match x with
  | Num q => q
  | _ => 0
  end.

Definition is_finite (x : float) : bool :=
  match x with
  | Zero _ | Num _ => true
  | _ => false
  end.

Definition fopp (x : float) : float :=
  match x with
  | NaN => NaN
  | Inf s => Inf (negb s)
  | Zero s => Zero (negb s)
  | Num q => Num (Qred (- q))
  end.

Definition fmul (x y : float) : float :=
  match x, y with
  | NaN, _ | _, NaN => NaN
  | Inf _, Zero _ | Zero _, Inf _ => NaN
  | Inf _, _ | _, Inf _ => Inf (xorb (sign x) (sign y))
  | Zero _, _ | _, Zero _ => Zero (xorb (sign x) (sign y))
  | Num a, Num b => RN (a * b)
  end.

Definition fdiv (x y : float) : float :=
  match x, y with
  | NaN, _ | _, NaN => NaN
  | Inf _, Inf _ | Zero _, Zero _ => NaN
  | Inf _, _ | _, Zero _ => Inf (xorb (sign x) (sign y))
  | Zero _, _ | _, Inf _ => Zero (xorb (sign x) (sign y))
  | Num a, Num b => RN (a / b)
  end.

Definition fadd (x y : float) : float :=
  match x, y with
  | NaN, _ | _, NaN => NaN
  | Inf s, Inf t => if Bool.eqb s t then x else NaN
  | Inf _, _ => x
  | _, Inf _ => y
  | Zero s, Zero t => Zero (s && t)
  | Zero _, Num _ => y
  | Num _, Zero _ => x
  | Num a, Num b => RN (a + b)
  end.

Definition fsub (x y : float) : float := fadd x (fopp y).

(** Comparison as Python's [<], [<=], [==] on floats: false whenever a
    NaN is involved; the two zeros are equal. *)
Definition fcompare (x y : float) : option comparison :=
  match x, y with
  | NaN, _ | _, NaN => None
  | Inf s, Inf t => Some (if s then (if t then Eq else Lt) else (if t then Gt else Eq))
  | Inf s, _ => Some (if s then Lt else Gt)
  | _, Inf t => Some (if t then Gt else Lt)
  | _, _ => Some (Qcompare (F2Q x) (F2Q y))
  end.

Definition fltb (x y : float) : bool :=
  match fcompare x y with Some Lt => true | _ => false end.

Definition fleb (x y : float) : bool :=
  match fcompare x y with Some Lt | Some Eq => true | _ => false end.

Definition feqb (x y : float) : bool :=
  match fcompare x y with Some Eq => true | _ => false end.

Definition fabs (x : float) : float :=
  match x with
  | NaN => NaN
  | Inf _ => Inf false
  | Zero _ => Zero false
  | Num q => Num (Qred (Qabs q))
  end.

(** A [float] of this model denotes a binary64 number when its magnitude
    is below 2^1024 and is left unchanged by rounding. *)
Definition is_binary64 (x : float) : bool :=
  match x with
  | Num q =>
      negb (Qeq_bool q 0) && Qeq_bool (rnd (Qabs q)) (Qabs q)
      && negb (Qle_bool (pow2 1024) (Qabs q))
  | _ => true
  end.

(** The same float, bit for bit (unlike [feqb], which equates the zeros). *)
Definition same_float (x y : float) : bool :=
  match x, y with
  | NaN, NaN => true
  | Inf s, Inf t | Zero s, Zero t => Bool.eqb s t
  | Num a, Num b => Z.eqb (Qnum a) (Qnum b) && Pos.eqb (Qden a) (Qden b)
  | _, _ => false
  end.

(** [x <= y] holds. *)
Definition fle (x y : float) : Prop := fleb x y = true.

(** [x] and [y] compare equal. *)
Definition feqv (x y : float) : Prop := fle x y /\ fle y x.

(** [0 <= x]: a zero, a positive number or plus infinity. *)
Definition nn (x : float) : Prop := fle (Zero false) x.

(** A finite float between 0 and [2^k], and its boolean form. *)
Definition bnd (x : float) (k : Z) : Prop :=
  is_finite x = true /\ 0 <= F2Q x /\ F2Q x <= pow2 k.

Definition bndb (x : float) (k : Z) : bool :=
  is_finite x && Qle_bool 0 (F2Q x) && Qle_bool (F2Q x) (pow2 k).

(** A finite float with a clear sign bit. *)
Definition posb (x : float) : bool := is_finite x && negb (sign x).

(** A finite float above zero. *)
Definition positive_float (x : float) : bool :=
  is_finite x && fltb (Zero false) x.

(** A unary operation that is monotone on the non-negative floats (and
    keeps them non-negative). *)
Definition monotone_nn (f : float -> float) : Prop :=
  forall x y, nn x -> fle x y -> nn (f x) /\ fle (f x) (f y).

(** An emission factor: a positive number of at most [2^k]. *)
Definition factor_ok (k : Z) (x : float) : bool :=
  bndb x k && positive_float x.

Definition factor_pos (x : float) : Prop := exists c, x = Num c /\ 0 < c.

(** A bound on the rounding error of numbers below 2^10. *)
Definition tiny : Q := 1 # 1000000000000.

(** A decimal literal [n/d] of the source text, e.g. [0.716] is
    [lit 716 1000]: the nearest binary64 number. *)
Definition lit (n : Z) (d : positive) : float := RN (n # d).

(** Bridge to the Standard Library's reference implementation of IEEE 754
    ([SpecFloat]), used to cross-check the operations above. *)
Definition to_SF (x : float) : SpecFloat.spec_float :=
  match x with
  | NaN => SpecFloat.S754_nan
  | Inf s => SpecFloat.S754_infinity s
  | Zero s => SpecFloat.S754_zero s
  | Num q =>
      let a := Qabs q in
      let e := cexp a in
      match Qfloor (a / pow2 e) with
      | Zpos m => SpecFloat.S754_finite (sign x) m e
      | _ => SpecFloat.S754_nan
      end
  end.

End B64.

(** ** The Python operations the program uses *)

Module Py.
Import B64.

(** The exceptions the calculation can raise: a dictionary lookup with an
    absent key, and the conversion of an [int] too large for a float. *)
Inductive exn : Type :=
| KeyError (key : string)
| OverflowError.

Inductive result (A : Type) : Type :=
| Ok (a : A)
| Raise (e : exn).
Arguments Ok {A} a.
Arguments Raise {A} e.

Definition bind {A B : Type} (r : result A) (k : A -> result B) : result B :=
  match r with
  | Ok a => k a
  | Raise e => Raise e
  end.

Notation "x <- e ;; k" := (bind e (fun x => k))
  (at level 61, e at next level, right associativity).

Definition is_ok {A : Type} (r : result A) : bool :=
  match r with Ok _ => true | Raise _ => false end.

(** A [dict] with string keys, in insertion order. *)
Definition dict (V : Type) : Type := list (string * V).

(** [d[k]]: raises [KeyError] when [k] is absent. *)
Fixpoint getitem {V : Type} (d : dict V) (k : string) : result V :=
  match d with
  | [] => Raise (KeyError k)
  | (k', v) :: d' => if String.eqb k k' then Ok v else getitem d' k
  end.

Definition keys {V : Type} (d : dict V) : list string := map fst d.
Definition values {V : Type} (d : dict V) : list V := map snd d.

(** [float(n)] and the implicit conversion of an [int] operand in mixed
    arithmetic: correctly rounded, [OverflowError] beyond the float range. *)
Definition of_int (n : Z) : result float :=
  match RN (inject_Z n) with
  | Inf _ => Raise OverflowError
  | x => Ok x
  end.

(** [10^ndigits]. *)
Definition scale (ndigits : nat) : Q := inject_Z (10 ^ Z.of_nat ndigits).

(** The decimal, in units of [10^-ndigits], nearest to a finite float
    (ties to even): what [round] selects. *)
Definition decimal (x : float) (ndigits : nat) : Z := rne (F2Q x * scale ndigits).

(** [round(x, ndigits)] on a float, [0 <= ndigits]: the exact value of [x]
    is rounded to [ndigits] decimals (ties to even), and the resulting
    decimal is read back as the nearest float.  NaN, infinities and zeros
    round to themselves.  (CPython raises [OverflowError] when reading back
    gives an infinity; for a binary64 [x] that cannot happen, since a
    binary64 number at or above 2^52 is an integer, so the model returns
    the value read back.) *)
Definition py_round (x : float) (ndigits : nat) : float :=
  match x with
  | Num _ =>
      let n := decimal x ndigits in
      if (n =? 0)%Z then Zero (sign x) else RN (inject_Z n / scale ndigits)
  | _ => x
  end.

(** [sum(xs)] over floats: starts from the int [0] and adds from left to
    right (CPython up to 3.11). *)
Definition py_sum (xs : list float) : float :=
  fold_left fadd xs (Zero false).

(** [sum(xs)] as CPython 3.12 and later compute it over floats: the first
    item is added to [0], the others with Neumaier's compensated
    summation, the compensation being added at the end when it is finite
    and non-zero. *)
Definition neumaier_step (st : float * float) (x : float) : float * float :=
  let '(f, c) := st in
  let t := fadd f x in
  let c' := if fleb (fabs x) (fabs f)
            then fadd c (fadd (fsub f t) x)
            else fadd c (fadd (fsub x t) f) in
  (t, c').

Definition py_sum_compensated (xs : list float) : float :=
  match xs with
  | [] => Zero false
  | x :: rest =>
      let '(f, c) := fold_left neumaier_step rest (fadd (Zero false) x, Zero false) in
      if is_finite c && negb (feqb c (Zero false)) then fadd f c else f
  end.

(** [d[k] = v] on a dict: the value of a key already present is replaced
    where it stands, a new key is appended. *)
Fixpoint setitem {V : Type} (d : dict V) (k : string) (v : V) : dict V :=
  match d with
  | [] => [(k, v)]
  | (k', v') :: d' =>
      if String.eqb k k' then (k', v) :: d' else (k', v') :: setitem d' k v
  end.

(** [a | b]: a copy of [a] updated with the items of [b], in their order. *)
Definition dict_union {V : Type} (a b : dict V) : dict V :=
  fold_left (fun acc kv => setitem acc (fst kv) (snd kv)) b a.

(** [s.lower()] on a string whose letters are ASCII (as the keys of the
    program's tables are): the letters A-Z are replaced, the other
    characters kept. *)
Definition ascii_lower (c : Ascii.ascii) : Ascii.ascii :=
  let n := Ascii.nat_of_ascii c in
  if Nat.leb 65 n && Nat.leb n 90 then Ascii.ascii_of_nat (n + 32) else c.

Fixpoint str_lower (s : string) : string :=
  match s with
  | EmptyString => EmptyString
  | String c r => String (ascii_lower c) (str_lower r)
  end.

(** The objects handed to [st.json] and [json.dumps]: [None], strings,
    ints, floats and dicts of these. *)
#[warnings="-register-all"] Inductive value : Type :=
| VNone
| VStr (s : string)
| VInt (n : Z)
| VFloat (x : float)
| VDict (d : list (string * value)).

(** A dict of floats as an object. *)
Definition float_items (d : dict float) : value :=
  VDict (map (fun kv => (fst kv, VFloat (snd kv))) d).

End Py.

(** ** The program *)

Module App.
Import B64 Py.
Open Scope string_scope.

(** *** Constants (app.py, lines 14-48) *)

Definition COUNTRIES : list string := ["India"].

Definition ELECTRICITY_EF : dict float :=
  [("India", lit 716 1000)].

Definition TRANSPORT_EF_PAXKM : dict float :=
  [("car", lit 170 1000); ("bus", lit 97 1000); ("rail", lit 8 1000)].

Definition DIET_DAILY : dict float :=
  [("High meat", lit 719 100); ("Medium meat", lit 563 100);
   ("Low meat", lit 467 100); ("Fish-based", lit 391 100);
   ("Vegetarian", lit 381 100); ("Vegan", lit 289 100)].

Definition WASTE_EF : dict float :=
  [("Landfill (typical managed)", lit 45 100);
   ("Incineration (energy recovery)", lit 110 100);
   ("Composting/AD (food/green fractions)", lit 10 100)].

Definition INDIA_PER_CAPITA_T_CO2 : float := lit 2 1.

(** *** Inputs: the values of the Calculator tab's widgets (lines 56-96) *)

Record ActivityInput : Type := {
  country : string;
  mode : string;
  daily_commute_km : float;
  commute_days : Z;
  occupancy_input : float;      (* the "Car occupancy" number input *)
  monthly_kwh : float;
  diet_type : string;
  weekly_waste_kg : float;
  waste_treatment : string;
  segregation : Z
}.

(** Line 79: [car_occupancy = 1 if mode != "car" else st.number_input(...)]. *)
Definition car_occupancy (i : ActivityInput) : float :=
  if negb (String.eqb (mode i) "car") then lit 1 1 else occupancy_input i.

(** Line 83. *)
Definition annual_kwh (i : ActivityInput) : float :=
  fmul (monthly_kwh i) (lit 12 1).

(** *** Calculations (lines 98-128) *)

(** Lines 100-108. *)
Definition annual_commute_km (i : ActivityInput) : result float :=
  days <- of_int (commute_days i) ;;
  Ok (fmul (daily_commute_km i) days).

Definition transport_emissions_kg (i : ActivityInput) : result float :=
  annual <- annual_commute_km i ;;
  let pax_km := annual in
  if String.eqb (mode i) "car" && fltb (Zero false) (car_occupancy i) then
    let pax_km := annual in
    transport_ef <- getitem TRANSPORT_EF_PAXKM "car" ;;
    Ok (fmul pax_km transport_ef)
  else
    transport_ef <- getitem TRANSPORT_EF_PAXKM (mode i) ;;
    Ok (fmul pax_km transport_ef).

(** Line 111. *)
Definition electricity_emissions_kg (i : ActivityInput) : result float :=
  ef <- getitem ELECTRICITY_EF (country i) ;;
  Ok (fmul (annual_kwh i) ef).

(** Line 114. *)
Definition diet_emissions_kg (i : ActivityInput) : result float :=
  daily <- getitem DIET_DAILY (diet_type i) ;;
  Ok (fmul daily (lit 365 1)).

(** The expression [1 - p / 100.0] for an int [p] (lines 117, 204, 212). *)
Definition one_minus_percent (p : Z) : result float :=
  pf <- of_int p ;;
  Ok (fsub (lit 1 1) (fdiv pf (lit 100 1))).

(** Lines 117-119. *)
Definition waste_emissions_kg (i : ActivityInput) : result float :=
  share <- one_minus_percent (segregation i) ;;
  let residual_weekly := fmul (weekly_waste_kg i) share in
  let annual_residual_kg := fmul residual_weekly (lit 52 1) in
  ef <- getitem WASTE_EF (waste_treatment i) ;;
  Ok (fmul annual_residual_kg ef).

(** Kilograms to tonnes ([kg / 1000.0]), then three decimals. *)
Definition raw_tonnes (kg : float) : float := fdiv kg (lit 1000 1).

Definition tonnes (kg : float) : float := py_round (raw_tonnes kg) 3.

(** Lines 122-127. *)
Definition category_tonnes (i : ActivityInput) : result (dict float) :=
  t <- transport_emissions_kg i ;;
  e <- electricity_emissions_kg i ;;
  d <- diet_emissions_kg i ;;
  w <- waste_emissions_kg i ;;
  Ok [("Transportation", tonnes t); ("Electricity", tonnes e);
      ("Diet", tonnes d); ("Waste", tonnes w)].

(** Line 128. *)
Definition total_of (cats : dict float) : float :=
  py_round (py_sum (values cats)) 3.

Definition total_tonnes (i : ActivityInput) : result float :=
  cats <- category_tonnes i ;;
  Ok (total_of cats).

(** The model's output: the per-category tonnes and the total. *)
Record CategoryResult : Type := {
  categories : dict float;
  total : float
}.

Definition compute (i : ActivityInput) : result CategoryResult :=
  cats <- category_tonnes i ;;
  Ok {| categories := cats; total := total_of cats |}.

(** [cats[k]] for the four keys the program writes; NaN stands for an
    absent key, which never happens for a result of [compute]. *)
Definition cat (cats : dict float) (k : string) : float :=
  match getitem cats k with
  | Ok v => v
  | Raise _ => NaN
  end.

(** *** What-if block (lines 184-223) *)

(** The values of the what-if widgets (lines 186-192). *)
Record WhatIf : Type := {
  alt_mode : string;
  alt_occupancy : float;
  kwh_cut : Z;
  diet_switch : string;
  extra_segregation : Z
}.

(** Lines 196-201. *)
Definition new_trans_kg (i : ActivityInput) (w : WhatIf) : result float :=
  new_transport_ef <- getitem TRANSPORT_EF_PAXKM (alt_mode w) ;;
  days <- of_int (commute_days i) ;;
  let new_paxkm := fmul (daily_commute_km i) days in
  Ok (fmul new_paxkm new_transport_ef).

(** Lines 204-205. *)
Definition new_monthly_kwh (i : ActivityInput) (w : WhatIf) : result float :=
  share <- one_minus_percent (kwh_cut w) ;;
  Ok (fmul (monthly_kwh i) share).

Definition new_elec_kg (i : ActivityInput) (w : WhatIf) : result float :=
  kwh <- new_monthly_kwh i w ;;
  ef <- getitem ELECTRICITY_EF (country i) ;;
  Ok (fmul (fmul kwh (lit 12 1)) ef).

(** Line 208. *)
Definition new_diet_kg (w : WhatIf) : result float :=
  daily <- getitem DIET_DAILY (diet_switch w) ;;
  Ok (fmul daily (lit 365 1)).

(** Line 211: [min(100, segregation + extra_segregation)], on ints. *)
Definition new_segregation (i : ActivityInput) (w : WhatIf) : Z :=
  Z.min 100 (segregation i + extra_segregation w).

(** Lines 212-213. *)
Definition new_waste_kg (i : ActivityInput) (w : WhatIf) : result float :=
  share <- one_minus_percent (new_segregation i w) ;;
  let new_residual_weekly := fmul (weekly_waste_kg i) share in
  ef <- getitem WASTE_EF (waste_treatment i) ;;
  Ok (fmul (fmul new_residual_weekly (lit 52 1)) ef).

(** Line 215. *)
Definition new_total_t (i : ActivityInput) (w : WhatIf) : result float :=
  t <- new_trans_kg i w ;;
  e <- new_elec_kg i w ;;
  d <- new_diet_kg w ;;
  ws <- new_waste_kg i w ;;
  Ok (py_round (fdiv (fadd (fadd (fadd t e) d) ws) (lit 1000 1)) 3).

(** Line 216. *)
Definition delta_t (i : ActivityInput) (w : WhatIf) : result float :=
  cats <- category_tonnes i ;;
  nt <- new_total_t i w ;;
  t <- getitem cats "Transportation" ;;
  e <- getitem cats "Electricity" ;;
  d <- getitem cats "Diet" ;;
  ws <- getitem cats "Waste" ;;
  Ok (py_round (fsub nt (py_sum [t; e; d; ws])) 3).

(** Lines 222-223: the "Potential reduction" metric. *)
Definition potential_reduction (i : ActivityInput) (w : WhatIf) : result float :=
  d <- delta_t i w ;;
  let saved := fopp d in
  Ok (if fltb (Zero false) saved then saved else Zero false).

(** The alternate input that the what-if widgets describe: the baseline
    with the commute mode, the (cut) monthly consumption, the diet and the
    (capped) segregation rate replaced.  The program never builds it; it
    is what the comparator of the specification would pass to [compute]. *)
Definition alternate_input (i : ActivityInput) (w : WhatIf) : result ActivityInput :=
  kwh <- new_monthly_kwh i w ;;
  Ok {| country := country i;
        mode := alt_mode w;
        daily_commute_km := daily_commute_km i;
        commute_days := commute_days i;
        occupancy_input := alt_occupancy w;
        monthly_kwh := kwh;
        diet_type := diet_switch w;
        weekly_waste_kg := weekly_waste_kg i;
        waste_treatment := waste_treatment i;
        segregation := new_segregation i w |}.

(** *** Export block (lines 243-282) *)

(** The "Total" value of the CSV rows (line 247) and of the JSON object
    (line 274): [sum(category_tonnes.values())]. *)
Definition export_total (cats : dict float) : float := py_sum (values cats).

(** The rows of the data frame, and the [results_tCO2e] object. *)
Definition df_rows (i : ActivityInput) : result (dict float) :=
  cats <- category_tonnes i ;;
  Ok (cats ++ [("Total", export_total cats)])%list.

Definition results_tCO2e (i : ActivityInput) : result (dict float) :=
  cats <- category_tonnes i ;;
  Ok (cats ++ [("Total", export_total cats)])%list.

(** *** Input domain *)

Definition mem (k : string) (l : list string) : bool :=
  existsb (String.eqb k) l.

(** A quantity: a binary64 number, finite and not below zero. *)
Definition quantity (x : float) : bool :=
  is_binary64 x && is_finite x && fleb (Zero false) x.

(** The domain of an input record: each select box holds a key of its
    table, the quantities are floats [>= 0], the commute days lie in
    [0, 365], the segregation rate in [0, 100] and the occupancy is at
    least 1. *)
Definition valid_input (i : ActivityInput) : bool :=
  mem (country i) COUNTRIES
  && mem (mode i) ["car"; "bus"; "rail"]
  && quantity (daily_commute_km i)
  && (0 <=? commute_days i)%Z && (commute_days i <=? 365)%Z
  && is_binary64 (occupancy_input i) && fleb (lit 1 1) (occupancy_input i)
  && quantity (monthly_kwh i)
  && mem (diet_type i) (keys DIET_DAILY)
  && quantity (weekly_waste_kg i)
  && mem (waste_treatment i) (keys WASTE_EF)
  && (0 <=? segregation i)%Z && (segregation i <=? 100)%Z.

(** The upper ends of the three float sliders (lines 74, 82, 92): 200 km
    a day, 2000 kWh a month, 100 kg a week. *)
Definition within_widget_ranges (i : ActivityInput) : bool :=
  fleb (daily_commute_km i) (lit 200 1)
  && fleb (monthly_kwh i) (lit 2000 1)
  && fleb (weekly_waste_kg i) (lit 100 1).

(** Every key of the record is a key of its table. *)
Definition recognized (i : ActivityInput) : bool :=
  mem (mode i) (keys TRANSPORT_EF_PAXKM)
  && mem (country i) (keys ELECTRICITY_EF)
  && mem (diet_type i) (keys DIET_DAILY)
  && mem (waste_treatment i) (keys WASTE_EF).

(** One category of the result. *)
Definition category (i : ActivityInput) (k : string) : result float :=
  r <- compute i ;; getitem (categories r) k.

(** The total the model gives for the alternate input. *)
Definition alternate_total (i : ActivityInput) (w : WhatIf) : result float :=
  a <- alternate_input i w ;;
  r <- compute a ;;
  Ok (total r).

(** Copies of an input with one field replaced. *)
Definition with_occupancy (i : ActivityInput) (o : float) : ActivityInput :=
  {| country := country i; mode := mode i;
     daily_commute_km := daily_commute_km i; commute_days := commute_days i;
     occupancy_input := o; monthly_kwh := monthly_kwh i;
     diet_type := diet_type i; weekly_waste_kg := weekly_waste_kg i;
     waste_treatment := waste_treatment i; segregation := segregation i |}.

Definition with_monthly_kwh (i : ActivityInput) (k : float) : ActivityInput :=
  {| country := country i; mode := mode i;
     daily_commute_km := daily_commute_km i; commute_days := commute_days i;
     occupancy_input := occupancy_input i; monthly_kwh := k;
     diet_type := diet_type i; weekly_waste_kg := weekly_waste_kg i;
     waste_treatment := waste_treatment i; segregation := segregation i |}.

Definition with_weekly_waste_kg (i : ActivityInput) (k : float) : ActivityInput :=
  {| country := country i; mode := mode i;
     daily_commute_km := daily_commute_km i; commute_days := commute_days i;
     occupancy_input := occupancy_input i; monthly_kwh := monthly_kwh i;
     diet_type := diet_type i; weekly_waste_kg := k;
     waste_treatment := waste_treatment i; segregation := segregation i |}.

Definition with_commute_days (i : ActivityInput) (n : Z) : ActivityInput :=
  {| country := country i; mode := mode i;
     daily_commute_km := daily_commute_km i; commute_days := n;
     occupancy_input := occupancy_input i; monthly_kwh := monthly_kwh i;
     diet_type := diet_type i; weekly_waste_kg := weekly_waste_kg i;
     waste_treatment := waste_treatment i; segregation := segregation i |}.

Definition with_daily_commute_km (i : ActivityInput) (d : float) : ActivityInput :=
  {| country := country i; mode := mode i;
     daily_commute_km := d; commute_days := commute_days i;
     occupancy_input := occupancy_input i; monthly_kwh := monthly_kwh i;
     diet_type := diet_type i; weekly_waste_kg := weekly_waste_kg i;
     waste_treatment := waste_treatment i; segregation := segregation i |}.

Definition with_segregation (i : ActivityInput) (s : Z) : ActivityInput :=
  {| country := country i; mode := mode i;
     daily_commute_km := daily_commute_km i; commute_days := commute_days i;
     occupancy_input := occupancy_input i; monthly_kwh := monthly_kwh i;
     diet_type := diet_type i; weekly_waste_kg := weekly_waste_kg i;
     waste_treatment := waste_treatment i; segregation := s |}.

(** *** The widgets' default values *)

(** Lines 56, 73-95: India, car, 15 km, 240 days, occupancy 1.0, 250 kWh,
    "Medium meat", 4 kg, the first treatment pathway, 20 %. *)
Definition default_input : ActivityInput :=
  {| country := "India"; mode := "car";
     daily_commute_km := lit 15 1; commute_days := 240;
     occupancy_input := lit 1 1; monthly_kwh := lit 250 1;
     diet_type := "Medium meat"; weekly_waste_kg := lit 4 1;
     waste_treatment := "Landfill (typical managed)"; segregation := 20 |}.

(** Lines 186-192: bus, occupancy 2.0, 20 % cut, "Vegan", +20 points. *)
Definition default_whatif : WhatIf :=
  {| alt_mode := "bus"; alt_occupancy := lit 2 1; kwh_cut := 20;
     diet_switch := "Vegan"; extra_segregation := 20 |}.

(** *** Other inputs used below *)

(** The defaults with every quantity at zero. *)
Definition zero_input : ActivityInput :=
  {| country := "India"; mode := "car";
     daily_commute_km := Zero false; commute_days := 0;
     occupancy_input := lit 1 1; monthly_kwh := Zero false;
     diet_type := "Medium meat"; weekly_waste_kg := Zero false;
     waste_treatment := "Landfill (typical managed)"; segregation := 20 |}.

(** A bus commuter on a vegan diet, and what-if widgets set to leave
    every dimension as it is. *)
Definition bus_input : ActivityInput :=
  {| country := "India"; mode := "bus";
     daily_commute_km := lit 15 1; commute_days := 240;
     occupancy_input := lit 1 1; monthly_kwh := lit 200 1;
     diet_type := "Vegan"; weekly_waste_kg := lit 4 1;
     waste_treatment := "Landfill (typical managed)"; segregation := 40 |}.

Definition no_change : WhatIf :=
  {| alt_mode := "bus"; alt_occupancy := lit 2 1; kwh_cut := 0;
     diet_switch := "Vegan"; extra_segregation := 0 |}.

(** The defaults with a monthly consumption of 10^16 kWh. *)
Definition huge_input : ActivityInput :=
  with_monthly_kwh default_input (lit 10000000000000000 1).

(** The positions of the monthly-consumption slider (line 82): 0.0 to
    2000.0 in steps of 10.0. *)
Definition slider_kwh (n : nat) : float := lit (10 * Z.of_nat n) 1.

(** The Electricity value (line 124) for a monthly consumption. *)
Definition electricity_tonnes (kwh : float) : float :=
  tonnes (fmul (fmul kwh (lit 12 1)) (lit 716 1000)).

(** *** Checks on the diet presets, settled by evaluation *)

(** What the rounding to three decimals does to a preset: the unrounded
    tonnes are below 2^2, the decimal chosen is at least 1.055 and within
    0.00046 of the unrounded value, and the rounded value compares at
    least 1.055. *)
Definition diet_check (daily : float) : bool :=
  let raw := raw_tonnes (fmul daily (lit 365 1)) in
  bndb raw 2
  && (1055 <=? decimal raw 3)%Z
  && Qle_bool (Qabs (inject_Z (decimal raw 3) / scale 3 - F2Q raw)) (46 # 100000)
  && fleb (lit 1055 1000) (tonnes (fmul daily (lit 365 1))).

(** The rounded diet value is a positive binary64 number that rounding
    (to a float, or to three decimals) leaves unchanged, also when it is
    the only non-zero category of a total. *)
Definition diet_fixed (daily : float) : bool :=
  let D := tonnes (fmul daily (lit 365 1)) in
  same_float (RN (F2Q D)) D
  && same_float (py_round D 3) D
  && positive_float D
  && same_float
       (total_of [("Transportation", Zero false); ("Electricity", Zero false);
                  ("Diet", D); ("Waste", Zero false)]) D.

(** *** Results panel (lines 131-177) *)

(** Lines 148-151: the sizes handed to the pie chart,
    [if sum(sizes) <= 0: sizes = [1e-6] * len(sizes)]. *)
Definition pie_sizes (cats : dict float) : list float :=
  let sizes := values cats in
  if fleb (py_sum sizes) (Zero false)
  then repeat (lit 1 1000000) (List.length sizes)
  else sizes.

(** Lines 158-169: the "Inputs" object of the calculation details. *)
Definition details_inputs (i : ActivityInput) : value :=
  VDict [("country", VStr (country i));
         ("commute_mode", VStr (mode i));
         ("daily_commute_km", VFloat (daily_commute_km i));
         ("commute_days", VInt (commute_days i));
         ("car_occupancy",
            if String.eqb (mode i) "car" then VFloat (occupancy_input i) else VNone);
         ("monthly_kwh", VFloat (monthly_kwh i));
         ("diet_type", VStr (diet_type i));
         ("weekly_waste_kg", VFloat (weekly_waste_kg i));
         ("segregation_percent", VInt (segregation i));
         ("waste_treatment", VStr (waste_treatment i))].

(** Lines 157-177: the object of the "See calculation details" expander;
    [category_tonnes] and [total_tonnes] are the values of lines 122-128. *)
Definition details (i : ActivityInput) : result value :=
  cats <- category_tonnes i ;;
  ef_e <- getitem ELECTRICITY_EF (country i) ;;
  daily <- getitem DIET_DAILY (diet_type i) ;;
  Ok (VDict
        [("Inputs", details_inputs i);
         ("Emission factors (kgCO2e per unit)",
            VDict [("transport", float_items TRANSPORT_EF_PAXKM);
                   ("electricity", VFloat ef_e);
                   ("diet_daily", VFloat daily);
                   ("waste", float_items WASTE_EF)]);
         ("Results (tCO2e/year)",
            float_items (dict_union cats [("Total", total_of cats)]))]).

(** *** Quick wins (lines 225-240) *)

Definition transit_advice : string :=
  "Shift more commute days to **bus/rail**.".

Definition electricity_advice : string :=
  "Adopt **efficient appliances**, **LED lighting**, and **AC setpoint 24–26°C**.".

Definition diet_advice (diet : string) : string :=
  "Move toward **" ++ str_lower diet ++ "** patterns (batch cooking, legumes, millets).".

Definition segregation_advice : string :=
  "Improve **segregation at source**; compost wet waste; keep recyclables clean/dry.".

Definition optimized_line : string :=
  "• Your scenario already looks optimized—nice!".

(** Lines 227-235: the list [recs] after the four tests. *)
Definition recs (i : ActivityInput) (w : WhatIf) : result (list string) :=
  let recs := [] in
  let recs :=
    if mem (alt_mode w) ["bus"; "rail"] && String.eqb (mode i) "car"
    then (recs ++ [transit_advice])%list else recs in
  let recs :=
    if (10 <=? kwh_cut w)%Z then (recs ++ [electricity_advice])%list else recs in
  switched <- getitem DIET_DAILY (diet_switch w) ;;
  current <- getitem DIET_DAILY (diet_type i) ;;
  let recs :=
    if fltb switched current
    then (recs ++ [diet_advice (diet_switch w)])%list else recs in
  let recs :=
    if (segregation i <? new_segregation i w)%Z
    then (recs ++ [segregation_advice])%list else recs in
  Ok recs.

(** Lines 236-240: the lines written under "Quick wins". *)
Definition quick_wins (i : ActivityInput) (w : WhatIf) : result (list string) :=
  recs <- recs i w ;;
  match recs with
  | [] => Ok [optimized_line]
  | _ => Ok (map (fun r => "• " ++ r) recs)
  end.

(** The position of a key in a select box (0 for the first option). *)
Fixpoint position (k : string) (options : list string) : option nat :=
  match options with
  | [] => None
  | o :: rest =>
      if String.eqb k o then Some 0%nat
      else match position k rest with
           | Some n => Some (S n)
           | None => None
           end
  end.

(** *** JSON export (lines 264-275) *)

(** Lines 266-273: the "inputs" object. *)
Definition export_inputs (i : ActivityInput) : value :=
  VDict [("commute",
            VDict [("mode", VStr (mode i));
                   ("daily_km", VFloat (daily_commute_km i));
                   ("days", VInt (commute_days i))]);
         ("electricity_monthly_kwh", VFloat (monthly_kwh i));
         ("diet_type", VStr (diet_type i));
         ("waste_weekly_kg", VFloat (weekly_waste_kg i));
         ("waste_treatment", VStr (waste_treatment i));
         ("segregation_percent", VInt (segregation i))].

(** Lines 264-275. *)
Definition export_payload (i : ActivityInput) : result value :=
  cats <- category_tonnes i ;;
  Ok (VDict
        [("country", VStr (country i));
         ("inputs", export_inputs i);
         ("results_tCO2e",
            float_items (dict_union cats [("Total", export_total cats)]))]).

(** *** A check on the diet presets' kilograms *)

(** The kilograms of a diet preset stay below 2^12. *)
Definition diet_kg_check (daily : float) : bool :=
  bndb (fmul daily (lit 365 1)) 12.

(** The three float quantities are each at most 10^10 (the sliders'
    ranges lie well inside). *)
Definition moderate_quantities (i : ActivityInput) : bool :=
  fleb (daily_commute_km i) (lit 10000000000 1)
  && fleb (monthly_kwh i) (lit 10000000000 1)
  && fleb (weekly_waste_kg i) (lit 10000000000 1).

(** The defaults with a commute mode that is no key of
    [TRANSPORT_EF_PAXKM], and with a diet that is no key of [DIET_DAILY]. *)
Definition tram_input : ActivityInput :=
  {| country := "India"; mode := "tram";
     daily_commute_km := lit 15 1; commute_days := 240;
     occupancy_input := lit 1 1; monthly_kwh := lit 250 1;
     diet_type := "Medium meat"; weekly_waste_kg := lit 4 1;
     waste_treatment := "Landfill (typical managed)"; segregation := 20 |}.

Definition keto_input : ActivityInput :=
  {| country := "India"; mode := "car";
     daily_commute_km := lit 15 1; commute_days := 240;
     occupancy_input := lit 1 1; monthly_kwh := lit 250 1;
     diet_type := "Keto"; weekly_waste_kg := lit 4 1;
     waste_treatment := "Landfill (typical managed)"; segregation := 20 |}.

End App.

Import B64 Py App.

(** * Facts about binary64 rounding *)

(** *** Powers of two and the binary logarithm *)

Lemma pow2_pos e : 0 < pow2 e.
Proof. apply Qpower_0_lt. reflexivity. Qed.

Lemma pow2_add a b : pow2 (a + b) == pow2 a * pow2 b.
Proof. apply Qpower_plus. discriminate. Qed.

Lemma pow2_le a b : (a <= b)%Z -> pow2 a <= pow2 b.
Proof. intros H. apply Qpower_le_compat_l; [exact H | discriminate]. Qed.

Lemma pow2_lt a b : (a < b)%Z -> pow2 a < pow2 b.
Proof. intros H. apply Qpower_lt_compat_l; [exact H | reflexivity]. Qed.

Lemma pow2_lt_inv a b : pow2 a < pow2 b -> (a < b)%Z.
Proof. intros H. apply (Qpower_lt_compat_l_inv 2); [exact H | reflexivity]. Qed.

Lemma pow2_succ a : pow2 (a + 1) == 2 * pow2 a.
Proof. rewrite pow2_add. change (pow2 1) with 2. ring. Qed.

Lemma pow2_inject (n : Z) : (0 <= n)%Z -> inject_Z (2 ^ n) == pow2 n.
Proof. intros H. apply (Zpower_Qpower 2 n H). Qed.

Lemma ilog2_spec q : 0 < q -> pow2 (ilog2 q) <= q /\ q < pow2 (ilog2 q + 1).
Proof.
  intros Hq. destruct q as [n d]. unfold ilog2. cbn [Qnum Qden].
  assert (Hn : (0 < n)%Z) by (unfold Qlt in Hq; cbn in Hq; lia).
  set (a := Z.log2 n). set (b := Z.log2 (Zpos d)).
  assert (Ha := Z.log2_spec n Hn). assert (Hb := Z.log2_spec (Zpos d) eq_refl).
  fold a in Ha. fold b in Hb.
  assert (Ha0 : (0 <= a)%Z) by apply Z.log2_nonneg.
  assert (Hb0 : (0 <= b)%Z) by apply Z.log2_nonneg.
  assert (HA1 : pow2 a <= inject_Z n).
  { rewrite <- pow2_inject by lia. rewrite <- Zle_Qle. lia. }
  assert (HA2 : inject_Z n < pow2 (a + 1)).
  { rewrite <- pow2_inject by lia. rewrite <- Zlt_Qlt. lia. }
  assert (HB1 : pow2 b <= inject_Z (Zpos d)).
  { rewrite <- pow2_inject by lia. rewrite <- Zle_Qle. lia. }
  assert (HB2 : inject_Z (Zpos d) < pow2 (b + 1)).
  { rewrite <- pow2_inject by lia. rewrite <- Zlt_Qlt. lia. }
  assert (Hqd : (n # d) * inject_Z (Zpos d) == inject_Z n).
  { unfold Qeq, Qmult, inject_Z; cbn. lia. }
  assert (Hup : n # d < pow2 (a - b + 1)).
  { assert (E : pow2 (a - b + 1) * pow2 b == pow2 (a + 1)).
    { rewrite <- pow2_add. replace (a - b + 1 + b)%Z with (a + 1)%Z by lia. reflexivity. }
    assert (P := pow2_pos b). assert (P' := pow2_pos (a - b + 1)). nra. }
  assert (Hlo : pow2 (a - b - 1) < n # d).
  { assert (E : pow2 (a - b - 1) * pow2 (b + 1) == pow2 a).
    { rewrite <- pow2_add. replace (a - b - 1 + (b + 1))%Z with a by lia. reflexivity. }
    assert (P := pow2_pos (b + 1)). assert (P' := pow2_pos (a - b - 1)). nra. }
  destruct (Qle_bool (pow2 (a - b)) (n # d)) eqn:E.
  - apply Qle_bool_iff in E. split; [exact E | exact Hup].
  - split; [apply Qlt_le_weak, Hlo|].
    replace (a - b - 1 + 1)%Z with (a - b)%Z by lia.
    apply Qnot_le_lt. intros H. apply Qle_bool_iff in H. congruence.
Qed.

Lemma ilog2_unique q l : pow2 l <= q -> q < pow2 (l + 1) -> ilog2 q = l.
Proof.
  intros H1 H2.
  assert (Hq : 0 < q) by (assert (P := pow2_pos l); lra).
  destruct (ilog2_spec q Hq) as [S1 S2].
  assert (pow2 (ilog2 q) < pow2 (l + 1)) by lra.
  assert (pow2 l < pow2 (ilog2 q + 1)) by lra.
  apply pow2_lt_inv in H. apply pow2_lt_inv in H0. lia.
Qed.

Lemma ilog2_mono q1 q2 : 0 < q1 -> q1 <= q2 -> (ilog2 q1 <= ilog2 q2)%Z.
Proof.
  intros H1 H2.
  destruct (ilog2_spec q1 H1) as [A _].
  destruct (ilog2_spec q2) as [_ B]; [lra|].
  assert (pow2 (ilog2 q1) < pow2 (ilog2 q2 + 1)) by lra.
  apply pow2_lt_inv in H. lia.
Qed.

Lemma ilog2_le q k : 0 < q -> q < pow2 k -> (ilog2 q < k)%Z.
Proof.
  intros H1 H2. destruct (ilog2_spec q H1) as [A _].
  apply pow2_lt_inv. lra.
Qed.

Lemma cexp_mono q1 q2 : 0 < q1 -> q1 <= q2 -> (cexp q1 <= cexp q2)%Z.
Proof. intros. unfold cexp. pose proof (ilog2_mono q1 q2 H H0). lia. Qed.

Lemma inject_Z_add1 n : inject_Z (n + 1) == inject_Z n + 1.
Proof. rewrite inject_Z_plus. reflexivity. Qed.

Lemma inject_Z_sub1 n : inject_Z (n - 1) == inject_Z n - 1.
Proof. unfold Z.sub. rewrite inject_Z_plus. reflexivity. Qed.

(** rne *)
Lemma rne_cases x : rne x = Qfloor x \/ rne x = (Qfloor x + 1)%Z.
Proof. unfold rne. destruct (Qcompare _ _); [destruct (Z.even _)|..]; auto. Qed.

Lemma rne_err x : Qabs (inject_Z (rne x) - x) <= 1 # 2.
Proof.
  unfold rne. pose proof (Qfloor_le x) as L. pose proof (Qlt_floor x) as U.
  rewrite inject_Z_plus in U. change (inject_Z 1) with 1 in U.
  apply Qabs_Qle_condition.
  destruct (Qcompare_spec (x - inject_Z (Qfloor x)) (1 # 2)) as [E|E|E].
  - destruct (Z.even (Qfloor x)); rewrite ?inject_Z_plus; change (inject_Z 1) with 1; lra.
  - lra.
  - rewrite inject_Z_plus; change (inject_Z 1) with 1; lra.
Qed.

Lemma rne_mono x y : x <= y -> (rne x <= rne y)%Z.
Proof.
  intros H. pose proof (Qfloor_resp_le x y H) as F.
  destruct (Z.eq_dec (Qfloor x) (Qfloor y)) as [E|NE].
  - unfold rne. rewrite <- E.
    destruct (Qcompare_spec (x - inject_Z (Qfloor x)) (1 # 2)) as [E1|E1|E1];
    destruct (Qcompare_spec (y - inject_Z (Qfloor x)) (1 # 2)) as [E2|E2|E2];
    try destruct (Z.even (Qfloor x)); try lia; lra.
  - destruct (rne_cases x) as [-> | ->]; destruct (rne_cases y) as [-> | ->]; lia.
Qed.

Lemma rne_Z n : rne (inject_Z n) = n.
Proof.
  unfold rne. rewrite Qfloor_Z.
  destruct (Qcompare_spec (inject_Z n - inject_Z n) (1 # 2)) as [E|E|E]; try lra. reflexivity.
Qed.

Lemma rne_near x n : Qabs (x - inject_Z n) < 1 # 2 -> rne x = n.
Proof.
  intros H. 
  assert (H1 : - (1#2) < x - inject_Z n /\ x - inject_Z n < 1#2).
  { revert H. apply Qabs_case; intros; lra. }
  destruct H1 as [H1 H2].
  assert (L : (n - 1 <= rne (x))%Z).
  { rewrite <- (rne_Z (n - 1)). apply rne_mono. rewrite inject_Z_sub1. lra. }
  assert (U : (rne x <= n + 1)%Z).
  { rewrite <- (rne_Z (n + 1)). apply rne_mono. rewrite inject_Z_add1. lra. }
  pose proof (rne_err x) as E. apply Qabs_Qle_condition in E.
  destruct (Z.eq_dec (rne x) n) as [|NE]; [assumption|exfalso].
  destruct (Z.eq_dec (rne x) (n + 1)) as [E1|NE1].
  - rewrite E1, inject_Z_add1 in E. lra.
  - assert (E2 : rne x = (n - 1)%Z) by lia.
    rewrite E2, inject_Z_sub1 in E. lra.
Qed.

Lemma rne_le x n : x <= inject_Z n -> (rne x <= n)%Z.
Proof. intros H. rewrite <- (rne_Z n). now apply rne_mono. Qed.

Lemma rne_ge x n : inject_Z n <= x -> (n <= rne x)%Z.
Proof. intros H. rewrite <- (rne_Z n). now apply rne_mono. Qed.

Lemma div_pow2_mul q e : q / pow2 e * pow2 e == q.
Proof. field. assert (P := pow2_pos e). lra. Qed.

Lemma rnd_nonneg q : 0 < q -> 0 <= rnd q.
Proof.
  intros H. unfold rnd. assert (P := pow2_pos (cexp q)).
  assert (0 <= rne (q / pow2 (cexp q)))%Z.
  { apply rne_ge. change (inject_Z 0) with 0. apply Qle_shift_div_l; [exact P|lra]. }
  apply Qmult_le_0_compat; [|lra]. change 0 with (inject_Z 0). rewrite <- Zle_Qle. exact H0.
Qed.

Lemma rnd_err q : Qabs (rnd q - q) <= pow2 (cexp q) * (1 # 2).
Proof.
  unfold rnd. set (e := cexp q). assert (P := pow2_pos e).
  pose proof (rne_err (q / pow2 e)) as E. apply Qabs_Qle_condition in E.
  pose proof (div_pow2_mul q e) as D.
  set (m := inject_Z (rne (q / pow2 e))) in *. set (x := q / pow2 e) in *.
  apply Qabs_Qle_condition. split; nra.
Qed.

Lemma rnd_mono q1 q2 : 0 < q1 -> q1 <= q2 -> rnd q1 <= rnd q2.
Proof.
  intros H1 H2. pose proof (cexp_mono q1 q2 H1 H2) as C.
  unfold rnd.
  assert (P1 := pow2_pos (cexp q1)). assert (P2 := pow2_pos (cexp q2)).
  destruct (Z.eq_dec (cexp q1) (cexp q2)) as [E|NE].
  - rewrite E. apply Qmult_le_compat_r; [|lra].
    rewrite <- Zle_Qle. apply rne_mono.
    apply Qmult_le_compat_r; [exact H2|]. apply Qlt_le_weak, Qinv_lt_0_compat, P2.
  - assert (C' : (cexp q1 < cexp q2)%Z) by lia.
    assert (L2 : cexp q2 = (ilog2 q2 - 52)%Z) by (unfold cexp in *; lia).
    assert (L1 : (ilog2 q1 - 52 <= cexp q1)%Z) by (unfold cexp; lia).
    destruct (ilog2_spec q1 H1) as [_ U1].
    destruct (ilog2_spec q2) as [U2 _]; [lra|].
    set (e1 := cexp q1) in *. set (e2 := cexp q2) in *.
    assert (A : (rne (q1 / pow2 e1) <= 2 ^ 53)%Z).
    { apply rne_le. rewrite pow2_inject by lia. apply Qle_shift_div_r; [exact P1|].
      rewrite <- pow2_add. apply Qlt_le_weak. eapply Qlt_le_trans; [exact U1|].
      apply pow2_le. lia. }
    assert (B : (2 ^ 52 <= rne (q2 / pow2 e2))%Z).
    { apply rne_ge. rewrite pow2_inject by lia. apply Qle_shift_div_l; [exact P2|].
      rewrite <- pow2_add. eapply Qle_trans; [|exact U2]. apply pow2_le. lia. }
    rewrite Zle_Qle in A, B.
    rewrite pow2_inject in A, B by lia.
    apply Qle_trans with (pow2 53 * pow2 e1).
    { apply Qmult_le_compat_r; [exact A|lra]. }
    apply Qle_trans with (pow2 52 * pow2 e2).
    { rewrite <- !pow2_add. apply pow2_le. lia. }
    apply Qmult_le_compat_r; [exact B|lra].
Qed.

Lemma cexp_le q k : 0 < q -> q <= pow2 k -> (-1022 <= k)%Z -> (cexp q <= k - 52)%Z.
Proof.
  intros H1 H2 Hk. unfold cexp.
  assert (ilog2 q < k + 1)%Z.
  { apply ilog2_le; [exact H1|]. eapply Qle_lt_trans; [exact H2|]. apply pow2_lt. lia. }
  lia.
Qed.

Lemma pow2_half k : pow2 k * (1 # 2) == pow2 (k - 1).
Proof.
  replace k with ((k - 1) + 1)%Z at 1 by lia. rewrite pow2_succ. field.
Qed.

(** Rounding a positive real bounded by [2^k]: the error is at most
    [2^(k-53)]. *)
Lemma rnd_err_bound q k :
  0 < q -> q <= pow2 k -> (-1022 <= k)%Z -> Qabs (rnd q - q) <= pow2 (k - 53).
Proof.
  intros H1 H2 Hk. eapply Qle_trans; [apply rnd_err|].
  rewrite pow2_half. apply pow2_le. pose proof (cexp_le q k H1 H2 Hk). lia.
Qed.

(** *** The order on floats *)

Lemma Qcompare_le x y : (match Qcompare x y with Lt | Eq => true | Gt => false end) = true <-> x <= y.
Proof.
  destruct (Qcompare_spec x y); split; intros; try reflexivity; try lra; try discriminate.
Qed.

Lemma fleb_spec x y :
  fleb x y = true <->
  match x, y with
  | NaN, _ | _, NaN => False
  | Inf true, _ => True
  | _, Inf false => True
  | Inf false, _ => False
  | _, Inf true => False
  | _, _ => F2Q x <= F2Q y
  end.
Proof.
  unfold fleb, fcompare.
  destruct x as [|[|]|?|?], y as [|[|]|?|?]; try (split; [discriminate|tauto]);
    try (split; [intros _; exact I|reflexivity]);
    try (cbn [F2Q]; rewrite <- Qcompare_le;
         match goal with |- context [Qcompare ?a ?b] => destruct (Qcompare a b) end; tauto).
Qed.

Lemma fle_trans x y z : fle x y -> fle y z -> fle x z.
Proof.
  unfold fle. rewrite !fleb_spec.
  destruct x as [|[|]|?|?], y as [|[|]|?|?], z as [|[|]|?|?]; cbn [F2Q]; try tauto; intros; lra.
Qed.

Lemma fltb_spec x y :
  fltb x y = true <->
  match x, y with
  | NaN, _ | _, NaN => False
  | Inf true, Inf true => False
  | Inf false, Inf false => False
  | Inf true, _ => True
  | _, Inf false => True
  | Inf false, _ => False
  | _, Inf true => False
  | _, _ => F2Q x < F2Q y
  end.
Proof.
  unfold fltb, fcompare.
  destruct x as [|[|]|?|?], y as [|[|]|?|?]; try (split; [discriminate|tauto]);
    try (split; [intros _; exact I|reflexivity]);
    try (cbn [F2Q]; rewrite Qlt_alt;
         match goal with |- context [Qcompare ?a ?b] => destruct (Qcompare a b) end;
         split; intros; congruence).
Qed.

Lemma fle_flt_trans x y z : fle x y -> fltb y z = true -> fltb x z = true.
Proof.
  unfold fle. rewrite !fleb_spec, !fltb_spec.
  destruct x as [|[|]|?|?], y as [|[|]|?|?], z as [|[|]|?|?]; cbn [F2Q]; try tauto; intros; lra.
Qed.

Lemma flt_fle_trans x y z : fltb x y = true -> fle y z -> fltb x z = true.
Proof.
  unfold fle. rewrite !fleb_spec, !fltb_spec.
  destruct x as [|[|]|?|?], y as [|[|]|?|?], z as [|[|]|?|?]; cbn [F2Q]; try tauto; intros; lra.
Qed.

(** *** Packing and rounding *)

Lemma pack_cases s r :
  0 <= r ->
  (pow2 1024 <= r /\ pack s r = Inf s) \/
  (r == 0 /\ pack s r = Zero s) \/
  (0 < r /\ r < pow2 1024 /\ exists q, pack s r = Num q /\ q == (if s then - r else r)).
Proof.
  intros H. unfold pack.
  destruct (Qle_bool (pow2 1024) r) eqn:E1.
  { left. apply Qle_bool_iff in E1. auto. }
  assert (r < pow2 1024).
  { apply Qnot_le_lt. intros C. apply Qle_bool_iff in C. congruence. }
  destruct (Qle_bool r 0) eqn:E2.
  { right; left. apply Qle_bool_iff in E2. split; [lra|reflexivity]. }
  right; right.
  assert (0 < r).
  { apply Qnot_le_lt. intros C. apply Qle_bool_iff in C. congruence. }
  repeat split; try assumption. eexists; split; [reflexivity|apply Qred_correct].
Qed.

Lemma pack_false_mono r1 r2 : 0 <= r1 -> r1 <= r2 -> fle (pack false r1) (pack false r2).
Proof.
  intros H1 H2. unfold fle. rewrite fleb_spec.
  assert (P := pow2_pos 1024).
  assert (H0 : 0 <= r2) by lra.
  destruct (pack_cases false r1 H1) as [[A ->]|[[A ->]|(A & A' & q & -> & Eq1)]];
  destruct (pack_cases false r2 H0) as [[B ->]|[[B ->]|(B & B' & q' & -> & Eq2)]];
    try lra; cbn [F2Q]; try exact I; lra.
Qed.

Lemma pack_true_anti r1 r2 : 0 <= r2 -> r2 <= r1 -> fle (pack true r1) (pack true r2).
Proof.
  intros H1 H2. unfold fle. rewrite fleb_spec.
  assert (P := pow2_pos 1024).
  assert (H0 : 0 <= r1) by lra.
  destruct (pack_cases true r1 H0) as [[A ->]|[[A ->]|(A & A' & q & -> & Eq1)]];
  destruct (pack_cases true r2 H1) as [[B ->]|[[B ->]|(B & B' & q' & -> & Eq2)]];
    try lra; cbn [F2Q]; try exact I; lra.
Qed.

Lemma pack_true_false r1 r2 : 0 <= r1 -> 0 <= r2 -> fle (pack true r1) (pack false r2).
Proof.
  intros H1 H2. unfold fle. rewrite fleb_spec.
  destruct (pack_cases true r1 H1) as [[A ->]|[[A ->]|(A & A' & q & -> & Eq1)]];
  destruct (pack_cases false r2 H2) as [[B ->]|[[B ->]|(B & B' & q' & -> & Eq2)]];
    cbn [F2Q]; try exact I; lra.
Qed.

Lemma pack_true_zero r s : 0 <= r -> fle (pack true r) (Zero s).
Proof.
  intros H1. unfold fle. rewrite fleb_spec.
  destruct (pack_cases true r H1) as [[A ->]|[[A ->]|(A & A' & q & -> & Eq1)]];
    cbn [F2Q]; try exact I; lra.
Qed.

Lemma zero_pack_false r s : 0 <= r -> fle (Zero s) (pack false r).
Proof.
  intros H1. unfold fle. rewrite fleb_spec.
  destruct (pack_cases false r H1) as [[A ->]|[[A ->]|(A & A' & q & -> & Eq1)]];
    cbn [F2Q]; try exact I; lra.
Qed.

(** Rounding is monotone. *)
Lemma RN_mono q1 q2 : q1 <= q2 -> fle (RN q1) (RN q2).
Proof.
  intros H. unfold RN.
  destruct (Qcompare_spec q1 0) as [E1|E1|E1]; destruct (Qcompare_spec q2 0) as [E2|E2|E2];
    try lra.
  - reflexivity.
  - apply zero_pack_false, rnd_nonneg, E2.
  - apply pack_true_zero, rnd_nonneg. lra.
  - apply pack_true_anti; [apply rnd_nonneg; lra|apply rnd_mono; lra].
  - apply pack_true_false; apply rnd_nonneg; lra.
  - apply pack_false_mono; [apply rnd_nonneg; lra|apply rnd_mono; lra].
Qed.

Lemma RN_nonneg q s : 0 <= q -> fle (Zero s) (RN q).
Proof.
  intros H. unfold RN. destruct (Qcompare_spec q 0) as [E|E|E]; try lra.
  - reflexivity.
  - apply zero_pack_false, rnd_nonneg, E.
Qed.

Lemma RN_nonpos q s : q <= 0 -> fle (RN q) (Zero s).
Proof.
  intros H. unfold RN. destruct (Qcompare_spec q 0) as [E|E|E]; try lra.
  - reflexivity.
  - apply pack_true_zero, rnd_nonneg. lra.
Qed.

(** Rounding a real of magnitude at most [2^k]: the result is finite and
    within [2^(k-53)]. *)
Lemma RN_err q k :
  Qabs q <= pow2 k -> (-1022 <= k <= 1023)%Z ->
  is_finite (RN q) = true /\ Qabs (F2Q (RN q) - q) <= pow2 (k - 53).
Proof.
  intros Hq Hk. apply Qabs_Qle_condition in Hq.
  assert (P := pow2_pos (k - 53)).
  assert (Big : pow2 k + pow2 (k - 53) < pow2 1024).
  { assert (pow2 (k - 53) < pow2 k) by (apply pow2_lt; lia).
    assert (pow2 (k + 1) <= pow2 1024) by (apply pow2_le; lia).
    rewrite pow2_succ in H0. lra. }
  unfold RN. destruct (Qcompare_spec q 0) as [E|E|E].
  - cbn [F2Q is_finite]. split; [reflexivity|]. apply Qabs_Qle_condition. lra.
  - assert (E' : 0 < - q) by lra.
    pose proof (rnd_err_bound (- q) k E') as B.
    assert (B' : Qabs (rnd (- q) - - q) <= pow2 (k - 53)) by (apply B; [lra|lia]).
    apply Qabs_Qle_condition in B'.
    destruct (pack_cases true (rnd (- q)) (rnd_nonneg _ E')) as [[A ->]|[[A ->]|(A & A' & q' & -> & Eq1)]].
    + exfalso. lra.
    + cbn [F2Q is_finite]. split; [reflexivity|]. apply Qabs_Qle_condition. lra.
    + cbn [F2Q is_finite]. split; [reflexivity|]. apply Qabs_Qle_condition. lra.
  - pose proof (rnd_err_bound q k E) as B.
    assert (B' : Qabs (rnd q - q) <= pow2 (k - 53)) by (apply B; [lra|lia]).
    apply Qabs_Qle_condition in B'.
    destruct (pack_cases false (rnd q) (rnd_nonneg _ E)) as [[A ->]|[[A ->]|(A & A' & q' & -> & Eq1)]].
    + exfalso. lra.
    + cbn [F2Q is_finite]. split; [reflexivity|]. apply Qabs_Qle_condition. lra.
    + cbn [F2Q is_finite]. split; [reflexivity|]. apply Qabs_Qle_condition. lra.
Qed.

Lemma rne_comp x y : x == y -> rne x = rne y.
Proof.
  intros H. unfold rne. rewrite (Qfloor_comp x y H).
  assert (E : x - inject_Z (Qfloor y) == y - inject_Z (Qfloor y)) by (rewrite H; reflexivity).
  rewrite (Qcompare_comp _ _ E (1 # 2) (1 # 2) (Qeq_refl _)). reflexivity.
Qed.

Lemma ilog2_comp x y : 0 < x -> x == y -> ilog2 x = ilog2 y.
Proof.
  intros Hx H. destruct (ilog2_spec x Hx) as [A B].
  symmetry. apply ilog2_unique; lra.
Qed.

Lemma rnd_comp x y : 0 < x -> x == y -> rnd x = rnd y.
Proof.
  intros Hx H. unfold rnd, cexp. rewrite (ilog2_comp x y Hx H).
  f_equal. f_equal. apply rne_comp. rewrite H. reflexivity.
Qed.

(** Rounding does not depend on how the real number is written. *)
Lemma RN_comp x y : x == y -> RN x = RN y.
Proof.
  intros H. unfold RN.
  rewrite (Qcompare_comp _ _ H 0 0 (Qeq_refl _)).
  destruct (Qcompare_spec y 0) as [E|E|E]; [reflexivity| |].
  - f_equal. apply rnd_comp; lra.
  - f_equal. apply rnd_comp; lra.
Qed.

Lemma RN_notnan q : RN q <> NaN.
Proof.
  unfold RN, pack. destruct (Qcompare q 0); try discriminate;
  repeat match goal with |- context [if ?b then _ else _] => destruct b end; discriminate.
Qed.

Lemma feqv_refl x : x <> NaN -> feqv x x.
Proof.
  intros H. split; unfold fle; rewrite fleb_spec; destruct x as [|[|]|?|?]; cbn [F2Q]; try exact I; try lra; congruence.
Qed.

Lemma feqv_sym x y : feqv x y -> feqv y x.
Proof. intros [A B]. split; assumption. Qed.

Lemma feqv_trans x y z : feqv x y -> feqv y z -> feqv x z.
Proof. intros [A B] [C D]. split; eapply fle_trans; eassumption. Qed.

Lemma fle_finite x y :
  is_finite x = true -> is_finite y = true -> (fle x y <-> F2Q x <= F2Q y).
Proof.
  intros Hx Hy. unfold fle. rewrite fleb_spec.
  destruct x as [|[|]|?|?], y as [|[|]|?|?]; try discriminate; cbn [F2Q]; tauto.
Qed.

Lemma feqv_finite x y :
  feqv x y -> is_finite x = true -> is_finite y = true /\ F2Q y == F2Q x.
Proof.
  intros [A B] Hx. unfold fle in *. rewrite fleb_spec in A, B.
  destruct x as [|[|]|?|?], y as [|[|]|?|?]; try discriminate; cbn [F2Q] in *;
    try tauto; (split; [reflexivity|lra]).
Qed.

Lemma feqv_zero s t : feqv (Zero s) (Zero t).
Proof. split; reflexivity. Qed.

Lemma RN_zero q s : q == 0 -> feqv (RN q) (Zero s).
Proof.
  intros H. rewrite (RN_comp q 0 H). apply feqv_zero.
Qed.

(** *** Operations on finite operands round the exact result *)

Lemma fmul_RN x y :
  is_finite x = true -> is_finite y = true -> feqv (fmul x y) (RN (F2Q x * F2Q y)).
Proof.
  intros Hx Hy. destruct x as [|?|s|a], y as [|?|t|b]; try discriminate; cbn [fmul F2Q].
  - apply feqv_sym, RN_zero. ring.
  - apply feqv_sym, RN_zero. ring.
  - apply feqv_sym, RN_zero. ring.
  - apply feqv_refl, RN_notnan.
Qed.

Lemma fdiv_RN x c :
  is_finite x = true -> ~ c == 0 -> feqv (fdiv x (Num c)) (RN (F2Q x / c)).
Proof.
  intros Hx Hc. destruct x as [|?|s|a]; try discriminate; cbn [fdiv F2Q].
  - apply feqv_sym, RN_zero. field. exact Hc.
  - apply feqv_refl, RN_notnan.
Qed.

Lemma fopp_F2Q x : F2Q (fopp x) == - F2Q x.
Proof. destruct x; cbn [fopp F2Q]; try reflexivity. apply Qred_correct. Qed.

Lemma fopp_finite x : is_finite (fopp x) = is_finite x.
Proof. destruct x; reflexivity. Qed.

(** Adding to a representable constant. *)
Lemma fadd_const_RN c x :
  RN c = Num c -> is_finite x = true -> fadd (Num c) x = RN (c + F2Q x).
Proof.
  intros Hc Hx. destruct x as [|?|s|a]; try discriminate; cbn [fadd F2Q].
  - rewrite <- Hc at 1. apply RN_comp. ring.
  - reflexivity.
Qed.

Lemma fsub_const_RN c x :
  RN c = Num c -> is_finite x = true -> fsub (Num c) x = RN (c - F2Q x).
Proof.
  intros Hc Hx. unfold fsub. rewrite fadd_const_RN; [|exact Hc|now rewrite fopp_finite].
  apply RN_comp. rewrite fopp_F2Q. reflexivity.
Qed.

(** Sum of two finite floats: exact value plus one rounding. *)
Lemma fadd_err x y k :
  is_finite x = true -> is_finite y = true ->
  Qabs (F2Q x + F2Q y) <= pow2 k -> (-1022 <= k <= 1023)%Z ->
  is_finite (fadd x y) = true /\
  Qabs (F2Q (fadd x y) - (F2Q x + F2Q y)) <= pow2 (k - 53).
Proof.
  intros Hx Hy B Hk. assert (P := pow2_pos (k - 53)).
  destruct x as [|?|s|a], y as [|?|t|b]; try discriminate; cbn [fadd F2Q] in *.
  - split; [reflexivity|]. apply Qabs_Qle_condition. lra.
  - split; [reflexivity|]. apply Qabs_Qle_condition. lra.
  - split; [reflexivity|]. apply Qabs_Qle_condition. lra.
  - apply RN_err; assumption.
Qed.

(** *** [round(x, ndigits)] *)

Lemma scale_pos nd : 0 < scale nd.
Proof.
  unfold scale. change 0 with (inject_Z 0). rewrite <- Zlt_Qlt. apply Z.pow_pos_nonneg; lia.
Qed.

Lemma py_round_RN x nd :
  is_finite x = true ->
  feqv (py_round x nd) (RN (inject_Z (decimal x nd) / scale nd)).
Proof.
  intros Hx. assert (S := scale_pos nd).
  destruct x as [|?|s|a]; try discriminate; cbn [py_round].
  - apply feqv_sym, RN_zero. unfold decimal. cbn [F2Q].
    rewrite (rne_comp (0 * scale nd) (inject_Z 0)) by ring. rewrite rne_Z.
    change (inject_Z 0) with 0. field. lra.
  - destruct (Z.eqb_spec (decimal (Num a) nd) 0) as [E|NE].
    + rewrite E. apply feqv_sym, RN_zero. change (inject_Z 0) with 0. field. lra.
    + apply feqv_refl, RN_notnan.
Qed.

Lemma decimal_mono x y nd :
  is_finite x = true -> is_finite y = true -> fle x y ->
  (decimal x nd <= decimal y nd)%Z.
Proof.
  intros Hx Hy H. apply fle_finite in H; try assumption.
  unfold decimal. apply rne_mono. assert (S := scale_pos nd). nra.
Qed.

Lemma py_round_finite_mono x y nd :
  is_finite x = true -> is_finite y = true -> fle x y ->
  fle (py_round x nd) (py_round y nd).
Proof.
  intros Hx Hy H. pose proof (decimal_mono x y nd Hx Hy H) as D.
  destruct (py_round_RN x nd Hx) as [A _]. destruct (py_round_RN y nd Hy) as [_ B].
  eapply fle_trans; [exact A|]. eapply fle_trans; [|exact B].
  apply RN_mono. assert (S := scale_pos nd).
  rewrite Zle_Qle in D.
  apply Qmult_le_compat_r; [exact D|]. apply Qlt_le_weak, Qinv_lt_0_compat, S.
Qed.

Lemma rnd_le_pow2 q k : 0 < q -> q <= pow2 k -> (-1022 <= k)%Z -> rnd q <= pow2 k.
Proof.
  intros H1 H2 Hk. pose proof (cexp_le q k H1 H2 Hk) as C.
  unfold rnd. set (e := cexp q) in *. assert (P := pow2_pos e).
  assert (A : (rne (q / pow2 e) <= 2 ^ (k - e))%Z).
  { apply rne_le. rewrite pow2_inject by lia. apply Qle_shift_div_r; [exact P|].
    rewrite <- pow2_add. replace (k - e + e)%Z with k by lia. exact H2. }
  rewrite Zle_Qle in A. rewrite pow2_inject in A by lia.
  apply Qle_trans with (pow2 (k - e) * pow2 e).
  - apply Qmult_le_compat_r; [exact A|lra].
  - rewrite <- pow2_add. replace (k - e + e)%Z with k by lia. apply Qle_refl.
Qed.

Lemma bnd_weaken x a b : bnd x a -> (a <= b)%Z -> bnd x b.
Proof.
  intros (F & L & U) H. repeat split; try assumption.
  eapply Qle_trans; [exact U|apply pow2_le, H].
Qed.

Lemma RN_bnd q k : 0 <= q -> q <= pow2 k -> (-1022 <= k <= 1023)%Z -> bnd (RN q) k.
Proof.
  intros H1 H2 Hk. unfold RN.
  assert (P := pow2_pos k).
  destruct (Qcompare_spec q 0) as [E|E|E]; try lra.
  - repeat split; cbn [F2Q]; lra.
  - pose proof (rnd_le_pow2 q k E H2 ltac:(lia)) as U.
    assert (pow2 k < pow2 1024) by (apply pow2_lt; lia).
    destruct (pack_cases false (rnd q) (rnd_nonneg _ E)) as [[A ->]|[[A ->]|(A & A' & q' & -> & Eq1)]].
    + exfalso. lra.
    + repeat split; cbn [F2Q]; lra.
    + repeat split; cbn [F2Q]; lra.
Qed.

Lemma feqv_bnd x y k : feqv x y -> bnd x k -> bnd y k.
Proof.
  intros E (F & L & U). destruct (feqv_finite x y E F) as [Fy Ey].
  repeat split; try assumption; lra.
Qed.

Lemma fmul_bnd x y a b :
  bnd x a -> bnd y b -> (-1022 <= a + b <= 1023)%Z -> bnd (fmul x y) (a + b).
Proof.
  intros (Fx & Lx & Ux) (Fy & Ly & Uy) H.
  apply (feqv_bnd (RN (F2Q x * F2Q y))); [apply feqv_sym, fmul_RN; assumption|].
  apply RN_bnd; [nra| |exact H]. rewrite pow2_add.
  assert (Pa := pow2_pos a). assert (Pb := pow2_pos b). nra.
Qed.

Lemma fdiv_bnd x c a j :
  bnd x a -> pow2 j <= c -> (-1022 <= a - j <= 1023)%Z -> bnd (fdiv x (Num c)) (a - j).
Proof.
  intros (Fx & Lx & Ux) Hc H. assert (Pj := pow2_pos j). assert (Pa := pow2_pos a).
  assert (Hc0 : ~ c == 0) by lra.
  apply (feqv_bnd (RN (F2Q x / c))); [apply feqv_sym, fdiv_RN; assumption|].
  apply RN_bnd; [|  |exact H].
  - apply Qle_shift_div_l; lra.
  - apply Qle_shift_div_r; [lra|].
    assert (E : pow2 (a - j) * pow2 j == pow2 a).
    { rewrite <- pow2_add. replace (a - j + j)%Z with a by lia. reflexivity. }
    assert (Pd := pow2_pos (a - j)). nra.
Qed.

Lemma fadd_bnd x y a :
  bnd x a -> bnd y a -> (-1022 <= a + 1 <= 1023)%Z -> bnd (fadd x y) (a + 1).
Proof.
  intros (Fx & Lx & Ux) (Fy & Ly & Uy) H.
  assert (Pa := pow2_pos a). pose proof (pow2_succ a) as S.
  destruct x as [|?|s|p], y as [|?|t|q]; try discriminate; cbn [fadd F2Q] in *.
  - repeat split; cbn [F2Q]; lra.
  - repeat split; cbn [F2Q]; lra.
  - repeat split; cbn [F2Q]; lra.
  - apply RN_bnd; [lra|lra|exact H].
Qed.

Lemma decimal_bnd x nd a :
  bnd x a -> (0 <= a)%Z ->
  (0 <= decimal x nd)%Z /\ inject_Z (decimal x nd) / scale nd <= pow2 a.
Proof.
  intros (Fx & Lx & Ux) Ha. assert (S := scale_pos nd). unfold decimal. split.
  - apply rne_ge. change (inject_Z 0) with 0. nra.
  - apply Qle_shift_div_r; [exact S|].
    rewrite <- pow2_inject by lia. unfold scale. rewrite <- inject_Z_mult, <- Zle_Qle.
    apply rne_le. rewrite inject_Z_mult, pow2_inject by lia. fold (scale nd). nra.
Qed.

Lemma py_round_bnd x nd a :
  bnd x a -> (0 <= a <= 1023)%Z -> bnd (py_round x nd) a.
Proof.
  intros B Ha. destruct (decimal_bnd x nd a B ltac:(lia)) as [D0 D1].
  assert (S := scale_pos nd).
  apply (feqv_bnd (RN (inject_Z (decimal x nd) / scale nd))).
  - apply feqv_sym, py_round_RN, B.
  - apply RN_bnd; [|exact D1|lia].
    apply Qle_shift_div_l; [exact S|]. rewrite Zle_Qle in D0. change (inject_Z 0) with 0 in D0. lra.
Qed.

(** The decimal selected by [round] is within half a unit of the value,
    and the float returned is within one rounding of the decimal. *)
Lemma py_round_err x nd a :
  bnd x a -> (0 <= a <= 1023)%Z ->
  Qabs (inject_Z (decimal x nd) / scale nd - F2Q x) <= (1 # 2) / scale nd /\
  Qabs (F2Q (py_round x nd) - inject_Z (decimal x nd) / scale nd) <= pow2 (a - 53).
Proof.
  intros B Ha. destruct (decimal_bnd x nd a B ltac:(lia)) as [D0 D1].
  assert (S := scale_pos nd). split.
  - pose proof (rne_err (F2Q x * scale nd)) as E. fold (decimal x nd) in E.
    apply Qabs_Qle_condition in E. apply Qabs_Qle_condition.
    assert (E1 : inject_Z (decimal x nd) / scale nd - F2Q x == (inject_Z (decimal x nd) - F2Q x * scale nd) / scale nd)
      by (field; lra).
    rewrite E1. split.
    + apply Qle_shift_div_l; [exact S|].
      assert (E2 : - ((1 # 2) / scale nd) * scale nd == - (1 # 2)) by (field; lra). lra.
    + apply Qle_shift_div_r; [exact S|].
      assert (E2 : (1 # 2) / scale nd * scale nd == 1 # 2) by (field; lra). lra.
  - assert (D0' : 0 <= inject_Z (decimal x nd) / scale nd).
    { apply Qle_shift_div_l; [exact S|]. rewrite Zle_Qle in D0. change (inject_Z 0) with 0 in D0. lra. }
    destruct (RN_err (inject_Z (decimal x nd) / scale nd) a) as [F E]; [|lia|].
    { apply Qabs_Qle_condition. assert (P := pow2_pos a). lra. }
    destruct (feqv_finite _ _ (feqv_sym _ _ (py_round_RN x nd (proj1 B))) F) as [F' E'].
    rewrite E'. exact E.
Qed.

(** Rounding a float that lies within less than half a unit of a decimal
    returns that decimal. *)
Lemma decimal_near x nd n :
  Qabs (F2Q x - inject_Z n / scale nd) < (1 # 2) / scale nd -> decimal x nd = n.
Proof.
  intros H. assert (S := scale_pos nd). unfold decimal. apply rne_near.
  assert (H' : - ((1 # 2) / scale nd) < F2Q x - inject_Z n / scale nd /\
               F2Q x - inject_Z n / scale nd < (1 # 2) / scale nd).
  { revert H. apply Qabs_case; intros; lra. }
  destruct H' as [A B].
  assert (E : F2Q x * scale nd - inject_Z n == (F2Q x - inject_Z n / scale nd) * scale nd) by (field; lra).
  assert (E2 : (1 # 2) / scale nd * scale nd == 1 # 2) by (field; lra).
  rewrite E. apply Qabs_case; intros; nra.
Qed.

(** *** Non-negative floats, possibly infinite *)

Lemma nn_cases x : nn x -> (is_finite x = true /\ 0 <= F2Q x) \/ x = Inf false.
Proof.
  unfold nn, fle. rewrite fleb_spec.
  destruct x as [|[|]|?|?]; cbn [F2Q]; try tauto; intros H; left; split; (reflexivity || lra).
Qed.

Lemma nn_finite x : is_finite x = true -> 0 <= F2Q x -> nn x.
Proof.
  intros F H. unfold nn, fle. rewrite fleb_spec.
  destruct x as [|[|]|?|?]; try discriminate; cbn [F2Q] in *; lra.
Qed.

Lemma nn_notnan x : nn x -> x <> NaN.
Proof. intros H ->. discriminate H. Qed.

Lemma nn_le x y : nn x -> fle x y -> nn y.
Proof. intros. eapply fle_trans; eassumption. Qed.

Lemma fle_top x : x <> NaN -> fle x (Inf false).
Proof. intros H. unfold fle. rewrite fleb_spec. destruct x as [|[|]|?|?]; try exact I. congruence. Qed.

Lemma fle_refl x : x <> NaN -> fle x x.
Proof. intros H. apply feqv_refl, H. Qed.

(** Below a finite float there are only finite non-negative floats. *)
Lemma nn_below_finite x y :
  nn x -> fle x y -> is_finite y = true ->
  is_finite x = true /\ 0 <= F2Q x /\ F2Q x <= F2Q y.
Proof.
  intros N L F. unfold nn, fle in *. rewrite fleb_spec in *.
  destruct x as [|[|]|?|?], y as [|[|]|?|?]; try discriminate; try tauto; cbn [F2Q] in *;
    repeat split; lra.
Qed.

Lemma sign_positive c : 0 < c -> sign (Num c) = false.
Proof.
  intros H. cbn [sign]. replace (Qle_bool 0 c) with true; [reflexivity|].
  symmetry. apply Qle_bool_iff. lra.
Qed.

Lemma positive_float_inv x :
  positive_float x = true -> exists c, x = Num c /\ 0 < c.
Proof.
  unfold positive_float. rewrite andb_true_iff, fltb_spec. intros [F L].
  destruct x as [|[|]|?|q]; try discriminate; cbn [F2Q] in L; try lra. eauto.
Qed.

(** Product of two finite non-negative floats. *)
Lemma fmul_finite_mono x x' y y' :
  is_finite x = true -> is_finite x' = true -> is_finite y = true -> is_finite y' = true ->
  0 <= F2Q x -> F2Q x <= F2Q x' -> 0 <= F2Q y -> F2Q y <= F2Q y' ->
  nn (fmul x y) /\ fle (fmul x y) (fmul x' y').
Proof.
  intros Fx Fx' Fy Fy' Lx Hx Ly Hy. split.
  - eapply fle_trans; [|apply fmul_RN; assumption]. apply RN_nonneg. nra.
  - eapply fle_trans; [apply fmul_RN; assumption|].
    eapply fle_trans; [|apply fmul_RN; assumption]. apply RN_mono. nra.
Qed.

Lemma monotone_nn_compose f g :
  monotone_nn f -> monotone_nn g -> monotone_nn (fun x => g (f x)).
Proof.
  intros Hf Hg x y N L. destruct (Hf x y N L) as [N1 L1]. apply Hg; assumption.
Qed.

Lemma monotone_nn_keeps f x : monotone_nn f -> nn x -> nn (f x).
Proof. intros M N. apply (M x x N), fle_refl, nn_notnan, N. Qed.

(** Multiplying by a positive constant. *)
Lemma fmul_pos_monotone c : 0 < c -> monotone_nn (fun x => fmul x (Num c)).
Proof.
  intros Hc x y N L. pose proof (sign_positive c Hc) as S.
  assert (Ny : nn y) by (eapply nn_le; eassumption).
  destruct (nn_cases y Ny) as [[Fy Py]| ->].
  - destruct (nn_below_finite x y N L Fy) as (Fx & Px & Pxy).
    apply fmul_finite_mono; try assumption; try reflexivity; cbn [F2Q]; lra.
  - destruct (nn_cases x N) as [[Fx Px]| ->].
    + destruct (fmul_finite_mono x x (Num c) (Num c)) as [A _];
        try assumption; try reflexivity; cbn [F2Q]; try lra.
      split; [exact A|]. cbn [fmul sign]. fold (sign (Num c)). rewrite S.
      apply fle_top, nn_notnan, A.
    + cbn [fmul sign]. fold (sign (Num c)). rewrite S. split; reflexivity.
Qed.

(** Dividing by a positive constant. *)
Lemma fdiv_pos_monotone c : 0 < c -> monotone_nn (fun x => fdiv x (Num c)).
Proof.
  intros Hc x y N L. pose proof (sign_positive c Hc) as S.
  assert (Hc0 : ~ c == 0) by lra.
  assert (Ic : 0 < / c) by (apply Qinv_lt_0_compat, Hc).
  assert (Fin : forall u, is_finite u = true -> 0 <= F2Q u -> nn (fdiv u (Num c))).
  { intros u Fu Pu. eapply fle_trans; [|apply fdiv_RN; assumption].
    apply RN_nonneg. unfold Qdiv. nra. }
  assert (Ny : nn y) by (eapply nn_le; eassumption).
  destruct (nn_cases y Ny) as [[Fy Py]| ->].
  - destruct (nn_below_finite x y N L Fy) as (Fx & Px & Pxy).
    split; [apply Fin; assumption|].
    eapply fle_trans; [apply fdiv_RN; assumption|].
    eapply fle_trans; [|apply fdiv_RN; assumption].
    apply RN_mono. unfold Qdiv. nra.
  - destruct (nn_cases x N) as [[Fx Px]| ->].
    + split; [apply Fin; assumption|]. cbn [fdiv sign]. fold (sign (Num c)). rewrite S.
      apply fle_top, nn_notnan, Fin; assumption.
    + cbn [fdiv sign]. fold (sign (Num c)). rewrite S. split; reflexivity.
Qed.

(** Rounding to decimals. *)
Lemma py_round_monotone nd : monotone_nn (fun x => py_round x nd).
Proof.
  intros x y N L. assert (S := scale_pos nd).
  assert (Fin : forall u, is_finite u = true -> 0 <= F2Q u -> nn (py_round u nd)).
  { intros u Fu Pu. eapply fle_trans; [|apply py_round_RN; assumption].
    apply RN_nonneg. apply Qle_shift_div_l; [exact S|].
    assert (0 <= decimal u nd)%Z.
    { unfold decimal. apply rne_ge. change (inject_Z 0) with 0. nra. }
    rewrite Zle_Qle in H. change (inject_Z 0) with 0 in H. lra. }
  assert (Ny : nn y) by (eapply nn_le; eassumption).
  destruct (nn_cases y Ny) as [[Fy Py]| ->].
  - destruct (nn_below_finite x y N L Fy) as (Fx & Px & Pxy).
    split; [apply Fin; assumption|]. apply py_round_finite_mono; assumption.
  - destruct (nn_cases x N) as [[Fx Px]| ->].
    + split; [apply Fin; assumption|]. cbn [py_round].
      apply fle_top, nn_notnan, Fin; assumption.
    + split; reflexivity.
Qed.

(** Sums of non-negative floats. *)
Lemma fadd_nn x y : nn x -> nn y -> nn (fadd x y).
Proof.
  intros Nx Ny.
  destruct (nn_cases x Nx) as [[Fx Px]| ->]; destruct (nn_cases y Ny) as [[Fy Py]| ->].
  - destruct x as [|?|s|a], y as [|?|t|b]; try discriminate; cbn [fadd F2Q] in *;
      try assumption; try reflexivity.
    apply RN_nonneg. lra.
  - destruct x; try discriminate; reflexivity.
  - destruct y; try discriminate; reflexivity.
  - reflexivity.
Qed.

(** A sum with a non-negative float stays above a representable positive
    bound. *)
Lemma fadd_lower d x y :
  RN d = Num d -> 0 < d -> fle (Num d) x -> nn y -> fle (Num d) (fadd x y).
Proof.
  intros R Hd L Ny.
  assert (Nx : nn x).
  { eapply fle_trans; [|exact L]. apply nn_finite; [reflexivity|cbn [F2Q]; lra]. }
  destruct (nn_cases x Nx) as [[Fx Px]| ->]; destruct (nn_cases y Ny) as [[Fy Py]| ->].
  - apply fle_finite in L; [|reflexivity|exact Fx]. cbn [F2Q] in L.
    destruct x as [|?|s|a], y as [|?|t|b]; try discriminate; cbn [fadd F2Q] in *;
      try lra.
    + apply fle_finite; [reflexivity|reflexivity|cbn [F2Q]; lra].
    + rewrite <- R. apply RN_mono. lra.
  - destruct x; try discriminate; reflexivity.
  - destruct y; try discriminate; reflexivity.
  - reflexivity.
Qed.

Lemma fadd_lower_r d x :
  RN d = Num d -> 0 < d -> nn x -> fle (Num d) (fadd x (Num d)).
Proof.
  intros R Hd Nx.
  destruct (nn_cases x Nx) as [[Fx Px]| ->]; [|reflexivity].
  destruct x as [|?|s|a]; try discriminate; cbn [fadd F2Q] in *.
  - apply fle_finite; [reflexivity|reflexivity|cbn [F2Q]; lra].
  - rewrite <- R at 1. apply RN_mono. lra.
Qed.

(** *** Signs of zeros *)

Lemma RN_sign q : 0 <= q -> sign (RN q) = false.
Proof.
  intros H. unfold RN. destruct (Qcompare_spec q 0) as [E|E|E]; try lra; [reflexivity|].
  destruct (pack_cases false (rnd q) (rnd_nonneg _ E)) as [[A ->]|[[A ->]|(A & A' & q' & -> & Eq1)]];
    try reflexivity.
  apply sign_positive. lra.
Qed.

Lemma fmul_pzero_l y : posb y = true -> fmul (Zero false) y = Zero false.
Proof.
  unfold posb. rewrite andb_true_iff, negb_true_iff. intros [F S].
  destruct y; try discriminate; cbn [fmul]; rewrite S; reflexivity.
Qed.

Lemma same_float_eq x y : same_float x y = true -> x = y.
Proof.
  destruct x as [|s|s|[a b]], y as [|t|t|[c d]]; cbn; try discriminate; try reflexivity.
  - intros H. apply Bool.eqb_prop in H. now subst.
  - intros H. apply Bool.eqb_prop in H. now subst.
  - rewrite andb_true_iff, Z.eqb_eq, Pos.eqb_eq. intros [-> ->]. reflexivity.
Qed.

Lemma bndb_bnd x k : bndb x k = true -> bnd x k.
Proof.
  unfold bndb. rewrite !andb_true_iff, !Qle_bool_iff. intros [[A B] C]. repeat split; assumption.
Qed.

(** * Facts about the Python operations *)

(** *** Dictionaries *)

Lemma getitem_In {V} (d : dict V) k v : getitem d k = Ok v -> In (k, v) d.
Proof.
  induction d as [|[k' v'] d IH]; cbn; [discriminate|].
  destruct (String.eqb_spec k k') as [->|NE].
  - intros [= ->]. now left.
  - intros H. right. now apply IH.
Qed.

Lemma getitem_mem {V} (d : dict V) k :
  mem k (keys d) = true -> exists v, getitem d k = Ok v.
Proof.
  induction d as [|[k' v'] d IH]; cbn; [discriminate|].
  destruct (String.eqb k k'); [intros _; eauto|exact IH].
Qed.

Lemma getitem_not_mem {V} (d : dict V) k :
  mem k (keys d) = false -> getitem d k = Raise (KeyError k).
Proof.
  induction d as [|[k' v'] d IH]; cbn; [reflexivity|].
  destruct (String.eqb k k'); [discriminate|exact IH].
Qed.

(** A property checked on every entry of a table holds of what a lookup
    returns. *)
Lemma getitem_forallb {V} (d : dict V) (P : V -> bool) k v :
  forallb (fun kv => P (snd kv)) d = true -> getitem d k = Ok v -> P v = true.
Proof.
  intros H G. apply getitem_In in G. rewrite forallb_forall in H. apply (H _ G).
Qed.

(** *** Conversions of ints *)

Lemma of_int_bnd n k :
  (0 <= n <= 2 ^ k)%Z -> (0 <= k <= 1023)%Z ->
  exists x, of_int n = Ok x /\ x = RN (inject_Z n) /\ bnd x k.
Proof.
  intros Hn Hk.
  assert (B : bnd (RN (inject_Z n)) k).
  { apply RN_bnd; [| |lia].
    - change 0 with (inject_Z 0). rewrite <- Zle_Qle. lia.
    - rewrite <- pow2_inject by lia. rewrite <- Zle_Qle. lia. }
  exists (RN (inject_Z n)). split; [|split; [reflexivity|exact B]].
  unfold of_int. destruct B as [F _]. destruct (RN (inject_Z n)); try reflexivity; discriminate.
Qed.

Lemma of_int_ok n :
  (Z.abs n <= 2 ^ 1023)%Z -> exists x, of_int n = Ok x.
Proof.
  intros H.
  destruct (RN_err (inject_Z n) 1023) as [F _]; [|lia|].
  - rewrite <- pow2_inject by lia. apply Qabs_Qle_condition.
    rewrite <- inject_Z_opp, <- !Zle_Qle. lia.
  - unfold of_int. destruct (RN (inject_Z n)); try discriminate; eauto.
Qed.

Lemma of_int_mono n m :
  (n <= m)%Z -> fle (RN (inject_Z n)) (RN (inject_Z m)).
Proof. intros H. apply RN_mono. rewrite <- Zle_Qle. exact H. Qed.

(** *** The literals of the program *)

Lemma lit_1000 : lit 1000 1 = Num 1000.
Proof. vm_compute. reflexivity. Qed.

Lemma lit_1 : lit 1 1 = Num 1.
Proof. vm_compute. reflexivity. Qed.

Lemma lit_100 : lit 100 1 = Num 100.
Proof. vm_compute. reflexivity. Qed.

Lemma lit_12 : lit 12 1 = Num 12.
Proof. vm_compute. reflexivity. Qed.

Lemma lit_52 : lit 52 1 = Num 52.
Proof. vm_compute. reflexivity. Qed.

Lemma RN_1 : RN 1 = Num 1.
Proof. vm_compute. reflexivity. Qed.

(** * Facts about the program *)

(** *** [1 - p / 100.0] *)

(** For a percentage the result is a float between 0 and 1: the exact
    result, rounded. *)
Lemma one_minus_percent_spec p :
  (0 <= p <= 100)%Z ->
  exists pf share,
    of_int p = Ok pf /\ pf = RN (inject_Z p) /\ bnd pf 7 /\ F2Q pf <= 100 /\
    one_minus_percent p = Ok share /\
    bnd (fdiv pf (Num 100)) 0 /\
    share = RN (1 - F2Q (fdiv pf (Num 100))) /\ bnd share 0.
Proof.
  intros H.
  destruct (of_int_bnd p 7) as (pf & E & Es & B); [lia|lia|].
  assert (U : F2Q pf <= 100).
  { pose proof (of_int_mono p 100 ltac:(lia)) as M. rewrite <- Es in M.
    replace (RN (inject_Z 100)) with (Num 100) in M by (vm_compute; reflexivity).
    apply fle_finite in M; [exact M|apply B|reflexivity]. }
  assert (Bq : bnd (fdiv pf (Num 100)) 0).
  { apply (feqv_bnd (RN (F2Q pf / 100))).
    - apply feqv_sym, fdiv_RN; [apply B|discriminate].
    - destruct B as (_ & L & _). apply RN_bnd; [| |lia].
      + apply Qle_shift_div_l; [reflexivity|lra].
      + apply Qle_shift_div_r; [reflexivity|]. change (pow2 0) with 1. lra. }
  assert (Bs : bnd (RN (1 - F2Q (fdiv pf (Num 100)))) 0).
  { apply RN_bnd; [| |lia]; destruct Bq as (_ & L & V); change (pow2 0) with 1 in *; lra. }
  exists pf, (RN (1 - F2Q (fdiv pf (Num 100)))).
  split; [exact E|]. split; [exact Es|]. split; [exact B|]. split; [exact U|].
  split; [|split; [exact Bq|split; [reflexivity|exact Bs]]].
  unfold one_minus_percent. rewrite E. cbn [bind]. rewrite lit_1, lit_100.
  rewrite fsub_const_RN; [reflexivity|exact RN_1|apply Bq].
Qed.

(** The share shrinks when the percentage grows. *)
Lemma one_minus_percent_anti p1 p2 s1 s2 :
  (0 <= p1 <= p2)%Z -> (p2 <= 100)%Z ->
  one_minus_percent p1 = Ok s1 -> one_minus_percent p2 = Ok s2 -> fle s2 s1.
Proof.
  intros H1 H2 E1 E2.
  destruct (one_minus_percent_spec p1 ltac:(lia)) as (pf1 & sh1 & _ & P1 & B1 & _ & O1 & Q1 & S1 & _).
  destruct (one_minus_percent_spec p2 ltac:(lia)) as (pf2 & sh2 & _ & P2 & B2 & _ & O2 & Q2 & S2 & _).
  rewrite O1 in E1. rewrite O2 in E2. injection E1 as <-. injection E2 as <-.
  subst sh1 sh2. apply RN_mono.
  assert (M : fle pf1 pf2) by (subst pf1 pf2; apply of_int_mono; lia).
  apply fle_finite in M; [|apply B1|apply B2].
  assert (D : fle (fdiv pf1 (Num 100)) (fdiv pf2 (Num 100))).
  { eapply fle_trans; [apply fdiv_RN; [apply B1|discriminate]|].
    eapply fle_trans; [|apply fdiv_RN; [apply B2|discriminate]].
    apply RN_mono. apply Qmult_le_compat_r; [exact M|discriminate]. }
  apply fle_finite in D; [|apply Q1|apply Q2]. lra.
Qed.

Lemma one_minus_percent_ok p :
  (Z.abs p <= 2 ^ 1023)%Z -> exists x, one_minus_percent p = Ok x.
Proof.
  intros H. destruct (of_int_ok p H) as (x & E).
  unfold one_minus_percent. rewrite E. cbn [bind]. eauto.
Qed.

(** *** The tables *)

Lemma transport_table_ok :
  forallb (fun kv => factor_ok (-2) (snd kv)) TRANSPORT_EF_PAXKM = true.
Proof. vm_compute. reflexivity. Qed.

Lemma electricity_table_ok :
  forallb (fun kv => factor_ok 0 (snd kv)) ELECTRICITY_EF = true.
Proof. vm_compute. reflexivity. Qed.

Lemma waste_table_ok :
  forallb (fun kv => factor_ok 1 (snd kv)) WASTE_EF = true.
Proof. vm_compute. reflexivity. Qed.

Lemma diet_table_check :
  forallb (fun kv => diet_check (snd kv)) DIET_DAILY = true.
Proof. vm_compute. reflexivity. Qed.

Lemma diet_table_fixed :
  forallb (fun kv => diet_fixed (snd kv)) DIET_DAILY = true.
Proof. vm_compute. reflexivity. Qed.

Lemma factor_ok_inv k x :
  factor_ok k x = true ->
  bnd x k /\ posb x = true /\ exists c, x = Num c /\ 0 < c.
Proof.
  unfold factor_ok. rewrite andb_true_iff. intros [B P].
  apply bndb_bnd in B. destruct (positive_float_inv x P) as (c & -> & Hc).
  split; [exact B|]. split; [|eauto].
  unfold posb. cbn [is_finite andb]. rewrite (sign_positive c Hc). reflexivity.
Qed.

(** *** Inputs *)

Lemma quantity_inv x :
  quantity x = true -> is_finite x = true /\ 0 <= F2Q x /\ nn x.
Proof.
  unfold quantity. rewrite !andb_true_iff. intros [[_ F] L].
  assert (0 <= F2Q x).
  { rewrite fleb_spec in L. destruct x as [|[|]|?|?]; try discriminate; cbn [F2Q] in *; lra. }
  repeat split; assumption.
Qed.

Lemma quantity_bnd x hi k :
  quantity x = true -> fleb x hi = true -> bndb hi k = true -> bnd x k.
Proof.
  intros Q L H. destruct (quantity_inv x Q) as (F & P & _).
  apply bndb_bnd in H. destruct H as (Fh & _ & Uh).
  apply (fle_finite x hi F Fh) in L. repeat split; try assumption. lra.
Qed.

Lemma valid_input_inv i :
  valid_input i = true ->
  mem (country i) COUNTRIES = true /\
  mem (mode i) ["car"; "bus"; "rail"]%string = true /\
  quantity (daily_commute_km i) = true /\
  (0 <= commute_days i <= 365)%Z /\
  fleb (lit 1 1) (occupancy_input i) = true /\
  quantity (monthly_kwh i) = true /\
  mem (diet_type i) (keys DIET_DAILY) = true /\
  quantity (weekly_waste_kg i) = true /\
  mem (waste_treatment i) (keys WASTE_EF) = true /\
  (0 <= segregation i <= 100)%Z.
Proof.
  unfold valid_input. rewrite !andb_true_iff, !Z.leb_le. tauto.
Qed.

(** *** The calculation *)

(** The branch on the commute mode (lines 102-108) selects the same
    factor on both sides. *)
Lemma transport_emissions_kg_eq i :
  transport_emissions_kg i =
  (annual <- annual_commute_km i ;;
   ef <- getitem TRANSPORT_EF_PAXKM (mode i) ;;
   Ok (fmul annual ef)).
Proof.
  unfold transport_emissions_kg. destruct (annual_commute_km i) as [annual|e]; cbn [bind]; [|reflexivity].
  destruct (String.eqb_spec (mode i) "car") as [E|NE]; cbn [andb]; [|reflexivity].
  rewrite E. destruct (fltb (Zero false) (car_occupancy i)); reflexivity.
Qed.

Lemma compute_of_categories i cats :
  category_tonnes i = Ok cats ->
  compute i = Ok {| categories := cats; total := total_of cats |}.
Proof. intros H. unfold compute. rewrite H. reflexivity. Qed.

Lemma category_of i cats k :
  category_tonnes i = Ok cats -> category i k = getitem cats k.
Proof. intros H. unfold category. rewrite (compute_of_categories i cats H). reflexivity. Qed.

(** What the calculation evaluates on a valid input. *)
Lemma compute_shape i :
  valid_input i = true ->
  exists days ef_t ef_e daily share ef_w,
    of_int (commute_days i) = Ok days /\ bnd days 9 /\
    getitem TRANSPORT_EF_PAXKM (mode i) = Ok ef_t /\ factor_ok (-2) ef_t = true /\
    getitem ELECTRICITY_EF (country i) = Ok ef_e /\ factor_ok 0 ef_e = true /\
    getitem DIET_DAILY (diet_type i) = Ok daily /\
    diet_check daily = true /\ diet_fixed daily = true /\
    one_minus_percent (segregation i) = Ok share /\ bnd share 0 /\ posb share = true /\
    getitem WASTE_EF (waste_treatment i) = Ok ef_w /\ factor_ok 1 ef_w = true /\
    let t := fmul (fmul (daily_commute_km i) days) ef_t in
    let e := fmul (fmul (monthly_kwh i) (lit 12 1)) ef_e in
    let d := fmul daily (lit 365 1) in
    let w := fmul (fmul (fmul (weekly_waste_kg i) share) (lit 52 1)) ef_w in
    transport_emissions_kg i = Ok t /\ electricity_emissions_kg i = Ok e /\
    diet_emissions_kg i = Ok d /\ waste_emissions_kg i = Ok w /\
    category_tonnes i =
      Ok [("Transportation", tonnes t); ("Electricity", tonnes e);
          ("Diet", tonnes d); ("Waste", tonnes w)]%string.
Proof.
  intros V.
  destruct (valid_input_inv i V) as (Hc & Hm & _ & Hdays & _ & _ & Hd & _ & Ht & Hs).
  destruct (of_int_bnd (commute_days i) 9) as (days & Ed & _ & Bd); [lia|lia|].
  destruct (getitem_mem TRANSPORT_EF_PAXKM (mode i) Hm) as (ef_t & Gt).
  destruct (getitem_mem ELECTRICITY_EF (country i) Hc) as (ef_e & Ge).
  destruct (getitem_mem DIET_DAILY (diet_type i) Hd) as (daily & Gd).
  destruct (getitem_mem WASTE_EF (waste_treatment i) Ht) as (ef_w & Gw).
  destruct (one_minus_percent_spec (segregation i) Hs) as (pf & share & _ & _ & _ & _ & O & Bq & Es & Bs).
  exists days, ef_t, ef_e, daily, share, ef_w.
  split; [exact Ed|]. split; [exact Bd|].
  split; [exact Gt|]. split; [exact (getitem_forallb _ (factor_ok (-2)) _ _ transport_table_ok Gt)|].
  split; [exact Ge|]. split; [exact (getitem_forallb _ (factor_ok 0) _ _ electricity_table_ok Ge)|].
  split; [exact Gd|]. split; [exact (getitem_forallb _ diet_check _ _ diet_table_check Gd)|].
  split; [exact (getitem_forallb _ diet_fixed _ _ diet_table_fixed Gd)|].
  split; [exact O|]. split; [exact Bs|]. split.
  { unfold posb. destruct Bs as (Fs & _). rewrite Fs. cbn [andb]. rewrite Es, RN_sign; [reflexivity|].
    destruct Bq as (_ & _ & U). change (pow2 0) with 1 in U. lra. }
  split; [exact Gw|]. split; [exact (getitem_forallb _ (factor_ok 1) _ _ waste_table_ok Gw)|].
  cbv zeta.
  assert (Et : transport_emissions_kg i = Ok (fmul (fmul (daily_commute_km i) days) ef_t)).
  { rewrite transport_emissions_kg_eq. unfold annual_commute_km. rewrite Ed. cbn [bind].
    rewrite Gt. reflexivity. }
  assert (Ee : electricity_emissions_kg i = Ok (fmul (fmul (monthly_kwh i) (lit 12 1)) ef_e)).
  { unfold electricity_emissions_kg, annual_kwh. rewrite Ge. reflexivity. }
  assert (Edt : diet_emissions_kg i = Ok (fmul daily (lit 365 1))).
  { unfold diet_emissions_kg. rewrite Gd. reflexivity. }
  assert (Ew : waste_emissions_kg i =
               Ok (fmul (fmul (fmul (weekly_waste_kg i) share) (lit 52 1)) ef_w)).
  { unfold waste_emissions_kg. rewrite O. cbn [bind]. rewrite Gw. reflexivity. }
  repeat split; try assumption.
  unfold category_tonnes. rewrite Et, Ee, Edt, Ew. reflexivity.
Qed.

(** Kilograms to rounded tonnes is monotone. *)
Lemma tonnes_monotone : monotone_nn tonnes.
Proof.
  unfold tonnes, raw_tonnes. rewrite lit_1000.
  apply (monotone_nn_compose (fun x => fdiv x (Num 1000)) (fun x => py_round x 3)).
  - apply fdiv_pos_monotone. reflexivity.
  - apply py_round_monotone.
Qed.

(** Scaling by positive factors, then kilograms to rounded tonnes. *)
Lemma scaled_tonnes_monotone c ef :
  0 < c -> factor_pos ef ->
  monotone_nn (fun x => tonnes (fmul (fmul x (Num c)) ef)).
Proof.
  intros Hc (q & -> & Hq).
  apply (monotone_nn_compose (fun x => fmul (fmul x (Num c)) (Num q)) tonnes);
    [|exact tonnes_monotone].
  apply (monotone_nn_compose (fun x => fmul x (Num c)) (fun x => fmul x (Num q)));
    apply fmul_pos_monotone; assumption.
Qed.

(** *** Decimals behind the rounded values *)

Lemma pow2_tiny k : (k <= -43)%Z -> pow2 k <= tiny.
Proof.
  intros H. eapply Qle_trans; [apply pow2_le, H|]. apply Qle_bool_iff. vm_compute. reflexivity.
Qed.

Lemma scale_3 : scale 3 = 1000.
Proof. reflexivity. Qed.

Lemma Qabs_le_intro x y : - y <= x -> x <= y -> Qabs x <= y.
Proof. intros. apply Qabs_Qle_condition. split; assumption. Qed.

Lemma Qabs_le_elim x y : Qabs x <= y -> - y <= x /\ x <= y.
Proof. apply Qabs_Qle_condition. Qed.

(** One category: the float written in the result, the decimal it
    stands for, and the distance of that decimal to the unrounded value. *)
Lemma tonnes_decimal raw :
  bnd raw 6 ->
  bnd (py_round raw 3) 6 /\
  (0 <= decimal raw 3)%Z /\
  Qabs (F2Q (py_round raw 3) - inject_Z (decimal raw 3) / 1000) <= tiny /\
  Qabs (inject_Z (decimal raw 3) / 1000 - F2Q raw) <= 1 # 2000.
Proof.
  intros B.
  destruct (py_round_err raw 3 6 B ltac:(lia)) as [E1 E2].
  destruct (decimal_bnd raw 3 6 B ltac:(lia)) as [D0 _].
  rewrite scale_3 in *.
  split; [apply py_round_bnd; [exact B|lia]|]. split; [exact D0|]. split.
  - eapply Qle_trans; [exact E2|]. apply pow2_tiny. lia.
  - eapply Qle_trans; [exact E1|]. apply Qle_bool_iff. reflexivity.
Qed.

Lemma fadd_approx x y vx vy ex ey k :
  bnd x k -> bnd y k -> (0 <= k <= 9)%Z ->
  Qabs (F2Q x - vx) <= ex -> Qabs (F2Q y - vy) <= ey ->
  bnd (fadd x y) (k + 1) /\ Qabs (F2Q (fadd x y) - (vx + vy)) <= ex + ey + tiny.
Proof.
  intros Bx By Hk Ex Ey.
  split; [apply fadd_bnd; try assumption; lia|].
  destruct (fadd_err x y (k + 1)) as [_ E]; [apply Bx|apply By| |lia|].
  - destruct Bx as (_ & L1 & U1). destruct By as (_ & L2 & U2).
    rewrite pow2_succ. apply Qabs_le_intro; assert (P := pow2_pos k); lra.
  - assert (T : pow2 (k + 1 - 53) <= tiny) by (apply pow2_tiny; lia).
    apply Qabs_le_elim in Ex, Ey, E. apply Qabs_le_intro; lra.
Qed.

(** The total: the sum of four category values that stand for the
    decimals [nT], [nE], [nD], [nW], rounded to three decimals, stands for
    the decimal [nT + nE + nD + nW]. *)
Lemma total_decimal T E D W nT nE nD nW :
  bnd T 6 -> bnd E 6 -> bnd D 6 -> bnd W 6 ->
  Qabs (F2Q T - inject_Z nT / 1000) <= tiny ->
  Qabs (F2Q E - inject_Z nE / 1000) <= tiny ->
  Qabs (F2Q D - inject_Z nD / 1000) <= tiny ->
  Qabs (F2Q W - inject_Z nW / 1000) <= tiny ->
  let s := py_sum [T; E; D; W] in
  decimal s 3 = (nT + nE + nD + nW)%Z /\
  is_finite (py_round s 3) = true /\
  Qabs (F2Q (py_round s 3) - inject_Z (nT + nE + nD + nW) / 1000) <= tiny.
Proof.
  intros BT BE BD BW ET EE ED EW s.
  assert (B0 : bnd (Zero false) 6).
  { repeat split; cbn [F2Q]; try lra. apply Qlt_le_weak, pow2_pos. }
  assert (E0 : Qabs (F2Q (Zero false) - 0) <= 0) by (cbn [F2Q]; apply Qabs_le_intro; lra).
  destruct (fadd_approx _ _ _ _ _ _ 6 B0 BT ltac:(lia) E0 ET) as [B1 E1].
  destruct (fadd_approx _ _ _ _ _ _ 7 B1 (bnd_weaken _ _ 7 BE ltac:(lia)) ltac:(lia) E1 EE) as [B2 E2].
  destruct (fadd_approx _ _ _ _ _ _ 8 B2 (bnd_weaken _ _ 8 BD ltac:(lia)) ltac:(lia) E2 ED) as [B3 E3].
  destruct (fadd_approx _ _ _ _ _ _ 9 B3 (bnd_weaken _ _ 9 BW ltac:(lia)) ltac:(lia) E3 EW) as [B4 E4].
  change (fadd (fadd (fadd (fadd (Zero false) T) E) D) W) with s in B4, E4.
  cbn [Z.add Pos.add Pos.succ] in B4.
  assert (N : inject_Z (nT + nE + nD + nW) / 1000 ==
              0 + inject_Z nT / 1000 + inject_Z nE / 1000 + inject_Z nD / 1000 + inject_Z nW / 1000).
  { rewrite !inject_Z_plus. field. }
  assert (Es : Qabs (F2Q s - inject_Z (nT + nE + nD + nW) / 1000) <= 8 * tiny).
  { apply Qabs_le_elim in E4. apply Qabs_le_intro; unfold tiny in *; lra. }
  assert (Dn : decimal s 3 = (nT + nE + nD + nW)%Z).
  { apply decimal_near. rewrite scale_3. eapply Qle_lt_trans; [exact Es|]. reflexivity. }
  split; [exact Dn|].
  destruct (py_round_err s 3 10 B4 ltac:(lia)) as [_ R].
  rewrite Dn, scale_3 in R.
  split; [apply (py_round_bnd s 3 10 B4); lia|].
  eapply Qle_trans; [exact R|]. apply pow2_tiny. lia.
Qed.

Lemma raw_tonnes_bnd kg a :
  bnd kg a -> (-1000 <= a <= 1000)%Z -> bnd (raw_tonnes kg) (a - 9).
Proof.
  intros B H. unfold raw_tonnes. rewrite lit_1000. apply fdiv_bnd; [exact B| |lia].
  vm_compute. discriminate.
Qed.

Lemma diet_check_inv daily :
  diet_check daily = true ->
  let raw := raw_tonnes (fmul daily (lit 365 1)) in
  bnd raw 6 /\ (1055 <= decimal raw 3)%Z /\
  Qabs (inject_Z (decimal raw 3) / 1000 - F2Q raw) <= 46 # 100000 /\
  fleb (lit 1055 1000) (tonnes (fmul daily (lit 365 1))) = true.
Proof.
  unfold diet_check. rewrite !andb_true_iff, Z.leb_le, Qle_bool_iff. intros [[[B D] E] F].
  repeat split; try assumption.
  - apply bndb_bnd in B. apply B.
  - apply bndb_bnd in B. apply B.
  - apply bndb_bnd in B. eapply Qle_trans; [apply B|]. apply pow2_le. lia.
Qed.

(** Within the sliders' ranges every unrounded category is below 2^6
    tonnes. *)
Lemma raw_tonnes_in_range i :
  valid_input i = true -> within_widget_ranges i = true ->
  exists t e d w,
    transport_emissions_kg i = Ok t /\ electricity_emissions_kg i = Ok e /\
    diet_emissions_kg i = Ok d /\ waste_emissions_kg i = Ok w /\
    category_tonnes i =
      Ok [("Transportation", tonnes t); ("Electricity", tonnes e);
          ("Diet", tonnes d); ("Waste", tonnes w)]%string /\
    bnd (raw_tonnes t) 6 /\ bnd (raw_tonnes e) 6 /\ bnd (raw_tonnes w) 6 /\
    (exists daily, d = fmul daily (lit 365 1) /\ diet_check daily = true).
Proof.
  intros V R.
  destruct (valid_input_inv i V) as (_ & _ & Qd & _ & _ & Qk & _ & Qw & _).
  unfold within_widget_ranges in R. rewrite !andb_true_iff in R. destruct R as [[Rd Rk] Rw].
  destruct (compute_shape i V)
    as (days & ef_t & ef_e & daily & share & ef_w & Ed & Bd & _ & Ft & _ & Fe & _ & Cd & _
        & _ & Bs & _ & _ & Fw & H).
  cbv zeta in H. destruct H as (Et & Ee & Edt & Ew & Ec).
  apply factor_ok_inv in Ft, Fe, Fw. destruct Ft as (Bt & _), Fe as (Be & _), Fw as (Bw & _).
  pose proof (quantity_bnd _ _ 8 Qd Rd eq_refl) as Bx.
  pose proof (quantity_bnd _ _ 11 Qk Rk eq_refl) as Bk.
  pose proof (quantity_bnd _ _ 7 Qw Rw eq_refl) as Bg.
  assert (B12 : bnd (lit 12 1) 4) by (apply bndb_bnd; vm_compute; reflexivity).
  assert (B52 : bnd (lit 52 1) 6) by (apply bndb_bnd; vm_compute; reflexivity).
  eexists _, _, _, _. split; [exact Et|]. split; [exact Ee|]. split; [exact Edt|].
  split; [exact Ew|]. split; [exact Ec|].
  split; [|split; [|split]].
  - change 6%Z with (8 + 9 + -2 - 9)%Z. apply raw_tonnes_bnd; [|lia].
    apply fmul_bnd; [apply fmul_bnd| |]; try assumption; lia.
  - change 6%Z with (11 + 4 + 0 - 9)%Z. apply raw_tonnes_bnd; [|lia].
    apply fmul_bnd; [apply fmul_bnd| |]; try assumption; lia.
  - apply bnd_weaken with (7 + 0 + 6 + 1 - 9)%Z; [|lia]. apply raw_tonnes_bnd; [|lia].
    apply fmul_bnd; [apply fmul_bnd; [apply fmul_bnd| |]| |]; try assumption; lia.
  - exists daily. split; [reflexivity|exact Cd].
Qed.

(** The decimals behind the result of an input within the sliders'
    ranges. *)
Lemma compute_decimals i :
  valid_input i = true -> within_widget_ranges i = true ->
  exists t e d w r,
    transport_emissions_kg i = Ok t /\ electricity_emissions_kg i = Ok e /\
    diet_emissions_kg i = Ok d /\ waste_emissions_kg i = Ok w /\
    compute i = Ok r /\
    categories r = [("Transportation", tonnes t); ("Electricity", tonnes e);
                    ("Diet", tonnes d); ("Waste", tonnes w)]%string /\
    total r = py_round (py_sum (values (categories r))) 3 /\
    is_finite (total r) = true /\
    let n := (decimal (raw_tonnes t) 3 + decimal (raw_tonnes e) 3 +
              decimal (raw_tonnes d) 3 + decimal (raw_tonnes w) 3)%Z in
    Qabs (F2Q (total r) - inject_Z n / 1000) <= tiny /\
    Qabs (inject_Z n / 1000 -
          (F2Q (raw_tonnes t) + F2Q (raw_tonnes e) + F2Q (raw_tonnes d) + F2Q (raw_tonnes w)))
      <= 196 # 100000.
Proof.
  intros V R.
  destruct (raw_tonnes_in_range i V R)
    as (t & e & d & w & Et & Ee & Ed & Ew & Ec & Bt & Be & Bw & daily & -> & C).
  apply diet_check_inv in C. cbv zeta in C. destruct C as (Bd & Dd & Errd & Fd).
  destruct (tonnes_decimal _ Bt) as (BT & NT & AT & RT).
  destruct (tonnes_decimal _ Be) as (BE & NE & AE & RE).
  destruct (tonnes_decimal _ Bd) as (BD & ND & AD & _).
  destruct (tonnes_decimal _ Bw) as (BW & NW & AW & RW).
  destruct (total_decimal _ _ _ _ _ _ _ _ BT BE BD BW AT AE AD AW) as (Dn & Fin & Err).
  exists t, e, (fmul daily (lit 365 1)), w.
  eexists. split; [exact Et|]. split; [exact Ee|]. split; [exact Ed|]. split; [exact Ew|].
  split; [apply compute_of_categories, Ec|].
  cbn [categories total]. split; [reflexivity|]. split; [reflexivity|].
  split; [exact Fin|]. cbv zeta. split; [exact Err|].
  assert (S : forall a b c d : Z,
             inject_Z (a + b + c + d) / 1000 ==
             inject_Z a / 1000 + inject_Z b / 1000 + inject_Z c / 1000 + inject_Z d / 1000).
  { intros. rewrite !inject_Z_plus. field. }
  rewrite S.
  apply Qabs_le_elim in RT, RE, Errd, RW. apply Qabs_le_intro; lra.
Qed.

(** *** Non-negative categories *)

(** On a valid input the three activity categories are non-negative and
    the diet value is one of six positive constants that rounding leaves
    unchanged. *)
Lemma categories_nn i :
  valid_input i = true ->
  exists T E D W dq,
    category_tonnes i =
      Ok [("Transportation", T); ("Electricity", E); ("Diet", D); ("Waste", W)]%string /\
    nn T /\ nn E /\ nn W /\
    D = Num dq /\ 0 < dq /\ RN dq = Num dq /\ py_round D 3 = D /\
    fle (lit 1055 1000) D.
Proof.
  intros V.
  destruct (valid_input_inv i V) as (_ & _ & Qd & _ & _ & Qk & _ & Qw & _).
  destruct (compute_shape i V)
    as (days & ef_t & ef_e & daily & share & ef_w & Ed & Bd & _ & Ft & _ & Fe & _ & Cd & Fx
        & _ & Bs & _ & _ & Fw & H).
  cbv zeta in H. destruct H as (_ & _ & _ & _ & Ec).
  apply factor_ok_inv in Ft, Fe, Fw.
  destruct Ft as (_ & _ & Pt), Fe as (_ & _ & Pe), Fw as (_ & _ & Pw).
  destruct (quantity_inv _ Qd) as (Fd & Pd & _).
  destruct (quantity_inv _ Qk) as (_ & _ & Nk).
  destruct (quantity_inv _ Qw) as (Fg & Pg & _).
  unfold diet_fixed in Fx. cbv zeta in Fx. rewrite !andb_true_iff in Fx.
  destruct Fx as [[[F1 F2] F3] _].
  apply same_float_eq in F1, F2. destruct (positive_float_inv _ F3) as (dq & ED & Hdq).
  eexists _, _, _, _, dq. split; [exact Ec|].
  split; [|split; [|split]].
  - destruct Pt as (q & -> & Hq).
    destruct (fmul_finite_mono (daily_commute_km i) (daily_commute_km i) days days) as [N _];
      try assumption; try apply Bd; try apply Qle_refl.
    exact (monotone_nn_keeps _ _
             (monotone_nn_compose _ _ (fmul_pos_monotone q Hq) tonnes_monotone) N).
  - rewrite lit_12.
    exact (monotone_nn_keeps _ _ (scaled_tonnes_monotone 12 ef_e eq_refl Pe) Nk).
  - rewrite lit_52.
    destruct (fmul_finite_mono (weekly_waste_kg i) (weekly_waste_kg i) share share) as [N _];
      try assumption; try apply Bs; try apply Qle_refl.
    exact (monotone_nn_keeps _ _ (scaled_tonnes_monotone 52 ef_w eq_refl Pw) N).
  - split; [exact ED|]. split; [exact Hdq|]. rewrite ED in F1, F2. cbn [F2Q] in F1.
    split; [exact F1|]. rewrite ED. split; [exact F2|].
    rewrite <- ED. unfold diet_check in Cd. rewrite !andb_true_iff in Cd. apply Cd.
Qed.

(** The total of a valid input is at least its diet value. *)
Lemma total_above_diet T E D W dq :
  nn T -> nn E -> nn W -> D = Num dq -> 0 < dq -> RN dq = Num dq -> py_round D 3 = D ->
  fle D (total_of [("Transportation", T); ("Electricity", E); ("Diet", D); ("Waste", W)]%string).
Proof.
  intros NT NE NW -> Hq R P.
  unfold total_of. cbn [values map snd py_sum fold_left].
  assert (N0 : nn (Zero false)) by reflexivity.
  pose proof (fadd_nn _ _ (fadd_nn _ _ N0 NT) NE) as N2.
  pose proof (fadd_lower_r dq _ R Hq N2) as L3.
  pose proof (fadd_lower dq _ W R Hq L3 NW) as L4.
  assert (ND : nn (Num dq)) by (apply nn_finite; [reflexivity|cbn [F2Q]; lra]).
  destruct (py_round_monotone 3 _ _ ND L4) as [_ M]. rewrite P in M. exact M.
Qed.

(** *** The same for quantities of up to 10^10 *)

Lemma pow2_below k c : Qle_bool (pow2 k) c = true -> pow2 k <= c.
Proof. apply Qle_bool_iff. Qed.

Lemma tonnes_decimal_wide raw :
  bnd raw 32 ->
  bnd (py_round raw 3) 32 /\
  (0 <= decimal raw 3)%Z /\
  Qabs (F2Q (py_round raw 3) - inject_Z (decimal raw 3) / 1000) <= 1 # 1000000 /\
  Qabs (inject_Z (decimal raw 3) / 1000 - F2Q raw) <= 1 # 2000.
Proof.
  intros B.
  destruct (py_round_err raw 3 32 B ltac:(lia)) as [E1 E2].
  destruct (decimal_bnd raw 3 32 B ltac:(lia)) as [D0 _].
  rewrite scale_3 in *.
  split; [apply py_round_bnd; [exact B|lia]|]. split; [exact D0|]. split.
  - eapply Qle_trans; [exact E2|]. apply pow2_below. reflexivity.
  - eapply Qle_trans; [exact E1|]. apply Qle_bool_iff. reflexivity.
Qed.

Lemma fadd_approx_wide x y vx vy ex ey k :
  bnd x k -> bnd y k -> (0 <= k <= 35)%Z ->
  Qabs (F2Q x - vx) <= ex -> Qabs (F2Q y - vy) <= ey ->
  bnd (fadd x y) (k + 1) /\ Qabs (F2Q (fadd x y) - (vx + vy)) <= ex + ey + (1 # 100000).
Proof.
  intros Bx By Hk Ex Ey.
  split; [apply fadd_bnd; try assumption; lia|].
  destruct (fadd_err x y (k + 1)) as [_ E]; [apply Bx|apply By| |lia|].
  - destruct Bx as (_ & L1 & U1). destruct By as (_ & L2 & U2).
    rewrite pow2_succ. apply Qabs_le_intro; assert (P := pow2_pos k); lra.
  - assert (T : pow2 (k + 1 - 53) <= 1 # 100000).
    { eapply Qle_trans; [apply (pow2_le _ (-17)); lia|]. apply pow2_below. reflexivity. }
    apply Qabs_le_elim in Ex, Ey, E. apply Qabs_le_intro; lra.
Qed.

Lemma total_decimal_wide T E D W nT nE nD nW :
  bnd T 32 -> bnd E 32 -> bnd D 32 -> bnd W 32 ->
  Qabs (F2Q T - inject_Z nT / 1000) <= 1 # 1000000 ->
  Qabs (F2Q E - inject_Z nE / 1000) <= 1 # 1000000 ->
  Qabs (F2Q D - inject_Z nD / 1000) <= 1 # 1000000 ->
  Qabs (F2Q W - inject_Z nW / 1000) <= 1 # 1000000 ->
  let s := py_sum [T; E; D; W] in
  decimal s 3 = (nT + nE + nD + nW)%Z /\
  is_finite (py_round s 3) = true /\
  Qabs (F2Q (py_round s 3) - inject_Z (nT + nE + nD + nW) / 1000) <= 1 # 100000.
Proof.
  intros BT BE BD BW ET EE ED EW s.
  assert (B0 : bnd (Zero false) 32).
  { repeat split; cbn [F2Q]; try lra. apply Qlt_le_weak, pow2_pos. }
  assert (E0 : Qabs (F2Q (Zero false) - 0) <= 0) by (cbn [F2Q]; apply Qabs_le_intro; lra).
  destruct (fadd_approx_wide _ _ _ _ _ _ 32 B0 BT ltac:(lia) E0 ET) as [B1 E1].
  destruct (fadd_approx_wide _ _ _ _ _ _ 33 B1 (bnd_weaken _ _ 33 BE ltac:(lia)) ltac:(lia) E1 EE)
    as [B2 E2].
  destruct (fadd_approx_wide _ _ _ _ _ _ 34 B2 (bnd_weaken _ _ 34 BD ltac:(lia)) ltac:(lia) E2 ED)
    as [B3 E3].
  destruct (fadd_approx_wide _ _ _ _ _ _ 35 B3 (bnd_weaken _ _ 35 BW ltac:(lia)) ltac:(lia) E3 EW)
    as [B4 E4].
  change (fadd (fadd (fadd (fadd (Zero false) T) E) D) W) with s in B4, E4.
  cbn [Z.add Pos.add Pos.succ] in B4.
  assert (N : inject_Z (nT + nE + nD + nW) / 1000 ==
              0 + inject_Z nT / 1000 + inject_Z nE / 1000 + inject_Z nD / 1000
              + inject_Z nW / 1000).
  { rewrite !inject_Z_plus. field. }
  assert (Es : Qabs (F2Q s - inject_Z (nT + nE + nD + nW) / 1000) <= 44 # 1000000).
  { apply Qabs_le_elim in E4. apply Qabs_le_intro; lra. }
  assert (Dn : decimal s 3 = (nT + nE + nD + nW)%Z).
  { apply decimal_near. rewrite scale_3. eapply Qle_lt_trans; [exact Es|]. reflexivity. }
  split; [exact Dn|].
  destruct (py_round_err s 3 36 B4 ltac:(lia)) as [_ R].
  rewrite Dn, scale_3 in R.
  split; [apply (py_round_bnd s 3 36 B4); lia|].
  eapply Qle_trans; [exact R|]. apply pow2_below. reflexivity.
Qed.

(** With quantities of at most 10^10 every unrounded category is below
    2^32 tonnes. *)
Lemma raw_tonnes_moderate i :
  valid_input i = true -> moderate_quantities i = true ->
  exists t e d w,
    transport_emissions_kg i = Ok t /\ electricity_emissions_kg i = Ok e /\
    diet_emissions_kg i = Ok d /\ waste_emissions_kg i = Ok w /\
    bnd (raw_tonnes t) 32 /\ bnd (raw_tonnes e) 32 /\ bnd (raw_tonnes w) 32 /\
    (exists daily, d = fmul daily (lit 365 1) /\ diet_check daily = true).
Proof.
  intros V R.
  destruct (valid_input_inv i V) as (_ & _ & Qd & _ & _ & Qk & _ & Qw & _).
  unfold moderate_quantities in R. rewrite !andb_true_iff in R. destruct R as [[Rd Rk] Rw].
  destruct (compute_shape i V)
    as (days & ef_t & ef_e & daily & share & ef_w & Ed & Bd & _ & Ft & _ & Fe & _ & Cd & _
        & _ & Bs & _ & _ & Fw & H).
  cbv zeta in H. destruct H as (Et & Ee & Edt & Ew & Ec).
  apply factor_ok_inv in Ft, Fe, Fw. destruct Ft as (Bt & _), Fe as (Be & _), Fw as (Bw & _).
  assert (Bhi : bndb (lit 10000000000 1) 34 = true) by (vm_compute; reflexivity).
  pose proof (quantity_bnd _ _ 34 Qd Rd Bhi) as Bx.
  pose proof (quantity_bnd _ _ 34 Qk Rk Bhi) as Bk.
  pose proof (quantity_bnd _ _ 34 Qw Rw Bhi) as Bg.
  assert (B12 : bnd (lit 12 1) 4) by (apply bndb_bnd; vm_compute; reflexivity).
  assert (B52 : bnd (lit 52 1) 6) by (apply bndb_bnd; vm_compute; reflexivity).
  eexists _, _, _, _. split; [exact Et|]. split; [exact Ee|]. split; [exact Edt|].
  split; [exact Ew|].
  split; [|split; [|split]].
  - change 32%Z with (34 + 9 + -2 - 9)%Z. apply raw_tonnes_bnd; [|lia].
    apply fmul_bnd; [apply fmul_bnd| |]; try assumption; lia.
  - apply bnd_weaken with (34 + 4 + 0 - 9)%Z; [|lia]. apply raw_tonnes_bnd; [|lia].
    apply fmul_bnd; [apply fmul_bnd| |]; try assumption; lia.
  - change 32%Z with (34 + 0 + 6 + 1 - 9)%Z. apply raw_tonnes_bnd; [|lia].
    apply fmul_bnd; [apply fmul_bnd; [apply fmul_bnd| |]| |]; try assumption; lia.
  - exists daily. split; [reflexivity|exact Cd].
Qed.

(** * The model agrees with the reference implementations *)

(** The operations above against the Standard Library's [SpecFloat]
    (binary64 is [prec = 53], [emax = 1024]), on the operands of the
    default scenario. *)
Example fmul_agrees_with_SpecFloat :
  to_SF (fmul (lit 563 100) (lit 365 1)) =
  SpecFloat.SFmul 53 1024 (to_SF (lit 563 100)) (to_SF (lit 365 1)).
Proof. vm_compute. reflexivity. Qed.

Example fdiv_agrees_with_SpecFloat :
  to_SF (fdiv (fmul (lit 563 100) (lit 365 1)) (lit 1000 1)) =
  SpecFloat.SFdiv 53 1024 (to_SF (fmul (lit 563 100) (lit 365 1))) (to_SF (lit 1000 1)).
Proof. vm_compute. reflexivity. Qed.

Example fadd_agrees_with_SpecFloat :
  to_SF (fadd (lit 2760 1000) (lit 2055 1000)) =
  SpecFloat.SFadd 53 1024 (to_SF (lit 2760 1000)) (to_SF (lit 2055 1000)).
Proof. vm_compute. reflexivity. Qed.

Example fsub_agrees_with_SpecFloat :
  to_SF (fsub (lit 1 1) (fdiv (lit 20 1) (lit 100 1))) =
  SpecFloat.SFsub 53 1024 (to_SF (lit 1 1))
    (SpecFloat.SFdiv 53 1024 (to_SF (lit 20 1)) (to_SF (lit 100 1))).
Proof. vm_compute. reflexivity. Qed.

Example literal_agrees_with_SpecFloat :
  to_SF (lit 716 1000) =
  SpecFloat.SFdiv 53 1024 (to_SF (lit 716 1)) (to_SF (lit 1000 1)).
Proof. vm_compute. reflexivity. Qed.

(** [round] against CPython: [round(0.0625, 3) == 0.062] and
    [round(0.1875, 3) == 0.188] (exact ties go to the even decimal),
    [round(2.675, 2) == 2.67] (the float is below the tie),
    [round(-0.0001, 3) == -0.0]. *)
Example py_round_ties :
  py_round (lit 625 10000) 3 = lit 62 1000 /\
  py_round (lit 1875 10000) 3 = lit 188 1000 /\
  py_round (lit 2675 1000) 2 = lit 267 100 /\
  py_round (lit (-1) 10000) 3 = Zero true.
Proof. repeat split; vm_compute; reflexivity. Qed.

(** The totals below do not depend on which [sum] CPython uses: rounded
    to three decimals, the compensated sum of 3.12 and later gives the
    same totals for the default input and for [bus_input]. *)
Example totals_agree_under_compensated_sum :
  (cats <- category_tonnes default_input ;;
   Ok (py_round (py_sum_compensated (values cats)) 3, total_of cats))
  = Ok (lit 489 100, lit 489 100) /\
  (cats <- category_tonnes bus_input ;;
   Ok (py_round (py_sum_compensated (values cats)) 3, total_of cats))
  = Ok (lit 3178 1000, lit 3178 1000).
Proof. split; vm_compute; reflexivity. Qed.

(** * The claims *)

(** C1 (as amended): for the concrete input India, car, 15 km/day, 240
    days/year, occupancy 1.0, 250 kWh/month, medium-meat diet, 4 kg/week,
    20 % segregation, landfill, [compute] returns Transportation 0.612,
    Electricity 2.148, Diet 2.055, Waste 0.075 and the total 4.89, each
    being the float nearest to that decimal. *)
Theorem default_scenario_result :
  compute default_input =
  Ok {| categories :=
          [("Transportation", lit 612 1000); ("Electricity", lit 2148 1000);
           ("Diet", lit 2055 1000); ("Waste", lit 75 1000)]%string;
        total := lit 489 100 |}.
Proof. vm_compute. reflexivity. Qed.

(** C1 (as stated) fails: on that input the Diet value is not within
    0.002 of 2.05, and the total is not within 0.002 of 4.885. *)
Lemma default_scenario_off_tolerance :
  exists r,
    compute default_input = Ok r /\
    ~ Qabs (F2Q (cat (categories r) "Diet") - (205 # 100)) <= 2 # 1000 /\
    ~ Qabs (F2Q (total r) - (4885 # 1000)) <= 2 # 1000.
Proof.
  eexists. split; [vm_compute; reflexivity|]. split.
  - intros H. apply Qle_bool_iff in H. vm_compute in H. discriminate.
  - intros H. apply Qle_bool_iff in H. vm_compute in H. discriminate.
Qed.

(** C2 (as amended): on a valid input whose four quantities are zero,
    Transportation, Electricity and Waste are 0.0, Diet is the diet
    preset times 365 in rounded tonnes, which is at least 1.055, and the
    total equals the Diet value. *)
Theorem zero_quantities_leave_diet i :
  valid_input i = true ->
  daily_commute_km i = Zero false -> commute_days i = 0%Z ->
  monthly_kwh i = Zero false -> weekly_waste_kg i = Zero false ->
  exists daily,
    getitem DIET_DAILY (diet_type i) = Ok daily /\
    compute i =
      Ok {| categories :=
              [("Transportation", Zero false); ("Electricity", Zero false);
               ("Diet", tonnes (fmul daily (lit 365 1))); ("Waste", Zero false)]%string;
            total := tonnes (fmul daily (lit 365 1)) |} /\
    fleb (lit 1055 1000) (tonnes (fmul daily (lit 365 1))) = true.
Proof.
  intros V Hd Hdays Hk Hw.
  destruct (compute_shape i V)
    as (days & ef_t & ef_e & daily & share & ef_w & Ed & _ & _ & Ft & _ & Fe & Gd & Cd & Fx
        & _ & _ & Ps & _ & Fw & H).
  cbv zeta in H. destruct H as (_ & _ & _ & _ & Ec).
  apply factor_ok_inv in Ft, Fe, Fw.
  destruct Ft as (_ & Pt & _), Fe as (_ & Pe & _), Fw as (_ & Pw & _).
  rewrite Hdays in Ed. change (of_int 0) with (Ok (Zero false)) in Ed. injection Ed as <-.
  rewrite Hd, Hk, Hw in Ec.
  change (fmul (Zero false) (Zero false)) with (Zero false) in Ec.
  rewrite (fmul_pzero_l ef_t Pt) in Ec.
  rewrite (fmul_pzero_l (lit 12 1)) in Ec by (vm_compute; reflexivity).
  rewrite (fmul_pzero_l ef_e Pe) in Ec.
  rewrite (fmul_pzero_l share Ps) in Ec.
  rewrite (fmul_pzero_l (lit 52 1)) in Ec by (vm_compute; reflexivity).
  rewrite (fmul_pzero_l ef_w Pw) in Ec.
  change (tonnes (Zero false)) with (Zero false) in Ec.
  exists daily. split; [exact Gd|]. split.
  - rewrite (compute_of_categories _ _ Ec). f_equal. f_equal.
    unfold diet_fixed in Fx. cbv zeta in Fx. rewrite !andb_true_iff in Fx.
    apply same_float_eq, Fx.
  - unfold diet_check in Cd. rewrite !andb_true_iff in Cd. apply Cd.
Qed.

(** The theorem at [zero_input]. *)
Lemma zero_quantities_leave_diet_witness :
  valid_input zero_input = true /\
  exists daily,
    getitem DIET_DAILY (diet_type zero_input) = Ok daily /\
    compute zero_input =
      Ok {| categories :=
              [("Transportation", Zero false); ("Electricity", Zero false);
               ("Diet", tonnes (fmul daily (lit 365 1))); ("Waste", Zero false)]%string;
            total := tonnes (fmul daily (lit 365 1)) |} /\
    fleb (lit 1055 1000) (tonnes (fmul daily (lit 365 1))) = true.
Proof.
  split; [reflexivity|].
  apply (zero_quantities_leave_diet zero_input); reflexivity.
Defined.

(** C2 (as stated) fails: with every quantity at zero (and the default
    medium-meat diet) the Diet value and the total are 2.055, not 0. *)
Lemma zero_input_is_not_all_zero :
  valid_input zero_input = true /\
  exists r,
    compute zero_input = Ok r /\
    cat (categories r) "Diet" = lit 2055 1000 /\
    feqb (cat (categories r) "Diet") (Zero false) = false /\
    total r = lit 2055 1000 /\
    feqb (total r) (Zero false) = false.
Proof.
  split; [vm_compute; reflexivity|].
  eexists. split; [vm_compute; reflexivity|].
  repeat split; vm_compute; reflexivity.
Qed.

(** C3 (as amended): [compute] checks no range.  Whatever the numbers
    are (the two ints being convertible to a float), it returns a result
    when the mode, country, diet and treatment are keys of their tables.
    Otherwise it raises [KeyError] for the key that is absent from its
    table: for the mode when that is unknown, else for the country, else
    for the diet, else for the treatment (the order of the lookups in
    lines 100-119).  A lookup of an unknown key fails and never defaults. *)
Theorem compute_fails_only_on_unknown_keys i :
  (Z.abs (commute_days i) <= 2 ^ 1023)%Z ->
  (Z.abs (segregation i) <= 2 ^ 1023)%Z ->
  (recognized i = true -> exists r, compute i = Ok r) /\
  (mem (mode i) (keys TRANSPORT_EF_PAXKM) = false ->
   compute i = Raise (KeyError (mode i))) /\
  (mem (mode i) (keys TRANSPORT_EF_PAXKM) = true ->
   mem (country i) (keys ELECTRICITY_EF) = false ->
   compute i = Raise (KeyError (country i))) /\
  (mem (mode i) (keys TRANSPORT_EF_PAXKM) = true ->
   mem (country i) (keys ELECTRICITY_EF) = true ->
   mem (diet_type i) (keys DIET_DAILY) = false ->
   compute i = Raise (KeyError (diet_type i))) /\
  (mem (mode i) (keys TRANSPORT_EF_PAXKM) = true ->
   mem (country i) (keys ELECTRICITY_EF) = true ->
   mem (diet_type i) (keys DIET_DAILY) = true ->
   mem (waste_treatment i) (keys WASTE_EF) = false ->
   compute i = Raise (KeyError (waste_treatment i))) /\
  (recognized i = false ->
   exists k, compute i = Raise (KeyError k) /\
     ((k = mode i /\ mem (mode i) (keys TRANSPORT_EF_PAXKM) = false) \/
      (k = country i /\ mem (country i) (keys ELECTRICITY_EF) = false) \/
      (k = diet_type i /\ mem (diet_type i) (keys DIET_DAILY) = false) \/
      (k = waste_treatment i /\ mem (waste_treatment i) (keys WASTE_EF) = false))).
Proof.
  intros Hd Hs.
  destruct (of_int_ok _ Hd) as (days & Ed).
  destruct (one_minus_percent_ok _ Hs) as (share & Es).
  unfold recognized, compute, category_tonnes.
  rewrite transport_emissions_kg_eq.
  unfold annual_commute_km, electricity_emissions_kg, diet_emissions_kg, waste_emissions_kg.
  rewrite Ed, Es. cbn [bind].
  destruct (mem (mode i) (keys TRANSPORT_EF_PAXKM)) eqn:Mm.
  2:{ rewrite (getitem_not_mem _ _ Mm). cbn [bind andb].
      repeat split; intros; try discriminate; try reflexivity.
      eexists. split; [reflexivity|]. left. split; reflexivity. }
  destruct (getitem_mem _ _ Mm) as (v1 & ->). cbn [bind andb].
  destruct (mem (country i) (keys ELECTRICITY_EF)) eqn:Mc.
  2:{ rewrite (getitem_not_mem _ _ Mc). cbn [bind andb].
      repeat split; intros; try discriminate; try reflexivity.
      eexists. split; [reflexivity|]. right. left. split; reflexivity. }
  destruct (getitem_mem _ _ Mc) as (v2 & ->). cbn [bind andb].
  destruct (mem (diet_type i) (keys DIET_DAILY)) eqn:Md.
  2:{ rewrite (getitem_not_mem _ _ Md). cbn [bind andb].
      repeat split; intros; try discriminate; try reflexivity.
      eexists. split; [reflexivity|]. right. right. left. split; reflexivity. }
  destruct (getitem_mem _ _ Md) as (v3 & ->). cbn [bind andb].
  destruct (mem (waste_treatment i) (keys WASTE_EF)) eqn:Mw.
  2:{ rewrite (getitem_not_mem _ _ Mw). cbn [bind andb].
      repeat split; intros; try discriminate; try reflexivity.
      eexists. split; [reflexivity|]. right. right. right. split; reflexivity. }
  destruct (getitem_mem _ _ Mw) as (v4 & ->). cbn [bind andb].
  repeat split; intros; try discriminate. eexists. reflexivity.
Qed.

(** The theorem at the default input with a segregation rate of 150
    (every key known: a result), with the mode "tram" ([KeyError] for
    "tram") and with the diet "Keto" ([KeyError] for "Keto"). *)
Lemma compute_fails_only_on_unknown_keys_witness :
  ((Z.abs (commute_days (with_segregation default_input 150)) <= 2 ^ 1023)%Z /\
   (Z.abs (segregation (with_segregation default_input 150)) <= 2 ^ 1023)%Z /\
   recognized (with_segregation default_input 150) = true /\
   exists r, compute (with_segregation default_input 150) = Ok r) /\
  (mem (mode tram_input) (keys TRANSPORT_EF_PAXKM) = false /\
   compute tram_input = Raise (KeyError "tram")) /\
  (mem (mode keto_input) (keys TRANSPORT_EF_PAXKM) = true /\
   mem (country keto_input) (keys ELECTRICITY_EF) = true /\
   mem (diet_type keto_input) (keys DIET_DAILY) = false /\
   compute keto_input = Raise (KeyError "Keto")).
Proof.
  assert (B : forall i, (Z.abs (commute_days i) <=? 2 ^ 1023)%Z = true ->
                        (Z.abs (commute_days i) <= 2 ^ 1023)%Z)
    by (intros i; apply Z.leb_le).
  assert (S : forall i, (Z.abs (segregation i) <=? 2 ^ 1023)%Z = true ->
                        (Z.abs (segregation i) <= 2 ^ 1023)%Z)
    by (intros i; apply Z.leb_le).
  split; [|split].
  - pose proof (B (with_segregation default_input 150) ltac:(vm_compute; reflexivity)) as H1.
    pose proof (S (with_segregation default_input 150) ltac:(vm_compute; reflexivity)) as H2.
    split; [exact H1|]. split; [exact H2|]. split; [vm_compute; reflexivity|].
    apply (proj1 (compute_fails_only_on_unknown_keys _ H1 H2)). vm_compute. reflexivity.
  - split; [vm_compute; reflexivity|].
    apply (proj1 (proj2 (compute_fails_only_on_unknown_keys tram_input
             (B tram_input ltac:(vm_compute; reflexivity))
             (S tram_input ltac:(vm_compute; reflexivity))))).
    vm_compute. reflexivity.
  - split; [vm_compute; reflexivity|]. split; [vm_compute; reflexivity|].
    split; [vm_compute; reflexivity|].
    apply (proj1 (proj2 (proj2 (proj2 (compute_fails_only_on_unknown_keys keto_input
             (B keto_input ltac:(vm_compute; reflexivity))
             (S keto_input ltac:(vm_compute; reflexivity))))))); vm_compute; reflexivity.
Defined.

(** C3 (as stated) fails: a segregation rate of 150, 400 commute days
    and a distance of -15 km are each computed with, not rejected. *)
Lemma out_of_range_inputs_are_accepted :
  (exists r, compute (with_segregation default_input 150) = Ok r /\
             cat (categories r) "Waste" = lit (-47) 1000) /\
  (exists r, compute (with_commute_days default_input 400) = Ok r /\
             cat (categories r) "Transportation" = lit 102 100) /\
  (exists r, compute (with_daily_commute_km default_input (lit (-15) 1)) = Ok r /\
             cat (categories r) "Transportation" = lit (-612) 1000).
Proof.
  repeat split; eexists; (split; [vm_compute; reflexivity|]); vm_compute; reflexivity.
Qed.

(** The occupancy is read by no part of the calculation. *)
Lemma compute_with_occupancy i o : compute (with_occupancy i o) = compute i.
Proof.
  unfold compute, category_tonnes. rewrite !transport_emissions_kg_eq. reflexivity.
Qed.

(** C4: for a valid input with mode car and any two occupancy values (in
    particular any two that are at least 1), [compute] returns the same
    result, and the Transportation emissions are
    [daily_commute_km * commute_days * TRANSPORT_EF_PAXKM["car"]] kg,
    whatever the occupancy. *)
Theorem occupancy_is_never_applied i o1 o2 :
  valid_input i = true -> mode i = "car"%string ->
  compute (with_occupancy i o1) = compute (with_occupancy i o2) /\
  exists days,
    of_int (commute_days i) = Ok days /\
    let kg := fmul (fmul (daily_commute_km i) days) (lit 170 1000) in
    transport_emissions_kg (with_occupancy i o1) = Ok kg /\
    transport_emissions_kg (with_occupancy i o2) = Ok kg /\
    category (with_occupancy i o1) "Transportation" = Ok (tonnes kg) /\
    category (with_occupancy i o2) "Transportation" = Ok (tonnes kg).
Proof.
  intros V M. split; [rewrite !compute_with_occupancy; reflexivity|].
  destruct (compute_shape i V)
    as (days & ef_t & ef_e & daily & share & ef_w & Ed & _ & Gt & _ & _ & _ & _ & _ & _
        & _ & _ & _ & _ & _ & H).
  cbv zeta in H. destruct H as (Et & _ & _ & _ & Ec).
  rewrite M in Gt. injection Gt as <-.
  exists days. split; [exact Ed|]. cbv zeta.
  assert (T : forall o, transport_emissions_kg (with_occupancy i o) =
                        Ok (fmul (fmul (daily_commute_km i) days) (lit 170 1000))).
  { intros o. rewrite transport_emissions_kg_eq. unfold annual_commute_km.
    cbn [with_occupancy commute_days daily_commute_km mode]. rewrite Ed, M. reflexivity. }
  split; [apply T|]. split; [apply T|].
  assert (C : forall o, category (with_occupancy i o) "Transportation" =
                        Ok (tonnes (fmul (fmul (daily_commute_km i) days) (lit 170 1000)))).
  { intros o. unfold category. rewrite compute_with_occupancy.
    rewrite (compute_of_categories _ _ Ec). reflexivity. }
  split; apply C.
Qed.

(** The theorem at the default input, for occupancies 1.0 and 3.0. *)
Lemma occupancy_is_never_applied_witness :
  valid_input default_input = true /\ mode default_input = "car"%string /\
  compute (with_occupancy default_input (lit 1 1)) =
  compute (with_occupancy default_input (lit 3 1)).
Proof.
  split; [reflexivity|]. split; [reflexivity|].
  exact (proj1 (occupancy_is_never_applied default_input (lit 1 1) (lit 3 1) eq_refl eq_refl)).
Defined.

(** C5 (as amended): for every valid input, every category is its
    kilograms divided by 1000 and rounded to three decimals, and the
    total is the rounded sum of these four rounded values.  Whenever the
    daily distance, the monthly consumption and the weekly waste are each
    at most 10^10, the total is finite and differs from the sum of the
    four unrounded tonnes values by at most 0.002. *)
Theorem total_sums_rounded_categories i :
  valid_input i = true ->
  exists t e d w r,
    transport_emissions_kg i = Ok t /\ electricity_emissions_kg i = Ok e /\
    diet_emissions_kg i = Ok d /\ waste_emissions_kg i = Ok w /\
    compute i = Ok r /\
    categories r =
      [("Transportation", py_round (raw_tonnes t) 3);
       ("Electricity", py_round (raw_tonnes e) 3);
       ("Diet", py_round (raw_tonnes d) 3);
       ("Waste", py_round (raw_tonnes w) 3)]%string /\
    total r = py_round (py_sum (values (categories r))) 3 /\
    (moderate_quantities i = true ->
     is_finite (total r) = true /\
     Qabs (F2Q (total r) -
           (F2Q (raw_tonnes t) + F2Q (raw_tonnes e) + F2Q (raw_tonnes d)
            + F2Q (raw_tonnes w)))
       <= 2 # 1000).
Proof.
  intros V.
  destruct (compute_shape i V)
    as (days & ef_t & ef_e & daily & share & ef_w & _ & _ & _ & _ & _ & _ & _ & _ & _
        & _ & _ & _ & _ & _ & H).
  cbv zeta in H. destruct H as (Et & Ee & Ed & Ew & Ec).
  eexists _, _, _, _, _.
  split; [exact Et|]. split; [exact Ee|]. split; [exact Ed|]. split; [exact Ew|].
  split; [apply compute_of_categories, Ec|].
  cbn [categories total]. split; [reflexivity|]. split; [reflexivity|].
  intros M.
  destruct (raw_tonnes_moderate i V M)
    as (t' & e' & d' & w' & Et' & Ee' & Ed' & Ew' & Bt & Be & Bw & daily' & Dd' & C).
  rewrite Et in Et'. rewrite Ee in Ee'. rewrite Ed in Ed'. rewrite Ew in Ew'.
  injection Et' as <-. injection Ee' as <-. injection Ed' as <-. injection Ew' as <-.
  rewrite Dd' in *. clear Dd'.
  apply diet_check_inv in C. cbv zeta in C. destruct C as (Bd & Dd & Errd & Fd).
  destruct (tonnes_decimal_wide _ Bt) as (BT & NT & AT & RT).
  destruct (tonnes_decimal_wide _ Be) as (BE & NE & AE & RE).
  destruct (tonnes_decimal_wide _ (bnd_weaken _ _ 32 Bd ltac:(lia))) as (BD & ND & AD & _).
  destruct (tonnes_decimal_wide _ Bw) as (BW & NW & AW & RW).
  destruct (total_decimal_wide _ _ _ _ _ _ _ _ BT BE BD BW AT AE AD AW) as (Dn & Fin & Err).
  unfold total_of, tonnes. cbn [values map snd].
  split; [exact Fin|].
  assert (S : forall a b c d : Z,
             inject_Z (a + b + c + d) / 1000 ==
             inject_Z a / 1000 + inject_Z b / 1000 + inject_Z c / 1000 + inject_Z d / 1000).
  { intros. rewrite !inject_Z_plus. field. }
  rewrite S in Err.
  apply Qabs_le_elim in RT, RE, Errd, RW, Err. apply Qabs_le_intro; lra.
Qed.

(** The theorem at the default input. *)
Lemma total_sums_rounded_categories_witness :
  valid_input default_input = true /\ moderate_quantities default_input = true /\
  exists t e d w r,
    transport_emissions_kg default_input = Ok t /\
    electricity_emissions_kg default_input = Ok e /\
    diet_emissions_kg default_input = Ok d /\
    waste_emissions_kg default_input = Ok w /\
    compute default_input = Ok r /\
    categories r =
      [("Transportation", py_round (raw_tonnes t) 3);
       ("Electricity", py_round (raw_tonnes e) 3);
       ("Diet", py_round (raw_tonnes d) 3);
       ("Waste", py_round (raw_tonnes w) 3)]%string /\
    total r = py_round (py_sum (values (categories r))) 3 /\
    is_finite (total r) = true /\
    Qabs (F2Q (total r) -
          (F2Q (raw_tonnes t) + F2Q (raw_tonnes e) + F2Q (raw_tonnes d)
           + F2Q (raw_tonnes w)))
      <= 2 # 1000.
Proof.
  assert (V : valid_input default_input = true) by (vm_compute; reflexivity).
  assert (M : moderate_quantities default_input = true) by (vm_compute; reflexivity).
  split; [exact V|]. split; [exact M|].
  destruct (total_sums_rounded_categories default_input V)
    as (t & e & d & w & r & Et & Ee & Ed & Ew & Ec & Cs & Tt & B).
  exists t, e, d, w, r.
  repeat match goal with |- _ /\ _ => split end; try assumption; apply (B M).
Defined.

(** C5 (as stated) fails: a monthly consumption of 10^16 kWh is a valid
    input (a float [>= 0]), and there the total, 85920000000002.75, is
    0.00817 away from the sum of the unrounded tonnes: at that magnitude
    consecutive floats are 1/64 apart. *)
Lemma rounding_bound_fails_for_huge_input :
  valid_input huge_input = true /\
  exists t e d w r,
    transport_emissions_kg huge_input = Ok t /\
    electricity_emissions_kg huge_input = Ok e /\
    diet_emissions_kg huge_input = Ok d /\
    waste_emissions_kg huge_input = Ok w /\
    compute huge_input = Ok r /\
    total r = lit 8592000000000275 100 /\
    ~ Qabs (F2Q (total r) -
            (F2Q (raw_tonnes t) + F2Q (raw_tonnes e) + F2Q (raw_tonnes d) + F2Q (raw_tonnes w)))
        <= 2 # 1000.
Proof.
  split; [vm_compute; reflexivity|].
  eexists _, _, _, _, _.
  split; [vm_compute; reflexivity|]. split; [vm_compute; reflexivity|].
  split; [vm_compute; reflexivity|]. split; [vm_compute; reflexivity|].
  split; [vm_compute; reflexivity|]. split; [vm_compute; reflexivity|].
  intros H. apply Qle_bool_iff in H. vm_compute in H. discriminate.
Qed.

(** C6 (the code departs from the claim): with the widgets' default
    values the what-if block reports 3.179 as the new total, while
    [compute] on the alternate input gives 3.178; and with what-if
    widgets that change nothing ([bus_input], [no_change]) it reports
    3.179 against the calculator's own 3.178, a delta of 0.001. *)
Theorem whatif_total_differs_from_compute :
  new_total_t default_input default_whatif = Ok (lit 3179 1000) /\
  alternate_total default_input default_whatif = Ok (lit 3178 1000) /\
  new_total_t bus_input no_change = Ok (lit 3179 1000) /\
  alternate_total bus_input no_change = Ok (lit 3178 1000) /\
  total_tonnes bus_input = Ok (lit 3178 1000) /\
  delta_t bus_input no_change = Ok (lit 1 1000) /\
  feqb (lit 3179 1000) (lit 3178 1000) = false.
Proof. repeat split; vm_compute; reflexivity. Qed.

(** The what-if block and [compute] on the alternate input evaluate the
    same kilograms; they differ in where they round. *)
Lemma whatif_kilograms_agree i w a :
  alternate_input i w = Ok a ->
  new_elec_kg i w = electricity_emissions_kg a /\
  new_diet_kg w = diet_emissions_kg a /\
  new_waste_kg i w = waste_emissions_kg a /\
  (forall days, of_int (commute_days i) = Ok days ->
                new_trans_kg i w = transport_emissions_kg a).
Proof.
  intros H. unfold alternate_input in H.
  destruct (new_monthly_kwh i w) as [kwh|] eqn:K; [|discriminate].
  injection H as <-. repeat split.
  - unfold new_elec_kg, electricity_emissions_kg, annual_kwh. rewrite K. reflexivity.
  - intros days E. rewrite transport_emissions_kg_eq.
    unfold new_trans_kg, annual_commute_km. cbn [commute_days daily_commute_km mode].
    rewrite E. cbn [bind]. destruct (getitem TRANSPORT_EF_PAXKM (alt_mode w)); reflexivity.
Qed.

(** The lemma at the default input and what-if values. *)
Lemma whatif_kilograms_agree_witness :
  exists a,
    alternate_input default_input default_whatif = Ok a /\
    new_elec_kg default_input default_whatif = electricity_emissions_kg a /\
    new_waste_kg default_input default_whatif = waste_emissions_kg a.
Proof.
  eexists. split; [vm_compute; reflexivity|].
  match goal with
  | |- ?x = electricity_emissions_kg ?a /\ _ =>
      pose proof (whatif_kilograms_agree default_input default_whatif a) as H
  end.
  split; apply H; vm_compute; reflexivity.
Defined.

(** C7: for a baseline segregation in [0, 100] and an increment [>= 0],
    the segregation of the alternate input is
    [min(100, segregation + extra_segregation)], which is exactly 100 when
    the sum exceeds 100; the what-if waste is computed from it. *)
Theorem new_segregation_is_capped i w :
  (0 <= segregation i <= 100)%Z -> (0 <= extra_segregation w)%Z ->
  new_segregation i w = Z.min 100 (segregation i + extra_segregation w) /\
  (100 < segregation i + extra_segregation w -> new_segregation i w = 100)%Z /\
  (0 <= new_segregation i w <= 100)%Z /\
  (forall a, alternate_input i w = Ok a ->
             segregation a = new_segregation i w /\
             new_waste_kg i w = waste_emissions_kg a).
Proof.
  intros Hs He. unfold new_segregation. repeat split; try lia.
  - unfold alternate_input in H. destruct (new_monthly_kwh i w); [|discriminate].
    injection H as <-. reflexivity.
  - unfold alternate_input in H. destruct (new_monthly_kwh i w); [|discriminate].
    injection H as <-. reflexivity.
Qed.

(** The theorem for a baseline of 90 % and 20 more points: 100. *)
Lemma new_segregation_is_capped_witness :
  (0 <= segregation (with_segregation default_input 90) <= 100)%Z /\
  (0 <= extra_segregation default_whatif)%Z /\
  new_segregation (with_segregation default_input 90) default_whatif = 100%Z.
Proof.
  assert (H1 : (0 <= segregation (with_segregation default_input 90) <= 100)%Z)
    by (cbn; lia).
  assert (H2 : (0 <= extra_segregation default_whatif)%Z) by (cbn; lia).
  split; [exact H1|]. split; [exact H2|].
  apply (proj1 (proj2 (new_segregation_is_capped
                         (with_segregation default_input 90) default_whatif H1 H2))).
  cbn. lia.
Defined.

(** Electricity does not decrease when the monthly consumption grows. *)
Lemma electricity_monotone i k :
  valid_input i = true -> valid_input (with_monthly_kwh i k) = true ->
  fleb (monthly_kwh i) k = true ->
  exists e1 e2,
    category i "Electricity" = Ok e1 /\
    category (with_monthly_kwh i k) "Electricity" = Ok e2 /\
    fleb e1 e2 = true.
Proof.
  intros V V' L.
  destruct (valid_input_inv i V) as (_ & _ & _ & _ & _ & Qk & _).
  destruct (quantity_inv _ Qk) as (_ & _ & Nk).
  destruct (compute_shape i V)
    as (days & ef_t & ef_e & daily & share & ef_w & _ & _ & _ & _ & Ge & Fe & _ & _ & _
        & _ & _ & _ & _ & _ & H).
  cbv zeta in H. destruct H as (_ & _ & _ & _ & Ec).
  destruct (compute_shape _ V')
    as (days' & ef_t' & ef_e' & daily' & share' & ef_w' & _ & _ & _ & _ & Ge' & _ & _ & _ & _
        & _ & _ & _ & _ & _ & H').
  cbv zeta in H'. destruct H' as (_ & _ & _ & _ & Ec').
  cbn [with_monthly_kwh country monthly_kwh] in Ge', Ec'.
  rewrite Ge in Ge'. injection Ge' as <-.
  rewrite (category_of _ _ _ Ec), (category_of _ _ _ Ec').
  eexists _, _. split; [reflexivity|]. split; [reflexivity|].
  apply factor_ok_inv in Fe. destruct Fe as (_ & _ & Pe).
  rewrite lit_12.
  apply (scaled_tonnes_monotone 12 ef_e eq_refl Pe _ _ Nk L).
Qed.

(** The waste category as a monotone function of the weekly residue
    after segregation. *)
Lemma waste_monotone_in_residue x y ef_w :
  factor_ok 1 ef_w = true -> nn x -> fle x y ->
  fle (tonnes (fmul (fmul x (lit 52 1)) ef_w)) (tonnes (fmul (fmul y (lit 52 1)) ef_w)).
Proof.
  intros Fw N L. apply factor_ok_inv in Fw. destruct Fw as (_ & _ & Pw).
  rewrite lit_52. apply (scaled_tonnes_monotone 52 ef_w eq_refl Pw _ _ N L).
Qed.

(** Waste does not decrease when the weekly residual waste grows. *)
Lemma waste_monotone_in_weight i k :
  valid_input i = true -> valid_input (with_weekly_waste_kg i k) = true ->
  fleb (weekly_waste_kg i) k = true ->
  exists w1 w2,
    category i "Waste" = Ok w1 /\
    category (with_weekly_waste_kg i k) "Waste" = Ok w2 /\
    fleb w1 w2 = true.
Proof.
  intros V V' L.
  destruct (valid_input_inv i V) as (_ & _ & _ & _ & _ & _ & _ & Qw & _).
  destruct (valid_input_inv _ V') as (_ & _ & _ & _ & _ & _ & _ & Qw' & _).
  cbn [with_weekly_waste_kg weekly_waste_kg] in Qw'.
  destruct (quantity_inv _ Qw) as (Fw & Pw & _).
  destruct (quantity_inv _ Qw') as (Fw' & Pw' & _).
  destruct (compute_shape i V)
    as (days & ef_t & ef_e & daily & share & ef_w & _ & _ & _ & _ & _ & _ & _ & _ & _
        & O & Bs & _ & Gw & Fe & H).
  cbv zeta in H. destruct H as (_ & _ & _ & _ & Ec).
  destruct (compute_shape _ V')
    as (days' & ef_t' & ef_e' & daily' & share' & ef_w' & _ & _ & _ & _ & _ & _ & _ & _ & _
        & O' & _ & _ & Gw' & _ & H').
  cbv zeta in H'. destruct H' as (_ & _ & _ & _ & Ec').
  cbn [with_weekly_waste_kg segregation waste_treatment weekly_waste_kg] in O', Gw', Ec'.
  rewrite O in O'. injection O' as <-. rewrite Gw in Gw'. injection Gw' as <-.
  rewrite (category_of _ _ _ Ec), (category_of _ _ _ Ec').
  eexists _, _. split; [reflexivity|]. split; [reflexivity|].
  apply (fle_finite _ _ Fw Fw') in L.
  destruct (fmul_finite_mono (weekly_waste_kg i) k share share) as [N M];
    try assumption; try apply Bs; try apply Qle_refl.
  apply waste_monotone_in_residue; assumption.
Qed.

(** Waste does not increase when the segregation rate grows. *)
Lemma waste_antitone_in_segregation i s :
  valid_input i = true -> valid_input (with_segregation i s) = true ->
  (segregation i <= s)%Z ->
  exists w1 w2,
    category i "Waste" = Ok w1 /\
    category (with_segregation i s) "Waste" = Ok w2 /\
    fleb w2 w1 = true.
Proof.
  intros V V' L.
  destruct (valid_input_inv i V) as (_ & _ & _ & _ & _ & _ & _ & Qw & _ & Hs).
  destruct (valid_input_inv _ V') as (_ & _ & _ & _ & _ & _ & _ & _ & _ & Hs').
  cbn [with_segregation segregation] in Hs'.
  destruct (quantity_inv _ Qw) as (Fw & Pw & _).
  destruct (compute_shape i V)
    as (days & ef_t & ef_e & daily & share & ef_w & _ & _ & _ & _ & _ & _ & _ & _ & _
        & O & Bs & _ & Gw & Fe & H).
  cbv zeta in H. destruct H as (_ & _ & _ & _ & Ec).
  destruct (compute_shape _ V')
    as (days' & ef_t' & ef_e' & daily' & share' & ef_w' & _ & _ & _ & _ & _ & _ & _ & _ & _
        & O' & Bs' & _ & Gw' & _ & H').
  cbv zeta in H'. destruct H' as (_ & _ & _ & _ & Ec').
  cbn [with_segregation segregation waste_treatment weekly_waste_kg] in O', Gw', Ec'.
  rewrite Gw in Gw'. injection Gw' as <-.
  rewrite (category_of _ _ _ Ec), (category_of _ _ _ Ec').
  eexists _, _. split; [reflexivity|]. split; [reflexivity|].
  pose proof (one_minus_percent_anti (segregation i) s share share'
                ltac:(lia) ltac:(lia) O O') as A.
  apply fle_finite in A; [|apply Bs'|apply Bs].
  destruct (fmul_finite_mono (weekly_waste_kg i) (weekly_waste_kg i) share' share) as [N M];
    try assumption; try apply Bs; try apply Bs'; try apply Qle_refl.
  apply waste_monotone_in_residue; assumption.
Qed.

(** C8 (as amended): between two valid inputs that differ in one field,
    a larger monthly consumption gives an Electricity value that is not
    smaller, a larger weekly residual waste gives a Waste value that is
    not smaller, and a larger segregation rate gives a Waste value that
    is not larger. *)
Theorem categories_weakly_monotone i kwh kg seg :
  valid_input i = true ->
  valid_input (with_monthly_kwh i kwh) = true -> fleb (monthly_kwh i) kwh = true ->
  valid_input (with_weekly_waste_kg i kg) = true -> fleb (weekly_waste_kg i) kg = true ->
  valid_input (with_segregation i seg) = true -> (segregation i <= seg)%Z ->
  (exists e1 e2,
      category i "Electricity" = Ok e1 /\
      category (with_monthly_kwh i kwh) "Electricity" = Ok e2 /\ fleb e1 e2 = true) /\
  (exists w1 w2,
      category i "Waste" = Ok w1 /\
      category (with_weekly_waste_kg i kg) "Waste" = Ok w2 /\ fleb w1 w2 = true) /\
  (exists w1 w2,
      category i "Waste" = Ok w1 /\
      category (with_segregation i seg) "Waste" = Ok w2 /\ fleb w2 w1 = true).
Proof.
  intros V V1 L1 V2 L2 V3 L3. split; [|split].
  - apply electricity_monotone; assumption.
  - apply waste_monotone_in_weight; assumption.
  - apply waste_antitone_in_segregation; assumption.
Qed.

(** The theorem at the default input, for 260 kWh, 4.5 kg and 30 %. *)
Lemma categories_weakly_monotone_witness :
  valid_input default_input = true /\
  valid_input (with_monthly_kwh default_input (lit 260 1)) = true /\
  fleb (monthly_kwh default_input) (lit 260 1) = true /\
  valid_input (with_weekly_waste_kg default_input (lit 45 10)) = true /\
  fleb (weekly_waste_kg default_input) (lit 45 10) = true /\
  valid_input (with_segregation default_input 30) = true /\
  (segregation default_input <= 30)%Z /\
  (exists e1 e2,
      category default_input "Electricity" = Ok e1 /\
      category (with_monthly_kwh default_input (lit 260 1)) "Electricity" = Ok e2 /\
      fleb e1 e2 = true).
Proof.
  assert (H7 : (segregation default_input <= 30)%Z) by (cbn; lia).
  do 6 (split; [reflexivity|]). split; [exact H7|].
  exact (proj1 (categories_weakly_monotone default_input (lit 260 1) (lit 45 10) 30
                  eq_refl eq_refl eq_refl eq_refl eq_refl eq_refl H7)).
Defined.

(** C8 (as stated) fails, in each of its three parts: 250.0 and 250.01
    kWh give the same Electricity value (2.148); with a segregation rate
    of 100 %, 4 kg and 4.5 kg a week give the same Waste value (0.0);
    with no residual waste, 20 % and 30 % give the same Waste value. *)
Lemma strict_monotonicity_fails :
  (valid_input default_input = true /\
   valid_input (with_monthly_kwh default_input (lit 25001 100)) = true /\
   fltb (monthly_kwh default_input) (lit 25001 100) = true /\
   category default_input "Electricity" = Ok (lit 2148 1000) /\
   category (with_monthly_kwh default_input (lit 25001 100)) "Electricity" = Ok (lit 2148 1000)) /\
  (let i := with_segregation default_input 100 in
   valid_input i = true /\ valid_input (with_weekly_waste_kg i (lit 45 10)) = true /\
   fltb (weekly_waste_kg i) (lit 45 10) = true /\
   category i "Waste" = Ok (Zero false) /\
   category (with_weekly_waste_kg i (lit 45 10)) "Waste" = Ok (Zero false)) /\
  (let i := with_weekly_waste_kg default_input (Zero false) in
   valid_input i = true /\ valid_input (with_segregation i 30) = true /\
   (segregation i < 30)%Z /\
   category i "Waste" = Ok (Zero false) /\
   category (with_segregation i 30) "Waste" = Ok (Zero false)).
Proof. cbv zeta. repeat split; vm_compute; reflexivity. Qed.

(** C9 (the code departs from the claim): for the default input the
    "Total" of the CSV rows and of the JSON object is
    4.890000000000001, the unrounded float sum of the four category
    values, while the total of the calculator is 4.89; CPython 3.12's
    compensated [sum] gives the same 4.890000000000001. *)
Theorem export_total_is_not_rounded :
  exists cats,
    category_tonnes default_input = Ok cats /\
    df_rows default_input =
      Ok (cats ++ [("Total", lit 4890000000000001 1000000000000000)])%list /\
    results_tCO2e default_input =
      Ok (cats ++ [("Total", lit 4890000000000001 1000000000000000)])%list /\
    total_of cats = lit 489 100 /\
    py_sum_compensated (values cats) = lit 4890000000000001 1000000000000000 /\
    feqb (lit 4890000000000001 1000000000000000) (lit 489 100) = false.
Proof. eexists. repeat split; vm_compute; reflexivity. Qed.

(** C10: for every valid input the Diet value is at least 1.055 (so it
    is never zero), and the total is at least the Diet value, hence
    strictly positive: no valid input gives an all-zero result. *)
Theorem diet_floor_keeps_total_positive i :
  valid_input i = true ->
  exists r,
    compute i = Ok r /\
    fleb (lit 1055 1000) (cat (categories r) "Diet") = true /\
    feqb (cat (categories r) "Diet") (Zero false) = false /\
    fleb (cat (categories r) "Diet") (total r) = true /\
    fltb (Zero false) (total r) = true.
Proof.
  intros V.
  destruct (categories_nn i V)
    as (T & E & D & W & dq & Ec & NT & NE & NW & ED & Hq & R & P & L).
  pose proof (total_above_diet T E D W dq NT NE NW ED Hq R P) as A.
  eexists. split; [apply compute_of_categories, Ec|].
  cbn [categories total]. change (cat _ "Diet") with D.
  split; [exact L|]. split; [|split; [exact A|]].
  - rewrite ED. unfold feqb, fcompare. cbn [F2Q].
    destruct (Qcompare_spec dq 0) as [C|C|C]; try reflexivity. lra.
  - assert (Z1 : fltb (Zero false) (lit 1055 1000) = true) by (vm_compute; reflexivity).
    apply (flt_fle_trans _ _ _ Z1). eapply fle_trans; [exact L|exact A].
Qed.

(** The theorem at the default input. *)
Lemma diet_floor_keeps_total_positive_witness :
  valid_input default_input = true /\
  exists r,
    compute default_input = Ok r /\
    fleb (lit 1055 1000) (cat (categories r) "Diet") = true /\
    feqb (cat (categories r) "Diet") (Zero false) = false /\
    fleb (cat (categories r) "Diet") (total r) = true /\
    fltb (Zero false) (total r) = true.
Proof.
  split; [reflexivity|].
  apply (diet_floor_keeps_total_positive default_input). reflexivity.
Defined.

(** *** Further properties *)

(** The "Potential reduction" metric (lines 222-223): with
    [saved = -delta_t], the metric is [saved] when [saved > 0] and 0.0
    otherwise (also when [delta_t] is not a number); it is never
    negative, and it is above zero exactly when [delta_t] is below
    zero. *)
Theorem potential_reduction_is_not_negative i w r :
  potential_reduction i w = Ok r ->
  exists d,
    delta_t i w = Ok d /\
    (fltb (Zero false) (fopp d) = true -> r = fopp d) /\
    (fltb (Zero false) (fopp d) = false -> r = Zero false) /\
    fltb (Zero false) (fopp d) = fltb d (Zero false) /\
    fltb (Zero false) r = fltb d (Zero false) /\
    fleb (Zero false) r = true.
Proof.
  unfold potential_reduction. destruct (delta_t i w) as [d|]; [|discriminate].
  cbn [bind]. intros H. exists d. split; [reflexivity|].
  assert (S : fltb (Zero false) (fopp d) = fltb d (Zero false)).
  { destruct d as [|[|]|s|q]; try reflexivity.
    cbn [fopp]. unfold fltb, fcompare. cbn [F2Q].
    rewrite (Qcompare_comp _ _ (Qeq_refl 0) _ _ (Qred_correct (- q))).
    destruct (Qcompare_spec 0 (- q)), (Qcompare_spec q 0); try reflexivity; lra. }
  destruct (fltb (Zero false) (fopp d)) eqn:E; injection H as <-.
  - split; [reflexivity|]. split; [discriminate|]. split; [exact S|].
    split; [rewrite E; exact S|].
    apply fltb_spec in E. apply fleb_spec.
    destruct (fopp d) as [|[|]|?|?]; try tauto; cbn [F2Q] in *; lra.
  - split; [discriminate|]. split; [reflexivity|]. split; [exact S|].
    split; [rewrite <- S; reflexivity|reflexivity].
Qed.

(** The theorem at the default input and what-if values: [delta_t] is
    -1.711 and the metric 1.711. *)
Lemma potential_reduction_is_not_negative_witness :
  potential_reduction default_input default_whatif = Ok (lit 1711 1000) /\
  exists d,
    delta_t default_input default_whatif = Ok d /\
    (fltb (Zero false) (fopp d) = true -> lit 1711 1000 = fopp d) /\
    (fltb (Zero false) (fopp d) = false -> lit 1711 1000 = Zero false) /\
    fltb (Zero false) (fopp d) = fltb d (Zero false) /\
    fltb (Zero false) (lit 1711 1000) = fltb d (Zero false) /\
    fleb (Zero false) (lit 1711 1000) = true.
Proof.
  assert (H : potential_reduction default_input default_whatif = Ok (lit 1711 1000))
    by (vm_compute; reflexivity).
  split; [exact H|].
  exact (potential_reduction_is_not_negative default_input default_whatif _ H).
Defined.

Lemma electricity_value i :
  valid_input i = true ->
  category i "Electricity" = Ok (electricity_tonnes (monthly_kwh i)).
Proof.
  intros V.
  destruct (valid_input_inv i V) as (Hc & _).
  destruct (compute_shape i V)
    as (days & ef_t & ef_e & daily & share & ef_w & _ & _ & _ & _ & Ge & _ & _ & _ & _
        & _ & _ & _ & _ & _ & H).
  cbv zeta in H. destruct H as (_ & _ & _ & _ & Ec).
  rewrite (category_of _ _ _ Ec). cbn [getitem String.eqb Ascii.eqb Bool.eqb].
  unfold mem, COUNTRIES in Hc. cbn [existsb] in Hc. rewrite orb_false_r in Hc.
  apply String.eqb_eq in Hc. rewrite Hc in Ge. injection Ge as <-. reflexivity.
Qed.

Lemma electricity_grid_check :
  forallb (fun n => fltb (electricity_tonnes (slider_kwh n))
                         (electricity_tonnes (slider_kwh (S n))))
          (seq 0 200) = true.
Proof. vm_compute. reflexivity. Qed.

(** On the positions of the slider (0, 10, ..., 2000 kWh) the Electricity
    value does increase strictly from one position to the next. *)
Theorem electricity_strict_on_slider_grid i n :
  valid_input i = true -> (n < 200)%nat -> monthly_kwh i = slider_kwh n ->
  valid_input (with_monthly_kwh i (slider_kwh (S n))) = true ->
  exists e1 e2,
    category i "Electricity" = Ok e1 /\
    category (with_monthly_kwh i (slider_kwh (S n))) "Electricity" = Ok e2 /\
    fltb e1 e2 = true.
Proof.
  intros V Hn Hk V'.
  rewrite (electricity_value i V), (electricity_value _ V'), Hk.
  cbn [with_monthly_kwh monthly_kwh].
  eexists _, _. split; [reflexivity|]. split; [reflexivity|].
  pose proof electricity_grid_check as G. rewrite forallb_forall in G.
  apply (G n). apply in_seq. lia.
Qed.

(** The theorem at the default input: 250 kWh against 260 kWh. *)
Lemma electricity_strict_on_slider_grid_witness :
  valid_input default_input = true /\ (25 < 200)%nat /\
  monthly_kwh default_input = slider_kwh 25 /\
  valid_input (with_monthly_kwh default_input (slider_kwh 26)) = true /\
  exists e1 e2,
    category default_input "Electricity" = Ok e1 /\
    category (with_monthly_kwh default_input (slider_kwh 26)) "Electricity" = Ok e2 /\
    fltb e1 e2 = true.
Proof.
  assert (H2 : (25 < 200)%nat) by lia.
  assert (H3 : monthly_kwh default_input = slider_kwh 25) by (vm_compute; reflexivity).
  split; [reflexivity|]. split; [exact H2|]. split; [exact H3|]. split; [reflexivity|].
  exact (electricity_strict_on_slider_grid default_input 25 eq_refl H2 H3 eq_refl).
Defined.

(** * The results panel, the quick wins and the export *)

(** *** The four entries of a result *)

Lemma category_tonnes_inv i cats :
  category_tonnes i = Ok cats ->
  exists T E D W,
    cats = [("Transportation", T); ("Electricity", E); ("Diet", D); ("Waste", W)]%string.
Proof.
  unfold category_tonnes. intros H.
  destruct (transport_emissions_kg i) as [t|]; [|discriminate].
  destruct (electricity_emissions_kg i) as [e|]; [|discriminate].
  destruct (diet_emissions_kg i) as [d|]; [|discriminate].
  destruct (waste_emissions_kg i) as [w|]; [|discriminate].
  cbn [bind] in H. injection H as <-. eexists _, _, _, _. reflexivity.
Qed.

(** The categories do not read the occupancy field. *)
Lemma category_tonnes_fields i j :
  country i = country j -> mode i = mode j ->
  daily_commute_km i = daily_commute_km j -> commute_days i = commute_days j ->
  monthly_kwh i = monthly_kwh j -> diet_type i = diet_type j ->
  weekly_waste_kg i = weekly_waste_kg j -> waste_treatment i = waste_treatment j ->
  segregation i = segregation j ->
  category_tonnes i = category_tonnes j.
Proof.
  intros Hc Hm Hd Hn Hk Ht Hw Hp Hs.
  unfold category_tonnes. rewrite !transport_emissions_kg_eq.
  unfold annual_commute_km, electricity_emissions_kg, annual_kwh, diet_emissions_kg,
    waste_emissions_kg.
  rewrite Hc, Hm, Hd, Hn, Hk, Ht, Hw, Hp, Hs. reflexivity.
Qed.

Lemma flt_not_fle x y : fltb x y = true -> fleb y x = false.
Proof.
  intros H. destruct (fleb y x) eqn:E; [|reflexivity].
  apply fltb_spec in H. apply fleb_spec in E.
  destruct x as [|[|]|s|a], y as [|[|]|t|b]; cbn [F2Q] in *; try contradiction; lra.
Qed.

(** *** The pie chart *)

(** X4. For a valid input the zero-sum guard of the pie chart never
    applies: the sizes handed to the chart are the four category values
    themselves, none of them is below zero and their sum is above zero. *)
Theorem pie_guard_is_idle_for_valid_input i :
  valid_input i = true ->
  exists cats,
    category_tonnes i = Ok cats /\
    pie_sizes cats = values cats /\
    Forall nn (pie_sizes cats) /\
    fltb (Zero false) (py_sum (pie_sizes cats)) = true.
Proof.
  intros V.
  destruct (categories_nn i V) as (T & E & D & W & dq & Ec & NT & NE & NW & -> & Hq & R & _ & _).
  eexists. split; [exact Ec|].
  assert (N0 : nn (Zero false)) by reflexivity.
  pose proof (fadd_nn _ _ (fadd_nn _ _ N0 NT) NE) as N2.
  pose proof (fadd_lower_r dq _ R Hq N2) as L3.
  pose proof (fadd_lower dq _ W R Hq L3 NW) as L4.
  assert (P : fltb (Zero false) (py_sum [T; E; Num dq; W]) = true).
  { apply (flt_fle_trans _ (Num dq)); [|exact L4]. apply fltb_spec. cbn [F2Q]. exact Hq. }
  assert (S : pie_sizes [("Transportation", T); ("Electricity", E);
                         ("Diet", Num dq); ("Waste", W)]%string = [T; E; Num dq; W]).
  { unfold pie_sizes. cbn [values map snd]. rewrite (flt_not_fle _ _ P). reflexivity. }
  rewrite S. split; [reflexivity|]. split; [|exact P].
  repeat constructor; try assumption.
  apply nn_finite; [reflexivity|cbn [F2Q]; lra].
Qed.

Lemma pie_guard_is_idle_for_valid_input_witness :
  valid_input default_input = true /\
  exists cats,
    category_tonnes default_input = Ok cats /\
    pie_sizes cats = values cats /\
    Forall nn (pie_sizes cats) /\
    fltb (Zero false) (py_sum (pie_sizes cats)) = true.
Proof.
  split; [vm_compute; reflexivity|].
  apply (pie_guard_is_idle_for_valid_input default_input). vm_compute. reflexivity.
Defined.

(** X5. Whatever the input (negative quantities included), once the
    calculation has produced its four categories: when their sum is at or
    below zero the pie chart is handed four sizes of 1e-6 instead, whose
    sum is 4e-6; otherwise it is handed the category values unchanged.
    So unless the sum of the categories is not a number (which the guard
    lets through), the sum of the sizes handed to the chart is above
    zero. *)
Theorem pie_guard_replaces_nonpositive_sum i cats :
  category_tonnes i = Ok cats ->
  (fleb (py_sum (values cats)) (Zero false) = true ->
     pie_sizes cats = [lit 1 1000000; lit 1 1000000; lit 1 1000000; lit 1 1000000] /\
     py_sum (pie_sizes cats) = lit 4 1000000) /\
  (fleb (py_sum (values cats)) (Zero false) = false -> pie_sizes cats = values cats) /\
  (py_sum (values cats) <> NaN -> fltb (Zero false) (py_sum (pie_sizes cats)) = true) /\
  (py_sum (values cats) = NaN -> py_sum (pie_sizes cats) = NaN).
Proof.
  intros H. destruct (category_tonnes_inv i cats H) as (T & E & D & W & ->).
  unfold pie_sizes. cbn [values map snd List.length repeat].
  destruct (fleb (py_sum [T; E; D; W]) (Zero false)) eqn:G.
  - split; [intros _; split; [reflexivity|vm_compute; reflexivity]|].
    split; [discriminate|]. split; [intros _; vm_compute; reflexivity|].
    intros N. rewrite N in G. discriminate G.
  - split; [discriminate|]. split; [reflexivity|]. split; [|intros N; exact N].
    intros N. destruct (py_sum [T; E; D; W]) as [|[|]|s|q]; try reflexivity.
    + contradiction.
    + discriminate G.
    + discriminate G.
    + unfold fleb, fcompare in G. unfold fltb, fcompare. cbn [F2Q] in *.
      destruct (Qcompare_spec q 0), (Qcompare_spec 0 q); try discriminate G;
        try reflexivity; lra.
Qed.

Lemma pie_guard_replaces_nonpositive_sum_witness :
  exists cats,
    category_tonnes (with_daily_commute_km default_input (lit (-2000) 1)) = Ok cats /\
    fleb (py_sum (values cats)) (Zero false) = true /\
    pie_sizes cats = [lit 1 1000000; lit 1 1000000; lit 1 1000000; lit 1 1000000] /\
    py_sum (pie_sizes cats) = lit 4 1000000.
Proof.
  eexists. split; [vm_compute; reflexivity|]. split; [vm_compute; reflexivity|].
  apply (proj1 (pie_guard_replaces_nonpositive_sum
                  (with_daily_commute_km default_input (lit (-2000) 1)) _
                  ltac:(vm_compute; reflexivity))).
  vm_compute. reflexivity.
Defined.

(** *** Quick wins *)

(** The list [recs]: one advice for each test that holds, in the order of
    the tests. *)
Lemma recs_cases i w l :
  recs i w = Ok l ->
  exists switched current,
    getitem DIET_DAILY (diet_switch w) = Ok switched /\
    getitem DIET_DAILY (diet_type i) = Ok current /\
    l = ((if mem (alt_mode w) ["bus"; "rail"]%string && String.eqb (mode i) "car"
          then [transit_advice] else []) ++
         (if (10 <=? kwh_cut w)%Z then [electricity_advice] else []) ++
         (if fltb switched current then [diet_advice (diet_switch w)] else []) ++
         (if (segregation i <? new_segregation i w)%Z then [segregation_advice] else []))%list.
Proof.
  unfold recs. intros H.
  destruct (getitem DIET_DAILY (diet_switch w)) as [a|]; [|discriminate].
  destruct (getitem DIET_DAILY (diet_type i)) as [b|]; [|discriminate].
  cbn [bind] in H. injection H as <-. exists a, b.
  split; [reflexivity|]. split; [reflexivity|].
  unfold mem, existsb.
  destruct ((String.eqb (alt_mode w) "bus" || (String.eqb (alt_mode w) "rail" || false))
            && String.eqb (mode i) "car"),
    (10 <=? kwh_cut w)%Z, (fltb a b), (segregation i <? new_segregation i w)%Z; reflexivity.
Qed.

Lemma diet_advice_distinct s :
  diet_advice s <> transit_advice /\ diet_advice s <> electricity_advice /\
  diet_advice s <> segregation_advice /\
  ("• " ++ diet_advice s)%string <> optimized_line.
Proof.
  repeat split; intros H; vm_compute in H; discriminate H.
Qed.

Lemma proj1_and3 (A B C : Prop) : A /\ B /\ C -> A /\ B.
Proof. tauto. Qed.

(** X6. The "Quick wins" block always writes between one and four lines,
    each starting with the bullet, and the single line "already looks
    optimized" is written exactly when none of the four tests holds: the
    alternative mode is not bus or rail or the commute mode is not car,
    the cut is below 10 %, the diet switched to has no lower daily
    factor, and the capped segregation rate is not above the current
    one. *)
Theorem quick_wins_lines i w lines :
  quick_wins i w = Ok lines ->
  (1 <= List.length lines <= 4)%nat /\
  Forall (fun l => String.prefix "• " l = true) lines /\
  (lines = [optimized_line] <->
     mem (alt_mode w) ["bus"; "rail"]%string && String.eqb (mode i) "car" = false /\
     (kwh_cut w < 10)%Z /\
     (exists switched current,
        getitem DIET_DAILY (diet_switch w) = Ok switched /\
        getitem DIET_DAILY (diet_type i) = Ok current /\
        fltb switched current = false) /\
     (new_segregation i w <= segregation i)%Z).
Proof.
  unfold quick_wins. intros H.
  destruct (recs i w) as [l|] eqn:R; [|discriminate]. cbn [bind] in H.
  destruct (recs_cases i w l R) as (a & b & Ga & Gb & El).
  destruct (diet_advice_distinct (diet_switch w)) as (_ & _ & _ & Dd).
  destruct (mem (alt_mode w) ["bus"; "rail"]%string && String.eqb (mode i) "car") eqn:C1;
    destruct (10 <=? kwh_cut w)%Z eqn:C2;
    destruct (fltb a b) eqn:C3;
    destruct (segregation i <? new_segregation i w)%Z eqn:C4;
    cbn [app] in El; subst l; cbn [map] in H; injection H as <-;
    (split; [cbn [List.length]; lia|]);
    (split; [repeat constructor|]);
    (split;
     [intros E;
      try (exfalso; injection E as E; first [exact (Dd E) | vm_compute in E; discriminate E]);
      try discriminate E
     |intros (K1 & K2 & (a' & b' & Ga' & Gb' & K3) & K4);
      rewrite Ga' in Ga; rewrite Gb' in Gb; injection Ga as ->; injection Gb as ->;
      try discriminate K1;
      try (apply Z.leb_le in C2; lia);
      try (rewrite K3 in C3; discriminate C3);
      try (apply Z.ltb_lt in C4; lia)]).
  all: try reflexivity.
  all: try (apply Z.leb_gt in C2; apply Z.ltb_ge in C4; split; [reflexivity|];
            split; [exact C2|]; split; [exists a, b; auto|exact C4]).
Qed.

Lemma quick_wins_lines_witness :
  exists lines,
    quick_wins default_input default_whatif = Ok lines /\
    (1 <= List.length lines <= 4)%nat /\
    Forall (fun l => String.prefix "• " l = true) lines.
Proof.
  eexists. split; [vm_compute; reflexivity|].
  eapply proj1_and3. apply (quick_wins_lines default_input default_whatif).
  vm_compute. reflexivity.
Defined.

Lemma In_app4 {A} (x : A) (l1 l2 l3 l4 : list A) :
  In x (l1 ++ l2 ++ l3 ++ l4) <-> In x l1 \/ In x l2 \/ In x l3 \/ In x l4.
Proof. rewrite !in_app_iff. tauto. Qed.

(** X7. The advice to improve segregation is listed exactly when the
    what-if slider adds at least one point and the current rate is below
    100: at a rate of 100 the cap of [new_segregation] leaves nothing to
    recommend. *)
Theorem segregation_advice_is_listed i w l :
  recs i w = Ok l ->
  (In segregation_advice l <-> (0 < extra_segregation w /\ segregation i < 100)%Z).
Proof.
  intros R. destruct (recs_cases i w l R) as (a & b & _ & _ & ->).
  destruct (diet_advice_distinct (diet_switch w)) as (_ & _ & Dd & _).
  rewrite In_app4. unfold new_segregation.
  split.
  - intros [H|[H|[H|H]]].
    + destruct (_ && _); [|contradiction]. destruct H as [H|[]]. vm_compute in H. discriminate H.
    + destruct (10 <=? kwh_cut w)%Z; [|contradiction]. destruct H as [H|[]].
      vm_compute in H. discriminate H.
    + destruct (fltb a b); [|contradiction]. destruct H as [H|[]]. contradiction.
    + destruct (segregation i <? Z.min 100 (segregation i + extra_segregation w))%Z eqn:C;
        [|contradiction]. apply Z.ltb_lt in C. lia.
  - intros [H1 H2]. right. right. right.
    assert (C : (segregation i <? Z.min 100 (segregation i + extra_segregation w))%Z = true)
      by (apply Z.ltb_lt; lia).
    rewrite C. left. reflexivity.
Qed.

Lemma segregation_advice_is_listed_witness :
  exists l,
    recs (with_segregation default_input 100) default_whatif = Ok l /\
    (In segregation_advice l <->
     (0 < extra_segregation default_whatif /\
      segregation (with_segregation default_input 100) < 100)%Z).
Proof.
  eexists. split; [vm_compute; reflexivity|].
  apply (segregation_advice_is_listed (with_segregation default_input 100) default_whatif).
  vm_compute. reflexivity.
Defined.

Lemma diet_keys k v :
  getitem DIET_DAILY k = Ok v ->
  k = "High meat"%string \/ k = "Medium meat"%string \/ k = "Low meat"%string \/
  k = "Fish-based"%string \/ k = "Vegetarian"%string \/ k = "Vegan"%string.
Proof.
  intros H. unfold DIET_DAILY in H. cbn [getitem] in H.
  repeat match type of H with
         | (if String.eqb k ?s then _ else _) = _ =>
             let E := fresh "E" in
             destruct (String.eqb k s) eqn:E; [apply String.eqb_eq in E; tauto|clear E]
         end.
  discriminate H.
Qed.

(** X8. The diet advice is listed exactly when the diet switched to
    stands later than the current diet in the select box (whose options,
    the keys of [DIET_DAILY], are in decreasing order of their daily
    factor); switching to the same or an earlier option lists none. *)
Theorem diet_advice_is_listed i w l :
  recs i w = Ok l ->
  exists a b,
    position (diet_type i) (keys DIET_DAILY) = Some a /\
    position (diet_switch w) (keys DIET_DAILY) = Some b /\
    (In (diet_advice (diet_switch w)) l <-> (a < b)%nat).
Proof.
  intros R. destruct (recs_cases i w l R) as (x & y & Gx & Gy & ->).
  destruct (diet_advice_distinct (diet_switch w)) as (D1 & D2 & D3 & _).
  assert (K : forall c : bool,
             In (diet_advice (diet_switch w))
               ((if mem (alt_mode w) ["bus"; "rail"]%string && String.eqb (mode i) "car"
                 then [transit_advice] else []) ++
                (if (10 <=? kwh_cut w)%Z then [electricity_advice] else []) ++
                (if c then [diet_advice (diet_switch w)] else []) ++
                (if (segregation i <? new_segregation i w)%Z
                 then [segregation_advice] else [])) <-> c = true).
  { intros c. rewrite In_app4. split.
    - intros [H|[H|[H|H]]].
      + destruct (_ && _); [|contradiction]. destruct H as [H|[]]. symmetry in H. contradiction.
      + destruct (10 <=? kwh_cut w)%Z; [|contradiction]. destruct H as [H|[]].
        symmetry in H. contradiction.
      + destruct c; [reflexivity|contradiction].
      + destruct (segregation i <? new_segregation i w)%Z; [|contradiction].
        destruct H as [H|[]]. symmetry in H. contradiction.
    - intros ->. right. right. left. left. reflexivity. }
  destruct (diet_keys _ _ Gx) as [E1|[E1|[E1|[E1|[E1|E1]]]]];
    destruct (diet_keys _ _ Gy) as [E2|[E2|[E2|[E2|[E2|E2]]]]];
    pose proof Gx as Gx'; pose proof Gy as Gy';
    rewrite E1 in Gx'; rewrite E2 in Gy';
    vm_compute in Gx'; vm_compute in Gy'; injection Gx' as <-; injection Gy' as <-;
    eexists _, _;
    (split; [rewrite E2; vm_compute; reflexivity|]);
    (split; [rewrite E1; vm_compute; reflexivity|]);
    (etransitivity; [apply K|]);
    (split; [intros H; vm_compute in H; first [discriminate H | lia]
            |intros H; first [exfalso; lia | vm_compute; reflexivity]]).
Qed.

Lemma diet_advice_is_listed_witness :
  exists l,
    recs default_input default_whatif = Ok l /\
    exists a b,
      position (diet_type default_input) (keys DIET_DAILY) = Some a /\
      position (diet_switch default_whatif) (keys DIET_DAILY) = Some b /\
      (In (diet_advice (diet_switch default_whatif)) l <-> (a < b)%nat).
Proof.
  eexists. split; [vm_compute; reflexivity|].
  apply (diet_advice_is_listed default_input default_whatif).
  vm_compute. reflexivity.
Defined.

(** *** The details panel and the export *)

(** X9. The JSON export is determined by its own "country" and "inputs"
    entries: two inputs that export the same country and the same inputs
    object export the same payload, results included.  The occupancy, the
    one widget value the export leaves out, does not influence it. *)
Theorem export_is_determined_by_its_inputs i j :
  country i = country j ->
  export_inputs i = export_inputs j ->
  export_payload i = export_payload j.
Proof.
  intros Hc H. unfold export_inputs in H.
  injection H as Hm Hd Hn Hk Ht Hw Hp Hs.
  unfold export_payload, export_inputs.
  rewrite (category_tonnes_fields i j Hc Hm Hd Hn Hk Ht Hw Hp Hs).
  rewrite Hc, Hm, Hd, Hn, Hk, Ht, Hw, Hp, Hs. reflexivity.
Qed.

Lemma export_is_determined_by_its_inputs_witness :
  country default_input = country (with_occupancy default_input (lit 3 1)) /\
  export_inputs default_input = export_inputs (with_occupancy default_input (lit 3 1)) /\
  export_payload default_input = export_payload (with_occupancy default_input (lit 3 1)).
Proof.
  split; [reflexivity|]. split; [reflexivity|].
  apply (export_is_determined_by_its_inputs default_input
           (with_occupancy default_input (lit 3 1))); reflexivity.
Defined.

(** X10. The calculation details are determined by their "Inputs"
    object: it lists every widget value the results and the displayed
    factors depend on (the occupancy is shown for car only, and is not
    used for any mode). *)
Theorem details_are_determined_by_their_inputs i j :
  details_inputs i = details_inputs j ->
  details i = details j.
Proof.
  intros H. unfold details_inputs in H.
  injection H as Hc Hm Hd Hn Ho Hk Ht Hw Hs Hp.
  unfold details. rewrite (category_tonnes_fields i j Hc Hm Hd Hn Hk Ht Hw Hp Hs).
  unfold details_inputs. rewrite Hc, Hm, Hd, Hn, Hk, Ht, Hw, Hp, Hs.
  rewrite Hm in Ho. destruct (String.eqb (mode j) "car").
  - injection Ho as ->. reflexivity.
  - reflexivity.
Qed.

Lemma details_are_determined_by_their_inputs_witness :
  details_inputs bus_input = details_inputs (with_occupancy bus_input (lit 3 1)) /\
  details bus_input = details (with_occupancy bus_input (lit 3 1)).
Proof.
  split; [reflexivity|].
  apply (details_are_determined_by_their_inputs bus_input
           (with_occupancy bus_input (lit 3 1))). reflexivity.
Defined.

(** X11. In the exported results object, [category_tonnes | {"Total":
    ...}], the Total entry never replaces a category: the object has the
    four category keys followed by "Total", every other key reads as in
    [category_tonnes], and "Total" reads the unrounded sum. *)
Theorem results_object_keeps_categories i cats :
  category_tonnes i = Ok cats ->
  results_tCO2e i = Ok (dict_union cats [("Total", export_total cats)]%string) /\
  keys (dict_union cats [("Total", export_total cats)]%string)
    = ["Transportation"; "Electricity"; "Diet"; "Waste"; "Total"]%string /\
  (forall k, k <> "Total"%string ->
     getitem (dict_union cats [("Total", export_total cats)]%string) k = getitem cats k) /\
  getitem (dict_union cats [("Total", export_total cats)]%string) "Total"
    = Ok (export_total cats).
Proof.
  intros H. unfold results_tCO2e. rewrite H. cbn [bind].
  destruct (category_tonnes_inv i cats H) as (T & E & D & W & ->).
  split; [reflexivity|]. split; [reflexivity|]. split; [|reflexivity].
  intros k Hk. apply String.eqb_neq in Hk.
  change (dict_union _ _) with
    [("Transportation", T); ("Electricity", E); ("Diet", D); ("Waste", W);
     ("Total", export_total [("Transportation", T); ("Electricity", E);
                             ("Diet", D); ("Waste", W)])]%string.
  cbn [getitem]. rewrite Hk. reflexivity.
Qed.

Lemma results_object_keeps_categories_witness :
  exists cats,
    category_tonnes default_input = Ok cats /\
    results_tCO2e default_input = Ok (dict_union cats [("Total", export_total cats)]%string).
Proof.
  eexists. split; [vm_compute; reflexivity|].
  eapply proj1. apply (results_object_keeps_categories default_input).
  vm_compute. reflexivity.
Defined.

(** * The levers of the what-if tab *)

(** Rounding leaves a positive binary64 number as it is. *)
Lemma binary64_RN q :
  is_binary64 (Num q) = true -> 0 < q -> exists q', RN q = Num q' /\ q' == q.
Proof.
  unfold is_binary64. rewrite !andb_true_iff, !negb_true_iff. intros [[_ F] U] Hq.
  apply Qeq_bool_eq in F.
  assert (A : Qabs q == q) by (apply Qabs_pos; lra).
  assert (R : rnd q == q).
  { rewrite <- (rnd_comp (Qabs q) q); [rewrite F; exact A|rewrite A; exact Hq|exact A]. }
  unfold RN. destruct (Qcompare_spec q 0) as [E|L|G]; try lra.
  destruct (pack_cases false (rnd q)) as [[H _]|[[H _]|(_ & _ & q' & P & E)]]; try lra.
  - destruct (Qle_bool (pow2 1024) (Qabs q)) eqn:B; [discriminate|].
    assert (~ pow2 1024 <= Qabs q) by (rewrite <- Qle_bool_iff, B; discriminate). lra.
  - exists q'. split; [exact P|]. rewrite E. exact R.
Qed.

(** A factor of one has no effect on what a quantity is multiplied by
    next. *)
Lemma fmul_one_then x c :
  quantity x = true -> fmul (fmul x (Num 1)) (Num c) = fmul x (Num c).
Proof.
  unfold quantity. rewrite !andb_true_iff. intros [[B F] P].
  destruct x as [| |s|q]; try discriminate.
  - cbn. destruct s; reflexivity.
  - apply fleb_spec in P. cbn [F2Q] in P.
    assert (Hq : 0 < q).
    { unfold is_binary64 in B. rewrite !andb_true_iff, negb_true_iff in B.
      destruct B as [[N _] _]. apply Qeq_bool_neq in N. lra. }
    destruct (binary64_RN q B Hq) as (q' & R & E).
    cbn [fmul]. rewrite (RN_comp (q * 1) q) by ring. rewrite R. cbn [fmul].
    apply RN_comp. rewrite E. reflexivity.
Qed.

(** A finite quantity times zero, scaled: a zero. *)
Lemma fmul_zero_chain x c1 c2 :
  is_finite x = true ->
  feqb (fmul (fmul (fmul x (Zero false)) (Num c1)) (Num c2)) (Zero false) = true.
Proof.
  destruct x as [| |s|q]; try discriminate; intros _; reflexivity.
Qed.

Lemma one_minus_percent_0 : one_minus_percent 0 = Ok (Num 1).
Proof. vm_compute. reflexivity. Qed.

Lemma one_minus_percent_100 : one_minus_percent 100 = Ok (Zero false).
Proof. vm_compute. reflexivity. Qed.

Lemma scaled_monotone c1 c2 :
  0 < c1 -> 0 < c2 -> monotone_nn (fun x => fmul (fmul x (Num c1)) (Num c2)).
Proof.
  intros H1 H2.
  apply (monotone_nn_compose (fun x => fmul x (Num c1)) (fun x => fmul x (Num c2)));
    apply fmul_pos_monotone; assumption.
Qed.

(** X12. A cut of the monthly consumption between 0 and 100 % never
    raises the what-if electricity kilograms above the calculator's: at
    0 % the two are the same float, at 100 % the what-if kilograms are
    zero, and in between they are non-negative and at most the
    calculator's. *)
Theorem kwh_cut_never_raises_electricity i w :
  valid_input i = true -> (0 <= kwh_cut w <= 100)%Z ->
  exists e ne,
    electricity_emissions_kg i = Ok e /\ new_elec_kg i w = Ok ne /\
    nn ne /\ fle ne e /\
    (kwh_cut w = 0%Z -> ne = e) /\
    (kwh_cut w = 100%Z -> feqb ne (Zero false) = true).
Proof.
  intros V C.
  destruct (valid_input_inv i V) as (_ & _ & _ & _ & _ & Qk & _).
  destruct (compute_shape i V)
    as (days & ef_t & ef_e & daily & share0 & ef_w & _ & _ & _ & _ & Ge & Fe & _ & _ & _
        & _ & _ & _ & _ & _ & H).
  cbv zeta in H. destruct H as (_ & Ee & _).
  apply factor_ok_inv in Fe. destruct Fe as (_ & _ & c & -> & Hc).
  destruct (one_minus_percent_spec (kwh_cut w) C) as (pf & share & _ & _ & _ & _ & O & _ & _ & Bs).
  destruct (quantity_inv _ Qk) as (Fk & Pk & _).
  assert (En : new_elec_kg i w = Ok (fmul (fmul (fmul (monthly_kwh i) share) (lit 12 1)) (Num c))).
  { unfold new_elec_kg, new_monthly_kwh. rewrite O. cbn [bind]. rewrite Ge. reflexivity. }
  rewrite lit_12 in *.
  destruct Bs as (Fs & Ls & Us). change (pow2 0) with 1 in Us.
  destruct (fmul_finite_mono (monthly_kwh i) (monthly_kwh i) share (Num 1)) as [N M];
    try assumption; try reflexivity; try apply Qle_refl.
  destruct (scaled_monotone 12 c eq_refl Hc _ _ N M) as [N' M'].
  rewrite (fmul_one_then _ 12 Qk) in M'.
  eexists _, _. split; [exact Ee|]. split; [exact En|].
  split; [exact N'|]. split; [exact M'|]. split.
  - intros Z0. rewrite Z0, one_minus_percent_0 in O. injection O as <-.
    rewrite (fmul_one_then _ 12 Qk). reflexivity.
  - intros Z1. rewrite Z1, one_minus_percent_100 in O. injection O as <-.
    apply fmul_zero_chain. exact Fk.
Qed.

Lemma kwh_cut_never_raises_electricity_witness :
  valid_input default_input = true /\ (0 <= kwh_cut default_whatif <= 100)%Z /\
  exists e ne,
    electricity_emissions_kg default_input = Ok e /\
    new_elec_kg default_input default_whatif = Ok ne /\ nn ne /\ fle ne e.
Proof.
  split; [vm_compute; reflexivity|]. split; [cbn; lia|].
  destruct (kwh_cut_never_raises_electricity default_input default_whatif)
    as (e & ne & A & B & C & D & _); [vm_compute; reflexivity|cbn; lia|].
  exists e, ne. repeat split; assumption.
Defined.

(** X13. Added segregation points never raise the what-if waste
    kilograms above the calculator's: with no points added the two are
    the same float, once the capped rate reaches 100 the what-if
    kilograms are zero, and otherwise they are non-negative and at most
    the calculator's. *)
Theorem extra_segregation_never_raises_waste i w :
  valid_input i = true -> (0 <= extra_segregation w)%Z ->
  exists kg nkg,
    waste_emissions_kg i = Ok kg /\ new_waste_kg i w = Ok nkg /\
    nn nkg /\ fle nkg kg /\
    (extra_segregation w = 0%Z -> nkg = kg) /\
    ((100 <= segregation i + extra_segregation w)%Z -> feqb nkg (Zero false) = true).
Proof.
  intros V C.
  destruct (valid_input_inv i V) as (_ & _ & _ & _ & _ & _ & _ & Qw & _ & Hs).
  destruct (compute_shape i V)
    as (days & ef_t & ef_e & daily & share & ef_w & _ & _ & _ & _ & _ & _ & _ & _ & _
        & O & Bs & _ & Gw & Fw & H).
  cbv zeta in H. destruct H as (_ & _ & _ & Ew & _).
  apply factor_ok_inv in Fw. destruct Fw as (_ & _ & c & -> & Hc).
  assert (Hn : (segregation i <= new_segregation i w <= 100)%Z)
    by (unfold new_segregation; lia).
  destruct (one_minus_percent_spec (new_segregation i w) ltac:(lia))
    as (pf & share' & _ & _ & _ & _ & O' & _ & _ & Bs').
  destruct (quantity_inv _ Qw) as (Fk & Pk & _).
  assert (En : new_waste_kg i w =
               Ok (fmul (fmul (fmul (weekly_waste_kg i) share') (lit 52 1)) (Num c))).
  { unfold new_waste_kg. rewrite O'. cbn [bind]. rewrite Gw. reflexivity. }
  rewrite lit_52 in *.
  pose proof (one_minus_percent_anti (segregation i) (new_segregation i w) share share'
                ltac:(lia) ltac:(lia) O O') as A.
  destruct Bs as (Fs & Ls & Us). destruct Bs' as (Fs' & Ls' & Us').
  destruct (fmul_finite_mono (weekly_waste_kg i) (weekly_waste_kg i) share' share) as [N M];
    try assumption; try apply Qle_refl.
  { apply fle_finite in A; assumption. }
  destruct (scaled_monotone 52 c eq_refl Hc _ _ N M) as [N' M'].
  eexists _, _. split; [exact Ew|]. split; [exact En|].
  split; [exact N'|]. split; [exact M'|]. split.
  - intros Z0. assert (Eq : new_segregation i w = segregation i)
      by (unfold new_segregation; lia).
    rewrite Eq, O in O'. injection O' as <-. reflexivity.
  - intros Z1. assert (Eq : new_segregation i w = 100%Z) by (unfold new_segregation; lia).
    rewrite Eq, one_minus_percent_100 in O'. injection O' as <-.
    apply fmul_zero_chain. exact Fk.
Qed.

Lemma extra_segregation_never_raises_waste_witness :
  valid_input default_input = true /\ (0 <= extra_segregation default_whatif)%Z /\
  exists kg nkg,
    waste_emissions_kg default_input = Ok kg /\
    new_waste_kg default_input default_whatif = Ok nkg /\ nn nkg /\ fle nkg kg.
Proof.
  split; [vm_compute; reflexivity|]. split; [cbn; lia|].
  destruct (extra_segregation_never_raises_waste default_input default_whatif)
    as (e & ne & A & B & C & D & _); [vm_compute; reflexivity|cbn; lia|].
  exists e, ne. repeat split; assumption.
Defined.

(** X14. Switching to a commute mode, or to a diet, whose factor is not
    above the current one never raises the what-if kilograms of that
    category above the calculator's. *)
Theorem switch_to_lower_factor_never_raises i w :
  valid_input i = true ->
  (forall a b,
     getitem TRANSPORT_EF_PAXKM (alt_mode w) = Ok a ->
     getitem TRANSPORT_EF_PAXKM (mode i) = Ok b -> fle a b ->
     exists t nt,
       transport_emissions_kg i = Ok t /\ new_trans_kg i w = Ok nt /\ nn nt /\ fle nt t) /\
  (forall a b,
     getitem DIET_DAILY (diet_switch w) = Ok a ->
     getitem DIET_DAILY (diet_type i) = Ok b -> fle a b ->
     exists d nd,
       diet_emissions_kg i = Ok d /\ new_diet_kg w = Ok nd /\ nn nd /\ fle nd d).
Proof.
  intros V.
  destruct (valid_input_inv i V) as (_ & _ & Qd & _).
  destruct (compute_shape i V)
    as (days & ef_t & ef_e & daily & share & ef_w & Ed & Bd & Gt & _ & _ & _ & Gd & _ & _
        & _ & _ & _ & _ & _ & H).
  cbv zeta in H. destruct H as (Et & _ & Edt & _).
  destruct (quantity_inv _ Qd) as (Fd & Pd & _).
  split.
  - intros a b Ga Gb L. rewrite Gt in Gb. injection Gb as ->.
    pose proof (getitem_forallb _ (factor_ok (-2)) _ _ transport_table_ok Ga) as Fa.
    pose proof (getitem_forallb _ (factor_ok (-2)) _ _ transport_table_ok Gt) as Fb.
    apply factor_ok_inv in Fa, Fb.
    destruct Fa as (_ & _ & ca & -> & Ha), Fb as (_ & _ & cb & -> & Hb).
    assert (En : new_trans_kg i w = Ok (fmul (fmul (daily_commute_km i) days) (Num ca))).
    { unfold new_trans_kg. rewrite Ga. cbn [bind]. rewrite Ed. reflexivity. }
    eexists _, _. split; [exact Et|]. split; [exact En|].
    destruct (fmul_finite_mono (daily_commute_km i) (daily_commute_km i) days days) as [N _];
      try assumption; try apply Bd; try apply Qle_refl.
    apply fle_finite in L; [|reflexivity|reflexivity]. cbn [F2Q] in L.
    destruct (nn_cases _ N) as [[F P]| ->].
    + apply fmul_finite_mono; try assumption; try reflexivity; cbn [F2Q]; lra.
    + cbn [fmul]. rewrite !sign_positive by assumption. split; reflexivity.
  - intros a b Ga Gb L. rewrite Gd in Gb. injection Gb as ->.
    pose proof (getitem_forallb _ diet_check _ _ diet_table_check Ga) as Ca.
    pose proof (getitem_forallb _ diet_fixed _ _ diet_table_fixed Ga) as Fa.
    assert (En : new_diet_kg w = Ok (fmul a (lit 365 1))).
    { unfold new_diet_kg. rewrite Ga. reflexivity. }
    eexists _, _. split; [exact Edt|]. split; [exact En|].
    assert (Pa : forallb (fun kv => positive_float (snd kv)) DIET_DAILY = true)
      by (vm_compute; reflexivity).
    pose proof (getitem_forallb _ positive_float _ _ Pa Ga) as Xa.
    pose proof (getitem_forallb _ positive_float _ _ Pa Gd) as Xb.
    apply positive_float_inv in Xa, Xb.
    destruct Xa as (ca & -> & Ha), Xb as (cb & -> & Hb).
    apply fle_finite in L; [|reflexivity|reflexivity]. cbn [F2Q] in L.
    assert (L365 : lit 365 1 = Num 365) by (vm_compute; reflexivity).
    rewrite L365.
    apply fmul_finite_mono; try reflexivity; cbn [F2Q]; lra.
Qed.

Lemma switch_to_lower_factor_never_raises_witness :
  valid_input default_input = true /\
  exists t nt,
    transport_emissions_kg default_input = Ok t /\
    new_trans_kg default_input default_whatif = Ok nt /\ nn nt /\ fle nt t.
Proof.
  split; [vm_compute; reflexivity|].
  destruct (switch_to_lower_factor_never_raises default_input default_whatif) as [T _];
    [vm_compute; reflexivity|].
  apply (T (lit 97 1000) (lit 170 1000)); vm_compute; reflexivity.
Defined.

(** X17. The what-if block checks no range either: whatever the numbers
    are (the ints being convertible to a float), it gives a new total
    when the alternative mode, the country, the diet switched to and the
    treatment are keys of their tables, and otherwise raises [KeyError]
    for one of these four keys. *)
Theorem whatif_fails_only_on_unknown_keys i w :
  (Z.abs (commute_days i) <= 2 ^ 1023)%Z ->
  (Z.abs (kwh_cut w) <= 2 ^ 1023)%Z ->
  (Z.abs (new_segregation i w) <= 2 ^ 1023)%Z ->
  let known :=
    mem (alt_mode w) (keys TRANSPORT_EF_PAXKM) && mem (country i) (keys ELECTRICITY_EF)
    && mem (diet_switch w) (keys DIET_DAILY) && mem (waste_treatment i) (keys WASTE_EF) in
  (known = true -> exists nt, new_total_t i w = Ok nt) /\
  (known = false ->
   exists k, new_total_t i w = Raise (KeyError k) /\
             (k = alt_mode w \/ k = country i \/ k = diet_switch w \/ k = waste_treatment i)).
Proof.
  intros Hd Hk Hs known. subst known.
  destruct (of_int_ok _ Hd) as (days & Ed).
  destruct (one_minus_percent_ok _ Hk) as (cut & Ek).
  destruct (one_minus_percent_ok _ Hs) as (share & Es).
  unfold new_total_t, new_trans_kg, new_elec_kg, new_monthly_kwh, new_diet_kg, new_waste_kg.
  rewrite Ed, Ek, Es. cbn [bind].
  destruct (mem (alt_mode w) (keys TRANSPORT_EF_PAXKM)) eqn:Mm.
  2:{ rewrite (getitem_not_mem _ _ Mm). cbn [bind andb]. split; [discriminate|]. eauto. }
  destruct (getitem_mem _ _ Mm) as (v1 & ->). cbn [bind andb].
  destruct (mem (country i) (keys ELECTRICITY_EF)) eqn:Mc.
  2:{ rewrite (getitem_not_mem _ _ Mc). cbn [bind andb]. split; [discriminate|]. eauto. }
  destruct (getitem_mem _ _ Mc) as (v2 & ->). cbn [bind andb].
  destruct (mem (diet_switch w) (keys DIET_DAILY)) eqn:Md.
  2:{ rewrite (getitem_not_mem _ _ Md). cbn [bind andb]. split; [discriminate|]. eauto 6. }
  destruct (getitem_mem _ _ Md) as (v3 & ->). cbn [bind andb].
  destruct (mem (waste_treatment i) (keys WASTE_EF)) eqn:Mw.
  2:{ rewrite (getitem_not_mem _ _ Mw). cbn [bind andb]. split; [discriminate|]. eauto 7. }
  destruct (getitem_mem _ _ Mw) as (v4 & ->). cbn [bind andb].
  split; [eauto|discriminate].
Qed.

Lemma whatif_fails_only_on_unknown_keys_witness :
  exists k,
    new_total_t default_input
      {| alt_mode := "tram"; alt_occupancy := lit 2 1; kwh_cut := 20;
         diet_switch := "Vegan"; extra_segregation := 20 |} = Raise (KeyError k) /\
    (k = "tram" \/ k = "India" \/ k = "Vegan" \/ k = "Landfill (typical managed)")%string.
Proof.
  refine (proj2 (whatif_fails_only_on_unknown_keys default_input
            {| alt_mode := "tram"; alt_occupancy := lit 2 1; kwh_cut := 20;
               diet_switch := "Vegan"; extra_segregation := 20 |} _ _ _) _).
  - apply Z.leb_le. vm_compute. reflexivity.
  - apply Z.leb_le. vm_compute. reflexivity.
  - apply Z.leb_le. vm_compute. reflexivity.
  - vm_compute. reflexivity.
Defined.

(** * How far the three totals of the program lie apart *)

(** The sum of four category values that stand for the decimals [nT],
    [nE], [nD], [nW], before it is rounded. *)
Lemma sum_near_decimal T E D W nT nE nD nW :
  bnd T 6 -> bnd E 6 -> bnd D 6 -> bnd W 6 ->
  Qabs (F2Q T - inject_Z nT / 1000) <= tiny ->
  Qabs (F2Q E - inject_Z nE / 1000) <= tiny ->
  Qabs (F2Q D - inject_Z nD / 1000) <= tiny ->
  Qabs (F2Q W - inject_Z nW / 1000) <= tiny ->
  bnd (py_sum [T; E; D; W]) 10 /\
  Qabs (F2Q (py_sum [T; E; D; W]) - inject_Z (nT + nE + nD + nW) / 1000) <= 8 * tiny.
Proof.
  intros BT BE BD BW ET EE ED EW.
  assert (B0 : bnd (Zero false) 6).
  { repeat split; cbn [F2Q]; try lra. apply Qlt_le_weak, pow2_pos. }
  assert (E0 : Qabs (F2Q (Zero false) - 0) <= 0) by (cbn [F2Q]; apply Qabs_le_intro; lra).
  destruct (fadd_approx _ _ _ _ _ _ 6 B0 BT ltac:(lia) E0 ET) as [B1 E1].
  destruct (fadd_approx _ _ _ _ _ _ 7 B1 (bnd_weaken _ _ 7 BE ltac:(lia)) ltac:(lia) E1 EE)
    as [B2 E2].
  destruct (fadd_approx _ _ _ _ _ _ 8 B2 (bnd_weaken _ _ 8 BD ltac:(lia)) ltac:(lia) E2 ED)
    as [B3 E3].
  destruct (fadd_approx _ _ _ _ _ _ 9 B3 (bnd_weaken _ _ 9 BW ltac:(lia)) ltac:(lia) E3 EW)
    as [B4 E4].
  change (fadd (fadd (fadd (fadd (Zero false) T) E) D) W) with (py_sum [T; E; D; W]) in B4, E4.
  cbn [Z.add Pos.add Pos.succ] in B4.
  split; [exact B4|].
  assert (N : inject_Z (nT + nE + nD + nW) / 1000 ==
              0 + inject_Z nT / 1000 + inject_Z nE / 1000 + inject_Z nD / 1000
              + inject_Z nW / 1000).
  { rewrite !inject_Z_plus. field. }
  apply Qabs_le_elim in E4. apply Qabs_le_intro; unfold tiny in *; lra.
Qed.

(** X15. For a valid input within the sliders' ranges the unrounded
    Total of the export and the rounded total of the calculator are
    finite and less than 10^-11 apart: the export differs from the
    displayed total by float rounding only (with [sum] adding from left to
    right). *)
Theorem export_total_is_near_total i :
  valid_input i = true -> within_widget_ranges i = true ->
  exists cats,
    category_tonnes i = Ok cats /\
    is_finite (export_total cats) = true /\
    is_finite (total_of cats) = true /\
    Qabs (F2Q (export_total cats) - F2Q (total_of cats)) <= 1 # 100000000000.
Proof.
  intros V R.
  destruct (raw_tonnes_in_range i V R)
    as (t & e & d & w & Et & Ee & Ed & Ew & Ec & Bt & Be & Bw & daily & -> & C).
  apply diet_check_inv in C. cbv zeta in C. destruct C as (Bd & Dd & Errd & Fd).
  destruct (tonnes_decimal _ Bt) as (BT & NT & AT & RT).
  destruct (tonnes_decimal _ Be) as (BE & NE & AE & RE).
  destruct (tonnes_decimal _ Bd) as (BD & ND & AD & _).
  destruct (tonnes_decimal _ Bw) as (BW & NW & AW & RW).
  destruct (total_decimal _ _ _ _ _ _ _ _ BT BE BD BW AT AE AD AW) as (Dn & Fin & Err).
  destruct (sum_near_decimal _ _ _ _ _ _ _ _ BT BE BD BW AT AE AD AW) as (Bs & Es).
  eexists. split; [exact Ec|].
  unfold export_total, total_of, tonnes. cbn [values map snd].
  split; [apply Bs|]. split; [exact Fin|].
  apply Qabs_le_elim in Err, Es. apply Qabs_le_intro; unfold tiny in *; lra.
Qed.

Lemma export_total_is_near_total_witness :
  valid_input default_input = true /\ within_widget_ranges default_input = true /\
  exists cats,
    category_tonnes default_input = Ok cats /\
    is_finite (export_total cats) = true /\
    is_finite (total_of cats) = true /\
    Qabs (F2Q (export_total cats) - F2Q (total_of cats)) <= 1 # 100000000000.
Proof.
  split; [vm_compute; reflexivity|]. split; [vm_compute; reflexivity|].
  apply (export_total_is_near_total default_input); vm_compute; reflexivity.
Defined.

(** *** The once-rounded total of the what-if tab *)

Lemma diet_table_kg : forallb (fun kv => diet_kg_check (snd kv)) DIET_DAILY = true.
Proof. vm_compute. reflexivity. Qed.

(** Within the sliders' ranges every category is below 2^15 kilograms. *)
Lemma kg_in_range i :
  valid_input i = true -> within_widget_ranges i = true ->
  exists t e d w,
    transport_emissions_kg i = Ok t /\ electricity_emissions_kg i = Ok e /\
    diet_emissions_kg i = Ok d /\ waste_emissions_kg i = Ok w /\
    bnd t 15 /\ bnd e 15 /\ bnd d 15 /\ bnd w 15.
Proof.
  intros V R.
  destruct (valid_input_inv i V) as (_ & _ & Qd & _ & _ & Qk & _ & Qw & _).
  unfold within_widget_ranges in R. rewrite !andb_true_iff in R. destruct R as [[Rd Rk] Rw].
  destruct (compute_shape i V)
    as (days & ef_t & ef_e & daily & share & ef_w & Ed & Bd & _ & Ft & _ & Fe & Gd & _ & _
        & _ & Bs & _ & _ & Fw & H).
  cbv zeta in H. destruct H as (Et & Ee & Edt & Ew & Ec).
  apply factor_ok_inv in Ft, Fe, Fw. destruct Ft as (Bt & _), Fe as (Be & _), Fw as (Bw & _).
  pose proof (quantity_bnd _ _ 8 Qd Rd eq_refl) as Bx.
  pose proof (quantity_bnd _ _ 11 Qk Rk eq_refl) as Bk.
  pose proof (quantity_bnd _ _ 7 Qw Rw eq_refl) as Bg.
  assert (B12 : bnd (lit 12 1) 4) by (apply bndb_bnd; vm_compute; reflexivity).
  assert (B52 : bnd (lit 52 1) 6) by (apply bndb_bnd; vm_compute; reflexivity).
  pose proof (getitem_forallb _ diet_kg_check _ _ diet_table_kg Gd) as Kd.
  eexists _, _, _, _. split; [exact Et|]. split; [exact Ee|]. split; [exact Edt|].
  split; [exact Ew|].
  split; [|split; [|split]].
  - change 15%Z with (8 + 9 + -2)%Z.
    apply fmul_bnd; [apply fmul_bnd| |]; try assumption; lia.
  - change 15%Z with (11 + 4 + 0)%Z.
    apply fmul_bnd; [apply fmul_bnd| |]; try assumption; lia.
  - apply bnd_weaken with 12%Z; [|lia]. apply bndb_bnd. exact Kd.
  - apply bnd_weaken with (7 + 0 + 6 + 1)%Z; [|lia].
    apply fmul_bnd; [apply fmul_bnd; [apply fmul_bnd| |]| |]; try assumption; lia.
Qed.

(** The error of a division by 1000. *)
Lemma fdiv_1000_err x a :
  bnd x a -> (-1000 <= a <= 1000)%Z ->
  bnd (fdiv x (Num 1000)) (a - 9) /\
  Qabs (F2Q (fdiv x (Num 1000)) - F2Q x * (1 # 1000)) <= pow2 (a - 9 - 53).
Proof.
  intros B H.
  assert (Bq : bnd (fdiv x (Num 1000)) (a - 9)).
  { apply fdiv_bnd; [exact B| |lia]. vm_compute. discriminate. }
  split; [exact Bq|].
  destruct B as (F & L & U).
  assert (P : pow2 a == pow2 (a - 9) * 512).
  { replace a with (a - 9 + 9)%Z at 1 by lia. rewrite pow2_add. reflexivity. }
  assert (Q0 : pow2 (a - 9) > 0) by apply pow2_pos.
  assert (N : ~ 1000 == 0) by discriminate.
  pose proof (fdiv_RN x 1000 F N) as V.
  destruct (RN_err (F2Q x / 1000) (a - 9)) as [Fr Er]; [|lia|].
  - unfold Qdiv. change (/ 1000) with (1 # 1000). apply Qabs_le_intro; lra.
  - apply feqv_sym in V. destruct (feqv_finite _ _ V Fr) as [_ Eq].
    rewrite Eq. unfold Qdiv in Er. change (/ 1000) with (1 # 1000) in Er. exact Er.
Qed.

(** The kilograms added, then divided by 1000: within 10^-12 of the sum
    of the four unrounded tonnes. *)
Lemma once_rounded_near t e d w :
  bnd t 15 -> bnd e 15 -> bnd d 15 -> bnd w 15 ->
  let q := fdiv (fadd (fadd (fadd t e) d) w) (Num 1000) in
  bnd q 9 /\
  Qabs (F2Q q - (F2Q (raw_tonnes t) + F2Q (raw_tonnes e) + F2Q (raw_tonnes d)
                 + F2Q (raw_tonnes w))) <= tiny.
Proof.
  intros Bt Be Bd Bw q.
  pose proof (fadd_bnd t e 15 Bt Be ltac:(lia)) as B1.
  pose proof (fadd_bnd _ d 16 B1 (bnd_weaken _ _ 16 Bd ltac:(lia)) ltac:(lia)) as B2.
  pose proof (fadd_bnd _ w 17 B2 (bnd_weaken _ _ 17 Bw ltac:(lia)) ltac:(lia)) as B3.
  cbn [Z.add Pos.add Pos.succ] in B1, B2, B3.
  assert (S : forall x y k, bnd x k -> bnd y k -> (0 <= k <= 100)%Z ->
              Qabs (F2Q (fadd x y) - (F2Q x + F2Q y)) <= pow2 (k + 1 - 53)).
  { intros x y k (Fx & Lx & Ux) (Fy & Ly & Uy) Hk.
    destruct (fadd_err x y (k + 1)) as [_ E]; [exact Fx|exact Fy| |lia|exact E].
    rewrite pow2_succ. apply Qabs_le_intro; assert (P := pow2_pos k); lra. }
  destruct (fdiv_1000_err _ 18 B3 ltac:(lia)) as [Bq Eq].
  destruct (fdiv_1000_err t 15 Bt ltac:(lia)) as [_ Rt].
  destruct (fdiv_1000_err e 15 Be ltac:(lia)) as [_ Re].
  destruct (fdiv_1000_err d 15 Bd ltac:(lia)) as [_ Rd].
  destruct (fdiv_1000_err w 15 Bw ltac:(lia)) as [_ Rw].
  split; [exact Bq|].
  unfold raw_tonnes. rewrite lit_1000. fold q in Eq.
  assert (P1 : pow2 (15 + 1 - 53) <= 3 # 100000000000) by (apply pow2_below; reflexivity).
  assert (P2 : pow2 (16 + 1 - 53) <= 3 # 100000000000) by (apply pow2_below; reflexivity).
  assert (P3 : pow2 (17 + 1 - 53) <= 3 # 100000000000) by (apply pow2_below; reflexivity).
  assert (P4 : pow2 (18 - 9 - 53) <= 1 # 10000000000000) by (apply pow2_below; reflexivity).
  assert (P5 : pow2 (15 - 9 - 53) <= 1 # 100000000000000) by (apply pow2_below; reflexivity).
  pose proof (S t e 15%Z Bt Be ltac:(lia)) as F1.
  pose proof (S _ d 16%Z B1 (bnd_weaken _ _ 16 Bd ltac:(lia)) ltac:(lia)) as F2.
  pose proof (S _ w 17%Z B2 (bnd_weaken _ _ 17 Bw ltac:(lia)) ltac:(lia)) as F3.
  apply Qabs_le_elim in F1, F2, F3, Eq, Rt, Re, Rd, Rw.
  apply Qabs_le_intro; unfold tiny; lra.
Qed.

(** The what-if tab evaluates the kilograms of the alternate input. *)
Lemma alternate_kilograms i w a t e d ws :
  alternate_input i w = Ok a ->
  transport_emissions_kg a = Ok t -> electricity_emissions_kg a = Ok e ->
  diet_emissions_kg a = Ok d -> waste_emissions_kg a = Ok ws ->
  new_total_t i w = Ok (py_round (fdiv (fadd (fadd (fadd t e) d) ws) (Num 1000)) 3).
Proof.
  intros H. unfold alternate_input in H.
  destruct (new_monthly_kwh i w) as [kwh|] eqn:K; [|discriminate].
  injection H as <-. rewrite transport_emissions_kg_eq.
  unfold annual_commute_km, electricity_emissions_kg, annual_kwh, diet_emissions_kg,
    waste_emissions_kg.
  cbn [commute_days daily_commute_km mode country monthly_kwh diet_type weekly_waste_kg
         waste_treatment segregation].
  intros Ht He Hd Hw.
  unfold new_total_t, new_trans_kg, new_elec_kg, new_diet_kg, new_waste_kg. rewrite K.
  cbn [bind].
  destruct (of_int (commute_days i)) as [days|]; [|discriminate]. cbn [bind] in Ht |- *.
  destruct (getitem TRANSPORT_EF_PAXKM (alt_mode w)) as [ef_t|]; [|discriminate].
  cbn [bind] in Ht |- *. injection Ht as <-.
  destruct (getitem ELECTRICITY_EF (country i)) as [ef_e|]; [|discriminate].
  cbn [bind] in He |- *. injection He as <-.
  destruct (getitem DIET_DAILY (diet_switch w)) as [daily|]; [|discriminate].
  cbn [bind] in Hd |- *. injection Hd as <-.
  destruct (one_minus_percent (new_segregation i w)) as [share|]; [|discriminate].
  cbn [bind] in Hw |- *.
  destruct (getitem WASTE_EF (waste_treatment i)) as [ef_w|]; [|discriminate].
  cbn [bind] in Hw |- *. injection Hw as <-.
  rewrite lit_1000. reflexivity.
Qed.

(** X16. Whenever the alternate input described by the what-if widgets
    is valid and within the sliders' ranges, the new total of the what-if
    tab (the kilograms added, then rounded once) and the total that the
    calculation gives for that input (each category rounded, then added)
    are less than 0.002001 apart: the two ways of rounding disagree by at
    most two units of the third decimal. *)
Theorem whatif_total_is_near_calculator_total i w a :
  alternate_input i w = Ok a ->
  valid_input a = true -> within_widget_ranges a = true ->
  exists nt r,
    new_total_t i w = Ok nt /\ compute a = Ok r /\
    is_finite nt = true /\ is_finite (total r) = true /\
    Qabs (F2Q nt - F2Q (total r)) <= 2001 # 1000000.
Proof.
  intros A V R.
  destruct (compute_decimals a V R)
    as (t & e & d & ws & r & Et & Ee & Ed & Ew & Ec & _ & _ & Fin & H).
  cbv zeta in H. destruct H as [Err Dist].
  destruct (kg_in_range a V R) as (t' & e' & d' & w' & Et' & Ee' & Ed' & Ew' & Bt & Be & Bd & Bw).
  rewrite Et in Et'. rewrite Ee in Ee'. rewrite Ed in Ed'. rewrite Ew in Ew'.
  injection Et' as <-. injection Ee' as <-. injection Ed' as <-. injection Ew' as <-.
  pose proof (alternate_kilograms i w a t e d ws A Et Ee Ed Ew) as N.
  destruct (once_rounded_near t e d ws Bt Be Bd Bw) as [Bq Eq].
  set (q := fdiv (fadd (fadd (fadd t e) d) ws) (Num 1000)) in *.
  destruct (py_round_err q 3 9 Bq ltac:(lia)) as [E1 E2].
  rewrite scale_3 in E1, E2.
  assert (P : pow2 (9 - 53) <= tiny) by (apply pow2_tiny; lia).
  set (m := decimal q 3) in *.
  set (n := (decimal (raw_tonnes t) 3 + decimal (raw_tonnes e) 3 +
             decimal (raw_tonnes d) 3 + decimal (raw_tonnes ws) 3)%Z) in *.
  set (sr := F2Q (raw_tonnes t) + F2Q (raw_tonnes e) + F2Q (raw_tonnes d)
             + F2Q (raw_tonnes ws)) in *.
  unfold Qdiv in E1, E2, Err, Dist. change (/ 1000) with (1 # 1000) in E1, E2, Err, Dist.
  change ((1 # 2) * (1 # 1000)) with (1 # 2000) in E1.
  apply Qabs_le_elim in E1, E2, Err, Dist, Eq.
  assert (Z : (-2 <= m - n <= 2)%Z).
  { assert (U : inject_Z (m - n) < inject_Z 3).
    { unfold Zminus. rewrite inject_Z_plus, inject_Z_opp.
      change (inject_Z 3) with 3. unfold tiny in *. lra. }
    assert (L : inject_Z (-3) < inject_Z (m - n)).
    { unfold Zminus. rewrite inject_Z_plus, inject_Z_opp.
      change (inject_Z (-3)) with (-3 # 1). unfold tiny in *. lra. }
    rewrite <- Zlt_Qlt in U, L. lia. }
  assert (ZQ : -2 <= inject_Z m - inject_Z n /\ inject_Z m - inject_Z n <= 2).
  { destruct Z as [Z1 Z2]. rewrite Zle_Qle in Z1, Z2.
    unfold Zminus in Z1, Z2. rewrite inject_Z_plus, inject_Z_opp in Z1, Z2.
    change (inject_Z (-2)) with (-2 # 1) in Z1. change (inject_Z 2) with 2 in Z2.
    split; lra. }
  exists (py_round q 3), r.
  split; [exact N|]. split; [exact Ec|].
  split; [apply (py_round_bnd q 3 9 Bq); lia|]. split; [exact Fin|].
  apply Qabs_le_intro; unfold tiny in *; lra.
Qed.

Lemma whatif_total_is_near_calculator_total_witness :
  exists a,
    alternate_input bus_input no_change = Ok a /\
    valid_input a = true /\ within_widget_ranges a = true /\
    exists nt r,
      new_total_t bus_input no_change = Ok nt /\ compute a = Ok r /\
      is_finite nt = true /\ is_finite (total r) = true /\
      Qabs (F2Q nt - F2Q (total r)) <= 2001 # 1000000.
Proof.
  eexists. split; [vm_compute; reflexivity|].
  split; [vm_compute; reflexivity|]. split; [vm_compute; reflexivity|].
  apply (whatif_total_is_near_calculator_total bus_input no_change);
    vm_compute; reflexivity.
Defined.
